(** * Airtime calculator and information-element container of the 802.11ad
      wifi model: a shallow embedding and its verified properties.

    The first part embeds [WifiPhy] (src/wifi/model/wifi-phy.cc): the mode
    catalog, the PLCP preamble and header durations and
    [WifiPhy::GetPayloadDuration] with its A-MPDU accumulator, then the
    header modes, [CalculateTxDuration], [CaluclateTransmittedBits] and
    [IsValidTxVector].  The second
    part embeds [MgtFrame] (src/wifi/model/common-header.cc): the map of
    information elements and its wire codec.

    Numbers.  [uint32_t] and [uint64_t] values are integers in [Z] with the
    reduction modulo 2^32 or 2^64 written where the C++ expression is
    evaluated in that type.  A [double] is an exact rational in [Q]: the
    embedding keeps the arithmetic of the source and leaves the binary64
    rounding of each operation out.  Where the rounding decides, in the
    symbols an A-MPDU accumulates frame by frame, the branch of the OFDM,
    HT and VHT payload is embedded a second time in [Binary64Phy], every
    operation on doubles followed by [Binary64.round], the rounding to the
    nearest binary64 number; the theorems on A-MPDUs and on the whole
    symbols of a plain MPDU are about that embedding.  A division of
    doubles by zero yields an infinity or a NaN in C++, and every quotient
    of this file is next converted to an integer type, which the language
    leaves undefined for such values; the embedding stops at the division
    with [DivisionByZero]. *)

From Stdlib Require Import ZArith QArith Qround Qabs Qpower Lia Lqa String
  List.
From stdpp Require Import gmap sorting.

Open Scope Z_scope.

(** ** Outcomes: a value, or the reason the simulator stops. *)

Inductive error : Type :=
| FatalError (msg : string)      (* NS_FATAL_ERROR *)
| AssertionFailed                (* NS_ASSERT *)
| DivisionByZero                 (* a double quotient with divisor 0 *)
| UndefinedConversion            (* double to integer, value out of range *)
| NullDereference                (* a call through a null Ptr *)
| BufferOverrun.                 (* a read past the end of the buffer *)

Inductive result (A : Type) : Type :=
| Ok (a : A)
| Err (e : error).

Arguments Ok {A} a.
Arguments Err {A} e.

Definition rbind {A B : Type} (r : result A) (k : A -> result B) : result B :=
  match r with
  | Ok a => k a
  | Err e => Err e
  end.

Declare Scope result_scope.
Delimit Scope result_scope with res.
Notation "'let?' x := r 'in' k" := (rbind r (fun x => k))
  (at level 10, x name, r at level 100, k at level 200) : result_scope.
Open Scope result_scope.

(** ** Machine arithmetic *)

Module Num.

Definition wrap32 (z : Z) : Z := z mod 2 ^ 32.
Definition wrap64 (z : Z) : Z := z mod 2 ^ 64.

(** [ceil] of <cmath>, on the rational model of a double. *)
Definition ceil (x : Q) : Q := inject_Z (Qceiling x).

(** Truncation toward zero, the rule of every floating-integral
    conversion. *)
Definition trunc (x : Q) : Z :=
  if Qle_bool 0 x then Qfloor x else Qceiling x.

(** [(uint32_t) x] for a double [x]: defined only when the truncated value
    fits the type. *)
Definition to_uint32 (x : Q) : result Z :=
  let t := trunc x in
  if (0 <=? t) && (t <? 2 ^ 32) then Ok t else Err UndefinedConversion.

Definition to_uint64 (x : Q) : result Z :=
  let t := trunc x in
  if (0 <=? t) && (t <? 2 ^ 64) then Ok t else Err UndefinedConversion.

(** [lrint]: the nearest integer, ties to even (the default rounding
    mode), as a 64-bit [long]. *)
Definition nearest_even (x : Q) : Z :=
  let f := Qfloor x in
  let r := (x - inject_Z f)%Q in
  match (r ?= 1 # 2)%Q with
  | Lt => f
  | Gt => f + 1
  | Eq => if Z.even f then f else f + 1
  end.

Definition lrint (x : Q) : result Z :=
  let r := nearest_even x in
  if (- 2 ^ 63 <=? r) && (r <? 2 ^ 63) then Ok r else Err UndefinedConversion.

(** Double division. *)
Definition fdiv (x y : Q) : result Q :=
  if Qeq_bool y 0 then Err DivisionByZero else Ok (x / y)%Q.

End Num.

(** ** Binary64 arithmetic

    A double that is neither an infinity nor a NaN is a rational number;
    an operation on doubles returns the exact result rounded to the
    nearest double. *)

Module Binary64.

Definition pow2 (e : Z) : Q := (2 ^ e)%Q.

(** The binary exponent of [x <> 0]: the [e] with [2^e <= |x| < 2^(e+1)],
    from the bit lengths of the numerator and the denominator. *)
Definition ilog2 (x : Q) : Z :=
  let k := Z.log2 (Z.abs (Qnum x)) - Z.log2 (Zpos (Qden x)) in
  if Qle_bool (pow2 k) (Qabs x) then k else k - 1.

(** The nearest number with a significand of 53 bits, ties to even; below
    2^-1022 the spacing stays 2^-1074 (subnormal numbers).  No quantity of
    this file comes near the largest double, so overflow is left out. *)
Definition round (x : Q) : Q :=
  if Qeq_bool x 0 then 0%Q
  else
    let e := Z.max (ilog2 x - 52) (-1074) in
    (inject_Z (Num.nearest_even (x / pow2 e)) * pow2 e)%Q.

(** The conversion of an integer, and the four operations: the exact
    result, rounded. *)
Definition of_int (z : Z) : Q := round (inject_Z z).
Definition add (x y : Q) : Q := round (x + y).
Definition sub (x y : Q) : Q := round (x - y).
Definition mul (x y : Q) : Q := round (x * y).
Definition div (x y : Q) : result Q :=
  if Qeq_bool y 0 then Err DivisionByZero else Ok (round (x / y)).

(** 2^-53, the largest relative error of a rounding. *)
Definition unit_roundoff : Q := 1 # 9007199254740992.

End Binary64.

(** ** Simulation time

    [Time] is a signed 64-bit count of nanoseconds.  [NanoSeconds] and
    [MicroSeconds] come from the simulator core and take a [uint64_t]
    count; a double argument therefore goes through the floating-integral
    conversion first. *)

Definition Time : Type := Z.

Definition int64_of_uint64 (v : Z) : Z :=
  if v <? 2 ^ 63 then v else v - 2 ^ 64.

Definition NanoSeconds (v : Z) : Time := int64_of_uint64 v.
Definition MicroSeconds (v : Z) : Time := int64_of_uint64 (Num.wrap64 (v * 1000)).

Definition NanoSecondsD (x : Q) : result Time :=
  let? v := Num.to_uint64 x in Ok (NanoSeconds v).

(** ** Enumerations of wifi-mode.h, wifi-preamble.h and wifi-phy.h *)

Inductive WifiModulationClass : Type :=
| WIFI_MOD_CLASS_UNKNOWN   (* every enumerator no switch of the file names *)
| WIFI_MOD_CLASS_DSSS
| WIFI_MOD_CLASS_HR_DSSS
| WIFI_MOD_CLASS_ERP_OFDM
| WIFI_MOD_CLASS_OFDM
| WIFI_MOD_CLASS_HT
| WIFI_MOD_CLASS_VHT
| WIFI_MOD_CLASS_DMG_CTRL
| WIFI_MOD_CLASS_DMG_OFDM
| WIFI_MOD_CLASS_DMG_SC
| WIFI_MOD_CLASS_DMG_LP_SC.

Inductive WifiCodeRate : Type :=
| WIFI_CODE_RATE_UNDEFINED
| WIFI_CODE_RATE_3_4
| WIFI_CODE_RATE_2_3
| WIFI_CODE_RATE_1_2
| WIFI_CODE_RATE_5_6
| WIFI_CODE_RATE_1_4
| WIFI_CODE_RATE_13_28
| WIFI_CODE_RATE_13_21
| WIFI_CODE_RATE_52_63
| WIFI_CODE_RATE_13_14
| WIFI_CODE_RATE_13_16
| WIFI_CODE_RATE_5_8.

Inductive WifiPreamble : Type :=
| WIFI_PREAMBLE_LONG
| WIFI_PREAMBLE_SHORT
| WIFI_PREAMBLE_HT_MF
| WIFI_PREAMBLE_HT_GF
| WIFI_PREAMBLE_VHT
| WIFI_PREAMBLE_NONE.

Inductive mpduType : Type :=
| NORMAL_MPDU
| MPDU_IN_AGGREGATE
| LAST_MPDU_IN_AGGREGATE.

Definition WifiCodeRate_eqb (a b : WifiCodeRate) : bool :=
  match a, b with
  | WIFI_CODE_RATE_UNDEFINED, WIFI_CODE_RATE_UNDEFINED
  | WIFI_CODE_RATE_3_4, WIFI_CODE_RATE_3_4
  | WIFI_CODE_RATE_2_3, WIFI_CODE_RATE_2_3
  | WIFI_CODE_RATE_1_2, WIFI_CODE_RATE_1_2
  | WIFI_CODE_RATE_5_6, WIFI_CODE_RATE_5_6
  | WIFI_CODE_RATE_1_4, WIFI_CODE_RATE_1_4
  | WIFI_CODE_RATE_13_28, WIFI_CODE_RATE_13_28
  | WIFI_CODE_RATE_13_21, WIFI_CODE_RATE_13_21
  | WIFI_CODE_RATE_52_63, WIFI_CODE_RATE_52_63
  | WIFI_CODE_RATE_13_14, WIFI_CODE_RATE_13_14
  | WIFI_CODE_RATE_13_16, WIFI_CODE_RATE_13_16
  | WIFI_CODE_RATE_5_8, WIFI_CODE_RATE_5_8 => true
  | _, _ => false
  end.

Definition is_preamble_none (p : WifiPreamble) : bool :=
  match p with WIFI_PREAMBLE_NONE => true | _ => false end.

Definition is_mpdu_in_aggregate (t : mpduType) : bool :=
  match t with MPDU_IN_AGGREGATE => true | _ => false end.

Definition is_last_mpdu_in_aggregate (t : mpduType) : bool :=
  match t with LAST_MPDU_IN_AGGREGATE => true | _ => false end.

Definition is_normal_mpdu (t : mpduType) : bool :=
  match t with NORMAL_MPDU => true | _ => false end.

(** ** Mode descriptors (the items of WifiModeFactory) *)

Record WifiMode : Type := mkWifiMode {
  GetUniqueName : string;
  GetModulationClass : WifiModulationClass;
  IsMandatory : bool;
  GetBandwidth : Z;          (* DMG modes only *)
  GetNominalDataRate : Z;    (* DMG modes only *)
  GetCodeRate : WifiCodeRate;
  GetConstellationSize : Z;
  GetMcsValue : Z            (* HT and VHT modes only *)
}.

Definition CreateWifiMode (uniqueName : string) (modClass : WifiModulationClass)
    (isMandatory : bool) (codingRate : WifiCodeRate)
    (constellationSize : Z) : WifiMode :=
  mkWifiMode uniqueName modClass isMandatory 0 0 codingRate constellationSize 0.

Definition CreateWifiModeDmg (uniqueName : string)
    (modClass : WifiModulationClass) (isMandatory : bool)
    (bandwidth dataRate : Z) (codingRate : WifiCodeRate)
    (constellationSize : Z) : WifiMode :=
  mkWifiMode uniqueName modClass isMandatory bandwidth dataRate codingRate
    constellationSize 0.

Definition CreateWifiMcs (uniqueName : string) (mcsValue : Z)
    (modClass : WifiModulationClass) : WifiMode :=
  mkWifiMode uniqueName modClass false 0 0 WIFI_CODE_RATE_UNDEFINED 0 mcsValue.

(** The catalog, one accessor per mode, in the order of the source. *)

Definition GetDsssRate1Mbps : WifiMode :=
  CreateWifiMode "DsssRate1Mbps" WIFI_MOD_CLASS_DSSS true WIFI_CODE_RATE_UNDEFINED 2.

Definition GetDsssRate2Mbps : WifiMode :=
  CreateWifiMode "DsssRate2Mbps" WIFI_MOD_CLASS_DSSS true WIFI_CODE_RATE_UNDEFINED 4.

Definition GetDsssRate5_5Mbps : WifiMode :=
  CreateWifiMode "DsssRate5_5Mbps" WIFI_MOD_CLASS_HR_DSSS true WIFI_CODE_RATE_UNDEFINED 16.

Definition GetDsssRate11Mbps : WifiMode :=
  CreateWifiMode "DsssRate11Mbps" WIFI_MOD_CLASS_HR_DSSS true WIFI_CODE_RATE_UNDEFINED 256.

Definition GetErpOfdmRate6Mbps : WifiMode :=
  CreateWifiMode "ErpOfdmRate6Mbps" WIFI_MOD_CLASS_ERP_OFDM true WIFI_CODE_RATE_1_2 2.

Definition GetErpOfdmRate9Mbps : WifiMode :=
  CreateWifiMode "ErpOfdmRate9Mbps" WIFI_MOD_CLASS_ERP_OFDM false WIFI_CODE_RATE_3_4 2.

Definition GetErpOfdmRate12Mbps : WifiMode :=
  CreateWifiMode "ErpOfdmRate12Mbps" WIFI_MOD_CLASS_ERP_OFDM true WIFI_CODE_RATE_1_2 4.

Definition GetErpOfdmRate18Mbps : WifiMode :=
  CreateWifiMode "ErpOfdmRate18Mbps" WIFI_MOD_CLASS_ERP_OFDM false WIFI_CODE_RATE_3_4 4.

Definition GetErpOfdmRate24Mbps : WifiMode :=
  CreateWifiMode "ErpOfdmRate24Mbps" WIFI_MOD_CLASS_ERP_OFDM true WIFI_CODE_RATE_1_2 16.

Definition GetErpOfdmRate36Mbps : WifiMode :=
  CreateWifiMode "ErpOfdmRate36Mbps" WIFI_MOD_CLASS_ERP_OFDM false WIFI_CODE_RATE_3_4 16.

Definition GetErpOfdmRate48Mbps : WifiMode :=
  CreateWifiMode "ErpOfdmRate48Mbps" WIFI_MOD_CLASS_ERP_OFDM false WIFI_CODE_RATE_2_3 64.

Definition GetErpOfdmRate54Mbps : WifiMode :=
  CreateWifiMode "ErpOfdmRate54Mbps" WIFI_MOD_CLASS_ERP_OFDM false WIFI_CODE_RATE_3_4 64.

Definition GetOfdmRate6Mbps : WifiMode :=
  CreateWifiMode "OfdmRate6Mbps" WIFI_MOD_CLASS_OFDM true WIFI_CODE_RATE_1_2 2.

Definition GetOfdmRate9Mbps : WifiMode :=
  CreateWifiMode "OfdmRate9Mbps" WIFI_MOD_CLASS_OFDM false WIFI_CODE_RATE_3_4 2.

Definition GetOfdmRate12Mbps : WifiMode :=
  CreateWifiMode "OfdmRate12Mbps" WIFI_MOD_CLASS_OFDM true WIFI_CODE_RATE_1_2 4.

Definition GetOfdmRate18Mbps : WifiMode :=
  CreateWifiMode "OfdmRate18Mbps" WIFI_MOD_CLASS_OFDM false WIFI_CODE_RATE_3_4 4.

Definition GetOfdmRate24Mbps : WifiMode :=
  CreateWifiMode "OfdmRate24Mbps" WIFI_MOD_CLASS_OFDM true WIFI_CODE_RATE_1_2 16.

Definition GetOfdmRate36Mbps : WifiMode :=
  CreateWifiMode "OfdmRate36Mbps" WIFI_MOD_CLASS_OFDM false WIFI_CODE_RATE_3_4 16.

Definition GetOfdmRate48Mbps : WifiMode :=
  CreateWifiMode "OfdmRate48Mbps" WIFI_MOD_CLASS_OFDM false WIFI_CODE_RATE_2_3 64.

Definition GetOfdmRate54Mbps : WifiMode :=
  CreateWifiMode "OfdmRate54Mbps" WIFI_MOD_CLASS_OFDM false WIFI_CODE_RATE_3_4 64.

Definition GetOfdmRate3MbpsBW10MHz : WifiMode :=
  CreateWifiMode "OfdmRate3MbpsBW10MHz" WIFI_MOD_CLASS_OFDM true WIFI_CODE_RATE_1_2 2.

Definition GetOfdmRate4_5MbpsBW10MHz : WifiMode :=
  CreateWifiMode "OfdmRate4_5MbpsBW10MHz" WIFI_MOD_CLASS_OFDM false WIFI_CODE_RATE_3_4 2.

Definition GetOfdmRate6MbpsBW10MHz : WifiMode :=
  CreateWifiMode "OfdmRate6MbpsBW10MHz" WIFI_MOD_CLASS_OFDM true WIFI_CODE_RATE_1_2 4.

Definition GetOfdmRate9MbpsBW10MHz : WifiMode :=
  CreateWifiMode "OfdmRate9MbpsBW10MHz" WIFI_MOD_CLASS_OFDM false WIFI_CODE_RATE_3_4 4.

Definition GetOfdmRate12MbpsBW10MHz : WifiMode :=
  CreateWifiMode "OfdmRate12MbpsBW10MHz" WIFI_MOD_CLASS_OFDM true WIFI_CODE_RATE_1_2 16.

Definition GetOfdmRate18MbpsBW10MHz : WifiMode :=
  CreateWifiMode "OfdmRate18MbpsBW10MHz" WIFI_MOD_CLASS_OFDM false WIFI_CODE_RATE_3_4 16.

Definition GetOfdmRate24MbpsBW10MHz : WifiMode :=
  CreateWifiMode "OfdmRate24MbpsBW10MHz" WIFI_MOD_CLASS_OFDM false WIFI_CODE_RATE_2_3 64.

Definition GetOfdmRate27MbpsBW10MHz : WifiMode :=
  CreateWifiMode "OfdmRate27MbpsBW10MHz" WIFI_MOD_CLASS_OFDM false WIFI_CODE_RATE_3_4 64.

Definition GetOfdmRate1_5MbpsBW5MHz : WifiMode :=
  CreateWifiMode "OfdmRate1_5MbpsBW5MHz" WIFI_MOD_CLASS_OFDM true WIFI_CODE_RATE_1_2 2.

Definition GetOfdmRate2_25MbpsBW5MHz : WifiMode :=
  CreateWifiMode "OfdmRate2_25MbpsBW5MHz" WIFI_MOD_CLASS_OFDM false WIFI_CODE_RATE_3_4 2.

Definition GetOfdmRate3MbpsBW5MHz : WifiMode :=
  CreateWifiMode "OfdmRate3MbpsBW5MHz" WIFI_MOD_CLASS_OFDM true WIFI_CODE_RATE_1_2 4.

Definition GetOfdmRate4_5MbpsBW5MHz : WifiMode :=
  CreateWifiMode "OfdmRate4_5MbpsBW5MHz" WIFI_MOD_CLASS_OFDM false WIFI_CODE_RATE_3_4 4.

Definition GetOfdmRate6MbpsBW5MHz : WifiMode :=
  CreateWifiMode "OfdmRate6MbpsBW5MHz" WIFI_MOD_CLASS_OFDM true WIFI_CODE_RATE_1_2 16.

Definition GetOfdmRate9MbpsBW5MHz : WifiMode :=
  CreateWifiMode "OfdmRate9MbpsBW5MHz" WIFI_MOD_CLASS_OFDM false WIFI_CODE_RATE_3_4 16.

Definition GetOfdmRate12MbpsBW5MHz : WifiMode :=
  CreateWifiMode "OfdmRate12MbpsBW5MHz" WIFI_MOD_CLASS_OFDM false WIFI_CODE_RATE_2_3 64.

Definition GetOfdmRate13_5MbpsBW5MHz : WifiMode :=
  CreateWifiMode "OfdmRate13_5MbpsBW5MHz" WIFI_MOD_CLASS_OFDM false WIFI_CODE_RATE_3_4 64.

Definition GetHtMcs0 : WifiMode :=
  CreateWifiMcs "HtMcs0" 0 WIFI_MOD_CLASS_HT.

Definition GetHtMcs1 : WifiMode :=
  CreateWifiMcs "HtMcs1" 1 WIFI_MOD_CLASS_HT.

Definition GetHtMcs2 : WifiMode :=
  CreateWifiMcs "HtMcs2" 2 WIFI_MOD_CLASS_HT.

Definition GetHtMcs3 : WifiMode :=
  CreateWifiMcs "HtMcs3" 3 WIFI_MOD_CLASS_HT.

Definition GetHtMcs4 : WifiMode :=
  CreateWifiMcs "HtMcs4" 4 WIFI_MOD_CLASS_HT.

Definition GetHtMcs5 : WifiMode :=
  CreateWifiMcs "HtMcs5" 5 WIFI_MOD_CLASS_HT.

Definition GetHtMcs6 : WifiMode :=
  CreateWifiMcs "HtMcs6" 6 WIFI_MOD_CLASS_HT.

Definition GetHtMcs7 : WifiMode :=
  CreateWifiMcs "HtMcs7" 7 WIFI_MOD_CLASS_HT.

Definition GetHtMcs8 : WifiMode :=
  CreateWifiMcs "HtMcs8" 8 WIFI_MOD_CLASS_HT.

Definition GetHtMcs9 : WifiMode :=
  CreateWifiMcs "HtMcs9" 9 WIFI_MOD_CLASS_HT.

Definition GetHtMcs10 : WifiMode :=
  CreateWifiMcs "HtMcs10" 10 WIFI_MOD_CLASS_HT.

Definition GetHtMcs11 : WifiMode :=
  CreateWifiMcs "HtMcs11" 11 WIFI_MOD_CLASS_HT.

Definition GetHtMcs12 : WifiMode :=
  CreateWifiMcs "HtMcs12" 12 WIFI_MOD_CLASS_HT.

Definition GetHtMcs13 : WifiMode :=
  CreateWifiMcs "HtMcs13" 13 WIFI_MOD_CLASS_HT.

Definition GetHtMcs14 : WifiMode :=
  CreateWifiMcs "HtMcs14" 14 WIFI_MOD_CLASS_HT.

Definition GetHtMcs15 : WifiMode :=
  CreateWifiMcs "HtMcs15" 15 WIFI_MOD_CLASS_HT.

Definition GetHtMcs16 : WifiMode :=
  CreateWifiMcs "HtMcs16" 16 WIFI_MOD_CLASS_HT.

Definition GetHtMcs17 : WifiMode :=
  CreateWifiMcs "HtMcs17" 17 WIFI_MOD_CLASS_HT.

Definition GetHtMcs18 : WifiMode :=
  CreateWifiMcs "HtMcs18" 18 WIFI_MOD_CLASS_HT.

Definition GetHtMcs19 : WifiMode :=
  CreateWifiMcs "HtMcs19" 19 WIFI_MOD_CLASS_HT.

Definition GetHtMcs20 : WifiMode :=
  CreateWifiMcs "HtMcs20" 20 WIFI_MOD_CLASS_HT.

Definition GetHtMcs21 : WifiMode :=
  CreateWifiMcs "HtMcs21" 21 WIFI_MOD_CLASS_HT.

Definition GetHtMcs22 : WifiMode :=
  CreateWifiMcs "HtMcs22" 22 WIFI_MOD_CLASS_HT.

Definition GetHtMcs23 : WifiMode :=
  CreateWifiMcs "HtMcs23" 23 WIFI_MOD_CLASS_HT.

Definition GetHtMcs24 : WifiMode :=
  CreateWifiMcs "HtMcs24" 24 WIFI_MOD_CLASS_HT.

Definition GetHtMcs25 : WifiMode :=
  CreateWifiMcs "HtMcs25" 25 WIFI_MOD_CLASS_HT.

Definition GetHtMcs26 : WifiMode :=
  CreateWifiMcs "HtMcs26" 26 WIFI_MOD_CLASS_HT.

Definition GetHtMcs27 : WifiMode :=
  CreateWifiMcs "HtMcs27" 27 WIFI_MOD_CLASS_HT.

Definition GetHtMcs28 : WifiMode :=
  CreateWifiMcs "HtMcs28" 28 WIFI_MOD_CLASS_HT.

Definition GetHtMcs29 : WifiMode :=
  CreateWifiMcs "HtMcs29" 29 WIFI_MOD_CLASS_HT.

Definition GetHtMcs30 : WifiMode :=
  CreateWifiMcs "HtMcs30" 30 WIFI_MOD_CLASS_HT.

Definition GetHtMcs31 : WifiMode :=
  CreateWifiMcs "HtMcs31" 31 WIFI_MOD_CLASS_HT.

Definition GetVhtMcs0 : WifiMode :=
  CreateWifiMcs "VhtMcs0" 0 WIFI_MOD_CLASS_VHT.

Definition GetVhtMcs1 : WifiMode :=
  CreateWifiMcs "VhtMcs1" 1 WIFI_MOD_CLASS_VHT.

Definition GetVhtMcs2 : WifiMode :=
  CreateWifiMcs "VhtMcs2" 2 WIFI_MOD_CLASS_VHT.

Definition GetVhtMcs3 : WifiMode :=
  CreateWifiMcs "VhtMcs3" 3 WIFI_MOD_CLASS_VHT.

Definition GetVhtMcs4 : WifiMode :=
  CreateWifiMcs "VhtMcs4" 4 WIFI_MOD_CLASS_VHT.

Definition GetVhtMcs5 : WifiMode :=
  CreateWifiMcs "VhtMcs5" 5 WIFI_MOD_CLASS_VHT.

Definition GetVhtMcs6 : WifiMode :=
  CreateWifiMcs "VhtMcs6" 6 WIFI_MOD_CLASS_VHT.

Definition GetVhtMcs7 : WifiMode :=
  CreateWifiMcs "VhtMcs7" 7 WIFI_MOD_CLASS_VHT.

Definition GetVhtMcs8 : WifiMode :=
  CreateWifiMcs "VhtMcs8" 8 WIFI_MOD_CLASS_VHT.

Definition GetVhtMcs9 : WifiMode :=
  CreateWifiMcs "VhtMcs9" 9 WIFI_MOD_CLASS_VHT.

Definition GetDMG_MCS0 : WifiMode :=
  CreateWifiModeDmg "DMG_MCS0" WIFI_MOD_CLASS_DMG_CTRL true 1880000000 27500000 WIFI_CODE_RATE_1_2 2.

Definition GetDMG_MCS1 : WifiMode :=
  CreateWifiModeDmg "DMG_MCS1" WIFI_MOD_CLASS_DMG_SC true 1880000000 385000000 WIFI_CODE_RATE_1_4 2.

Definition GetDMG_MCS2 : WifiMode :=
  CreateWifiModeDmg "DMG_MCS2" WIFI_MOD_CLASS_DMG_SC true 1880000000 770000000 WIFI_CODE_RATE_1_2 2.

Definition GetDMG_MCS3 : WifiMode :=
  CreateWifiModeDmg "DMG_MCS3" WIFI_MOD_CLASS_DMG_SC true 1880000000 962500000 WIFI_CODE_RATE_5_8 2.

Definition GetDMG_MCS4 : WifiMode :=
  CreateWifiModeDmg "DMG_MCS4" WIFI_MOD_CLASS_DMG_SC true 1880000000 1155000000 WIFI_CODE_RATE_3_4 2.

Definition GetDMG_MCS5 : WifiMode :=
  CreateWifiModeDmg "DMG_MCS5" WIFI_MOD_CLASS_DMG_SC false 1880000000 1251250000 WIFI_CODE_RATE_13_16 2.

Definition GetDMG_MCS6 : WifiMode :=
  CreateWifiModeDmg "DMG_MCS6" WIFI_MOD_CLASS_DMG_SC false 1880000000 1540000000 WIFI_CODE_RATE_1_2 4.

Definition GetDMG_MCS7 : WifiMode :=
  CreateWifiModeDmg "DMG_MCS7" WIFI_MOD_CLASS_DMG_SC false 1880000000 1925000000 WIFI_CODE_RATE_5_8 4.

Definition GetDMG_MCS8 : WifiMode :=
  CreateWifiModeDmg "DMG_MCS8" WIFI_MOD_CLASS_DMG_SC false 1880000000 2310000000 WIFI_CODE_RATE_3_4 4.

Definition GetDMG_MCS9 : WifiMode :=
  CreateWifiModeDmg "DMG_MCS9" WIFI_MOD_CLASS_DMG_SC false 1880000000 2502500000 WIFI_CODE_RATE_13_16 4.

Definition GetDMG_MCS10 : WifiMode :=
  CreateWifiModeDmg "DMG_MCS10" WIFI_MOD_CLASS_DMG_SC false 1880000000 3080000000 WIFI_CODE_RATE_1_2 16.

Definition GetDMG_MCS11 : WifiMode :=
  CreateWifiModeDmg "DMG_MCS11" WIFI_MOD_CLASS_DMG_SC false 1880000000 3850000000 WIFI_CODE_RATE_5_8 16.

Definition GetDMG_MCS12 : WifiMode :=
  CreateWifiModeDmg "DMG_MCS12" WIFI_MOD_CLASS_DMG_SC false 1880000000 4620000000 WIFI_CODE_RATE_3_4 16.

Definition GetDMG_MCS13 : WifiMode :=
  CreateWifiModeDmg "DMG_MCS13" WIFI_MOD_CLASS_DMG_OFDM true 1880000000 693000000 WIFI_CODE_RATE_1_2 2.

Definition GetDMG_MCS14 : WifiMode :=
  CreateWifiModeDmg "DMG_MCS14" WIFI_MOD_CLASS_DMG_OFDM false 1880000000 866250000 WIFI_CODE_RATE_5_8 2.

Definition GetDMG_MCS15 : WifiMode :=
  CreateWifiModeDmg "DMG_MCS15" WIFI_MOD_CLASS_DMG_OFDM false 1880000000 1386000000 WIFI_CODE_RATE_1_2 4.

Definition GetDMG_MCS16 : WifiMode :=
  CreateWifiModeDmg "DMG_MCS16" WIFI_MOD_CLASS_DMG_OFDM false 1880000000 1732500000 WIFI_CODE_RATE_5_8 4.

Definition GetDMG_MCS17 : WifiMode :=
  CreateWifiModeDmg "DMG_MCS17" WIFI_MOD_CLASS_DMG_OFDM false 1880000000 2079000000 WIFI_CODE_RATE_3_4 4.

Definition GetDMG_MCS18 : WifiMode :=
  CreateWifiModeDmg "DMG_MCS18" WIFI_MOD_CLASS_DMG_OFDM false 1880000000 2772000000 WIFI_CODE_RATE_1_2 16.

Definition GetDMG_MCS19 : WifiMode :=
  CreateWifiModeDmg "DMG_MCS19" WIFI_MOD_CLASS_DMG_OFDM false 1880000000 3465000000 WIFI_CODE_RATE_5_8 16.

Definition GetDMG_MCS20 : WifiMode :=
  CreateWifiModeDmg "DMG_MCS20" WIFI_MOD_CLASS_DMG_OFDM false 1880000000 4158000000 WIFI_CODE_RATE_3_4 16.

Definition GetDMG_MCS21 : WifiMode :=
  CreateWifiModeDmg "DMG_MCS21" WIFI_MOD_CLASS_DMG_OFDM false 1880000000 4504500000 WIFI_CODE_RATE_13_16 16.

Definition GetDMG_MCS22 : WifiMode :=
  CreateWifiModeDmg "DMG_MCS22" WIFI_MOD_CLASS_DMG_OFDM false 1880000000 5197500000 WIFI_CODE_RATE_5_8 64.

Definition GetDMG_MCS23 : WifiMode :=
  CreateWifiModeDmg "DMG_MCS23" WIFI_MOD_CLASS_DMG_OFDM false 1880000000 6237000000 WIFI_CODE_RATE_3_4 64.

Definition GetDMG_MCS24 : WifiMode :=
  CreateWifiModeDmg "DMG_MCS24" WIFI_MOD_CLASS_DMG_OFDM false 1880000000 6756750000 WIFI_CODE_RATE_13_16 64.

Definition GetDMG_MCS25 : WifiMode :=
  CreateWifiModeDmg "DMG_MCS25" WIFI_MOD_CLASS_DMG_LP_SC false 1880000000 626000000 WIFI_CODE_RATE_13_28 2.

Definition GetDMG_MCS26 : WifiMode :=
  CreateWifiModeDmg "DMG_MCS26" WIFI_MOD_CLASS_DMG_LP_SC false 1880000000 834000000 WIFI_CODE_RATE_13_21 2.

Definition GetDMG_MCS27 : WifiMode :=
  CreateWifiModeDmg "DMG_MCS27" WIFI_MOD_CLASS_DMG_LP_SC false 1880000000 1112000000 WIFI_CODE_RATE_52_63 2.

Definition GetDMG_MCS28 : WifiMode :=
  CreateWifiModeDmg "DMG_MCS28" WIFI_MOD_CLASS_DMG_LP_SC false 1880000000 1251000000 WIFI_CODE_RATE_13_28 2.

Definition GetDMG_MCS29 : WifiMode :=
  CreateWifiModeDmg "DMG_MCS29" WIFI_MOD_CLASS_DMG_LP_SC false 1880000000 1668000000 WIFI_CODE_RATE_13_21 4.

Definition GetDMG_MCS30 : WifiMode :=
  CreateWifiModeDmg "DMG_MCS30" WIFI_MOD_CLASS_DMG_LP_SC false 1880000000 2224000000 WIFI_CODE_RATE_52_63 4.

Definition GetDMG_MCS31 : WifiMode :=
  CreateWifiModeDmg "DMG_MCS31" WIFI_MOD_CLASS_DMG_LP_SC false 1880000000 2503000000 WIFI_CODE_RATE_13_14 4.

(** ** Transmit vector and the state of a [WifiPhy] *)

Record WifiTxVector : Type := mkWifiTxVector {
  GetMode : WifiMode;
  GetChannelWidth : Z;          (* uint32_t, in MHz *)
  GetNss : Z;                   (* uint8_t *)
  GetNess : Z;                  (* uint8_t *)
  IsShortGuardInterval : bool;
  IsStbc : bool;
  GetTrainngFieldLength : Z     (* uint8_t *)
}.

(** The two members [GetPayloadDuration] reads and writes: the bytes and
    the symbols of the A-MPDU sent so far. *)
Record WifiPhy : Type := mkWifiPhy {
  m_totalAmpduSize : Z;         (* uint32_t *)
  m_totalAmpduNumSymbols : Q    (* double *)
}.

(** [WifiPhy::WifiPhy ()] *)
Definition WifiPhy_init : WifiPhy := mkWifiPhy 0 0.

(** ** State and failure: the monad of the member functions *)

Definition M (A : Type) : Type := WifiPhy -> result A * WifiPhy.

Definition ret {A : Type} (a : A) : M A := fun s => (Ok a, s).

Definition bind {A B : Type} (m : M A) (k : A -> M B) : M B :=
  fun s =>
    match m s with
    | (Ok a, s') => k a s'
    | (Err e, s') => (Err e, s')
    end.

Definition lift {A : Type} (r : result A) : M A := fun s => (r, s).

Definition fail {A : Type} (e : error) : M A := fun s => (Err e, s).

Definition get : M WifiPhy := fun s => (Ok s, s).

Definition put (s' : WifiPhy) : M unit := fun _ => (Ok tt, s').

Definition when (b : bool) (m : M unit) : M unit :=
  if b then m else ret tt.

Declare Scope phy_scope.
Delimit Scope phy_scope with phy.
Notation "x <- m ; k" := (bind m (fun x => k))
  (at level 20, m at level 100, k at level 200, only parsing) : phy_scope.

(** ** The duration calculator *)

Section Calculator.

(** [WifiMode::GetDataRate (channelWidth, isShortGuardInterval, nss)], in
    bit/s, is defined in wifi-mode.cc; the macros [OFDMSCMin] and
    [OFDMBRPMin] (floors of the data part when training fields follow) are
    defined in wifi-phy.h.  The calculator is parametric in the three. *)
Variable GetDataRate : WifiMode -> Z -> bool -> Z -> Z.
Variable OFDMSCMin : Q.
Variable OFDMBRPMin : Q.

Definition GetPlcpHtTrainingSymbolDuration (preamble : WifiPreamble)
    (txVector : WifiTxVector) : Time :=
  let Ndltf :=
    if GetNss txVector <? 3 then GetNss txVector
    else if GetNss txVector <? 5 then 4
    else if GetNss txVector <? 7 then 6
    else 8 in
  let Neltf :=
    if GetNess txVector <? 3 then GetNess txVector else 4 in
  match preamble with
  | WIFI_PREAMBLE_HT_MF => MicroSeconds (4 + 4 * Ndltf + 4 * Neltf)
  | WIFI_PREAMBLE_HT_GF => MicroSeconds (4 * Ndltf + 4 * Neltf)
  | WIFI_PREAMBLE_VHT => MicroSeconds (4 + 4 * Ndltf)
  | _ => MicroSeconds 0
  end.

Definition GetPlcpHtSigHeaderDuration (preamble : WifiPreamble) : Time :=
  match preamble with
  | WIFI_PREAMBLE_HT_MF | WIFI_PREAMBLE_HT_GF => MicroSeconds 8
  | _ => MicroSeconds 0
  end.

Definition GetPlcpVhtSigA1Duration (preamble : WifiPreamble) : Time :=
  match preamble with
  | WIFI_PREAMBLE_VHT => MicroSeconds 4
  | _ => MicroSeconds 0
  end.

Definition GetPlcpVhtSigA2Duration (preamble : WifiPreamble) : Time :=
  match preamble with
  | WIFI_PREAMBLE_VHT => MicroSeconds 4
  | _ => MicroSeconds 0
  end.

Definition GetPlcpVhtSigBDuration (preamble : WifiPreamble) : Time :=
  match preamble with
  | WIFI_PREAMBLE_VHT => MicroSeconds 4
  | _ => MicroSeconds 0
  end.

Definition GetPlcpHeaderDuration (txVector : WifiTxVector)
    (preamble : WifiPreamble) : result Time :=
  if is_preamble_none preamble then Ok (MicroSeconds 0)
  else
    match GetModulationClass (GetMode txVector) with
    | WIFI_MOD_CLASS_OFDM =>
        if GetChannelWidth txVector =? 10 then Ok (MicroSeconds 8)
        else if GetChannelWidth txVector =? 5 then Ok (MicroSeconds 16)
        else Ok (MicroSeconds 4)
    | WIFI_MOD_CLASS_HT =>
        match preamble with
        | WIFI_PREAMBLE_HT_GF => Ok (MicroSeconds 0)
        | _ => Ok (MicroSeconds 4)
        end
    | WIFI_MOD_CLASS_VHT | WIFI_MOD_CLASS_ERP_OFDM => Ok (MicroSeconds 4)
    | WIFI_MOD_CLASS_DSSS | WIFI_MOD_CLASS_HR_DSSS =>
        match preamble with
        | WIFI_PREAMBLE_SHORT =>
            if 1000000 <? GetDataRate (GetMode txVector) 22 false 1
            then Ok (MicroSeconds 24) else Ok (MicroSeconds 48)
        | _ => Ok (MicroSeconds 48)
        end
    | WIFI_MOD_CLASS_DMG_CTRL => Ok (NanoSeconds 4654)
    | WIFI_MOD_CLASS_DMG_SC | WIFI_MOD_CLASS_DMG_LP_SC => Ok (NanoSeconds 582)
    | WIFI_MOD_CLASS_DMG_OFDM => Ok (NanoSeconds 242)
    | WIFI_MOD_CLASS_UNKNOWN => Err (FatalError "unsupported modulation class")
    end.

(** The inner switch of the OFDM case compares the channel width, which is
    in MHz everywhere else, with 20000000, 10000000 and 5000000. *)
Definition GetPlcpPreambleDuration (txVector : WifiTxVector)
    (preamble : WifiPreamble) : result Time :=
  if is_preamble_none preamble then Ok (MicroSeconds 0)
  else
    match GetModulationClass (GetMode txVector) with
    | WIFI_MOD_CLASS_OFDM =>
        if GetChannelWidth txVector =? 10000000 then Ok (MicroSeconds 32)
        else if GetChannelWidth txVector =? 5000000 then Ok (MicroSeconds 64)
        else Ok (MicroSeconds 16)
    | WIFI_MOD_CLASS_VHT | WIFI_MOD_CLASS_HT => Ok (MicroSeconds 16)
    | WIFI_MOD_CLASS_ERP_OFDM => Ok (MicroSeconds 16)
    | WIFI_MOD_CLASS_DSSS | WIFI_MOD_CLASS_HR_DSSS =>
        match preamble with
        | WIFI_PREAMBLE_SHORT =>
            if 1000000 <? GetDataRate (GetMode txVector) 22 false 1
            then Ok (MicroSeconds 72) else Ok (MicroSeconds 144)
        | _ => Ok (MicroSeconds 144)
        end
    | WIFI_MOD_CLASS_DMG_CTRL => Ok (NanoSeconds 4291)
    | WIFI_MOD_CLASS_DMG_SC | WIFI_MOD_CLASS_DMG_LP_SC => Ok (NanoSeconds 1891)
    | WIFI_MOD_CLASS_DMG_OFDM => Ok (NanoSeconds 1891)
    | WIFI_MOD_CLASS_UNKNOWN => Err (FatalError "unsupported modulation class")
    end.

(** *** Legacy OFDM and ERP-OFDM payload *)

(** T_SYM, in nanoseconds. *)
Definition OfdmSymbolDuration (txVector : WifiTxVector) : Time :=
  if GetChannelWidth txVector =? 10 then MicroSeconds 8
  else if GetChannelWidth txVector =? 5 then MicroSeconds 16
  else MicroSeconds 4.

(** N_DBPS: [rate * symbolDuration.GetNanoSeconds () / 1e9], the product
    taken in [uint64_t]. *)
Definition OfdmNumDataBitsPerSymbol (txVector : WifiTxVector) : Q :=
  inject_Z (Num.wrap64
              (GetDataRate (GetMode txVector) (GetChannelWidth txVector) false 1
               * OfdmSymbolDuration txVector)) / 1000000000.

(** The accumulator update shared by the first and the following MPDUs of
    an A-MPDU: [m_totalAmpduSize += size; m_totalAmpduNumSymbols +=
    numSymbols], under [incFlag == 1]. *)
Definition accumulate (incFlag size : Z) (numSymbols : Q) : M unit :=
  when (incFlag =? 1)
    (s <- get ;
     put (mkWifiPhy (Num.wrap32 (m_totalAmpduSize s + size))
            (m_totalAmpduNumSymbols s + numSymbols)%Q))%phy.

(** [m_totalAmpduSize = 0; m_totalAmpduNumSymbols = 0], under
    [incFlag == 1]. *)
Definition reset (incFlag : Z) : M unit :=
  when (incFlag =? 1) (put (mkWifiPhy 0 0)).

Definition OfdmNumSymbols (size : Z) (preamble : WifiPreamble)
    (mpdutype : mpduType) (incFlag : Z) (numDataBitsPerSymbol : Q) : M Q :=
  (if is_mpdu_in_aggregate mpdutype && negb (is_preamble_none preamble) then
     (* first packet in an A-MPDU *)
     numSymbols <- lift (Num.fdiv (16 + inject_Z size * 8 + 6)
                                  numDataBitsPerSymbol) ;
     _ <- accumulate incFlag size numSymbols ;
     ret numSymbols
   else if is_mpdu_in_aggregate mpdutype && is_preamble_none preamble then
     (* consecutive packets in an A-MPDU *)
     numSymbols <- lift (Num.fdiv (inject_Z size * 8) numDataBitsPerSymbol) ;
     _ <- accumulate incFlag size numSymbols ;
     ret numSymbols
   else if is_last_mpdu_in_aggregate mpdutype && is_preamble_none preamble then
     (* last packet in an A-MPDU *)
     s <- get ;
     let totalAmpduSize := Num.wrap32 (m_totalAmpduSize s + size) in
     q <- lift (Num.fdiv (16 + inject_Z totalAmpduSize * 8 + 6)
                         numDataBitsPerSymbol) ;
     n <- lift (Num.lrint (Num.ceil q)) ;
     let numSymbols := inject_Z n in
     if Qle_bool (m_totalAmpduNumSymbols s) numSymbols then
       _ <- reset incFlag ;
       ret (numSymbols - m_totalAmpduNumSymbols s)%Q
     else fail AssertionFailed
   else if is_normal_mpdu mpdutype && negb (is_preamble_none preamble) then
     (* not an A-MPDU *)
     q <- lift (Num.fdiv (16 + inject_Z size * 8 + 6) numDataBitsPerSymbol) ;
     n <- lift (Num.lrint (Num.ceil q)) ;
     ret (inject_Z n)
   else fail (FatalError "Wrong combination of preamble and packet type")
  )%phy%Q.

(** [NanoSeconds (numSymbols * symbolDuration.GetNanoSeconds ())], the
    operand both return statements share. *)
Definition OfdmSymbolsDuration (size : Z) (txVector : WifiTxVector)
    (preamble : WifiPreamble) (mpdutype : mpduType) (incFlag : Z) : M Time :=
  (let symbolDuration := OfdmSymbolDuration txVector in
   let numDataBitsPerSymbol := OfdmNumDataBitsPerSymbol txVector in
   numSymbols <- OfdmNumSymbols size preamble mpdutype incFlag
                   numDataBitsPerSymbol ;
   lift (NanoSecondsD (numSymbols * inject_Z symbolDuration)))%phy.

Definition OfdmPayloadDuration (size : Z) (txVector : WifiTxVector)
    (preamble : WifiPreamble) (mpdutype : mpduType) (incFlag : Z) : M Time :=
  (d <- OfdmSymbolsDuration size txVector preamble mpdutype incFlag ;
   match GetModulationClass (GetMode txVector) with
   | WIFI_MOD_CLASS_ERP_OFDM =>
       (* signal extension of the ERP PHY *)
       ret (d + MicroSeconds 6)
   | _ => ret d
   end)%phy.

(** *** HT and VHT payload *)

Definition HtSymbolDuration (txVector : WifiTxVector) : Time :=
  if IsShortGuardInterval txVector then NanoSeconds 3600 else MicroSeconds 4.

Definition HtStbc (txVector : WifiTxVector) : Q :=
  if IsStbc txVector then 2 else 1.

(** The number of encoders: a default of 1 overwritten by every test that
    holds, in the order of the source. *)
Definition HtNes (txVector : WifiTxVector) : Q :=
  let payloadMode := GetMode txVector in
  let name := GetUniqueName payloadMode in
  let width := GetChannelWidth txVector in
  let nss := GetNss txVector in
  let mcs := GetMcsValue payloadMode in
  let Nes := 1%Q in
  let Nes :=
    if (name =? "HtMcs21")%string || (name =? "HtMcs22")%string
       || (name =? "HtMcs23")%string || (name =? "HtMcs28")%string
       || (name =? "HtMcs29")%string || (name =? "HtMcs30")%string
       || (name =? "HtMcs31")%string
    then 2%Q else Nes in
  let Nes := if (width =? 40) && (nss =? 3) && (8 <=? mcs) then 2%Q else Nes in
  let Nes := if (width =? 80) && (nss =? 2) && (7 <=? mcs) then 2%Q else Nes in
  let Nes := if (width =? 80) && (nss =? 3) && (7 <=? mcs) then 2%Q else Nes in
  let Nes := if (width =? 80) && (nss =? 3) && (mcs =? 9) then 3%Q else Nes in
  let Nes := if (width =? 80) && (nss =? 4) && (4 <=? mcs) then 2%Q else Nes in
  let Nes := if (width =? 80) && (nss =? 4) && (7 <=? mcs) then 3%Q else Nes in
  let Nes :=
    if (width =? 160) && ((name =? "VhtMcs7")%string && (7 <=? mcs))
    then 2%Q else Nes in
  let Nes := if (width =? 160) && (nss =? 2) && (4 <=? mcs) then 2%Q else Nes in
  let Nes := if (width =? 160) && (nss =? 2) && (7 <=? mcs) then 3%Q else Nes in
  let Nes := if (width =? 160) && (nss =? 3) && (3 <=? mcs) then 2%Q else Nes in
  let Nes := if (width =? 160) && (nss =? 3) && (5 <=? mcs) then 3%Q else Nes in
  let Nes := if (width =? 160) && (nss =? 3) && (7 <=? mcs) then 4%Q else Nes in
  let Nes := if (width =? 160) && (nss =? 4) && (2 <=? mcs) then 2%Q else Nes in
  let Nes := if (width =? 160) && (nss =? 4) && (4 <=? mcs) then 3%Q else Nes in
  let Nes := if (width =? 160) && (nss =? 4) && (5 <=? mcs) then 4%Q else Nes in
  let Nes := if (width =? 160) && (nss =? 4) && (7 <=? mcs) then 6%Q else Nes in
  Nes.

(** IEEE Std 802.11n, section 20.3.11, equation (20-32). *)
Definition HtNumDataBitsPerSymbol (txVector : WifiTxVector) : Q :=
  inject_Z (Num.wrap64
              (GetDataRate (GetMode txVector) (GetChannelWidth txVector)
                 (IsShortGuardInterval txVector) (GetNss txVector)
               * HtSymbolDuration txVector)) / 1000000000.

Definition HtNumSymbols (size : Z) (preamble : WifiPreamble)
    (mpdutype : mpduType) (incFlag : Z) (m_Stbc Nes numDataBitsPerSymbol : Q)
    : M Q :=
  (if is_mpdu_in_aggregate mpdutype && negb (is_preamble_none preamble) then
     (* first packet in an A-MPDU *)
     numSymbols <- lift (Num.fdiv (m_Stbc * (16 + inject_Z size * 8 + 6 * Nes))
                                  (m_Stbc * numDataBitsPerSymbol)) ;
     _ <- accumulate incFlag size numSymbols ;
     ret numSymbols
   else if is_mpdu_in_aggregate mpdutype && is_preamble_none preamble then
     (* consecutive packets in an A-MPDU *)
     numSymbols <- lift (Num.fdiv (m_Stbc * inject_Z size * 8)
                                  (m_Stbc * numDataBitsPerSymbol)) ;
     _ <- accumulate incFlag size numSymbols ;
     ret numSymbols
   else if is_last_mpdu_in_aggregate mpdutype && is_preamble_none preamble then
     (* last packet in an A-MPDU *)
     s <- get ;
     let totalAmpduSize := Num.wrap32 (m_totalAmpduSize s + size) in
     q <- lift (Num.fdiv (16 + inject_Z totalAmpduSize * 8 + 6 * Nes)
                         (m_Stbc * numDataBitsPerSymbol)) ;
     n <- lift (Num.lrint (m_Stbc * Num.ceil q)) ;
     let numSymbols := inject_Z n in
     if Qle_bool (m_totalAmpduNumSymbols s) numSymbols then
       _ <- reset incFlag ;
       ret (numSymbols - m_totalAmpduNumSymbols s)%Q
     else fail AssertionFailed
   else if is_normal_mpdu mpdutype && negb (is_preamble_none preamble) then
     (* not an A-MPDU *)
     q <- lift (Num.fdiv (16 + inject_Z size * 8 + 6 * Nes)
                         (m_Stbc * numDataBitsPerSymbol)) ;
     n <- lift (Num.lrint (m_Stbc * Num.ceil q)) ;
     ret (inject_Z n)
   else fail (FatalError "Wrong combination of preamble and packet type")
  )%phy%Q.

(** The frame ends the transmission: a plain MPDU, or the last MPDU of an
    A-MPDU. *)
Definition ends_transmission (mpdutype : mpduType) (preamble : WifiPreamble)
    : bool :=
  (is_normal_mpdu mpdutype && negb (is_preamble_none preamble))
  || (is_last_mpdu_in_aggregate mpdutype && is_preamble_none preamble).

Definition in_2_4GHz_band (frequency : Q) : bool :=
  Qle_bool 2400 frequency && Qle_bool frequency 2500.

(** [NanoSeconds (numSymbols * symbolDuration.GetNanoSeconds ())], the
    operand both return statements share. *)
Definition HtSymbolsDuration (size : Z) (txVector : WifiTxVector)
    (preamble : WifiPreamble) (mpdutype : mpduType) (incFlag : Z) : M Time :=
  (let symbolDuration := HtSymbolDuration txVector in
   let m_Stbc := HtStbc txVector in
   let Nes := HtNes txVector in
   let numDataBitsPerSymbol := HtNumDataBitsPerSymbol txVector in
   numSymbols <- HtNumSymbols size preamble mpdutype incFlag m_Stbc Nes
                   numDataBitsPerSymbol ;
   lift (NanoSecondsD (numSymbols * inject_Z symbolDuration)))%phy.

Definition HtPayloadDuration (size : Z) (txVector : WifiTxVector)
    (preamble : WifiPreamble) (frequency : Q) (mpdutype : mpduType)
    (incFlag : Z) : M Time :=
  (d <- HtSymbolsDuration size txVector preamble mpdutype incFlag ;
   match GetModulationClass (GetMode txVector) with
   | WIFI_MOD_CLASS_HT =>
       if in_2_4GHz_band frequency && ends_transmission mpdutype preamble
       then ret (d + MicroSeconds 6)       (* at 2.4 GHz *)
       else ret d
   | _ => ret d                            (* at 5 GHz *)
   end)%phy.

(** *** DSSS and HR/DSSS payload *)

Definition DsssPayloadDuration (size : Z) (txVector : WifiTxVector)
    : result Time :=
  let rate := (inject_Z (GetDataRate (GetMode txVector) 22 false 1)
               / 1000000)%Q in
  let? q := Num.fdiv (inject_Z size * 8) rate in
  let? n := Num.lrint (Num.ceil q) in
  Ok (MicroSeconds (Num.wrap64 n)).

(** *** DMG control PHY payload *)

(** [Ncw = 1 + (uint32_t) ceil ((double (size) - 6) * 8 / 168)] *)
Definition DmgCtrlNcw (size : Z) : result Z :=
  let? c := Num.to_uint32 (Num.ceil ((inject_Z size - 6) * 8 / 168)) in
  Ok (Num.wrap32 (1 + c)).

Definition DmgCtrlPayloadDuration (size : Z) (txVector : WifiTxVector)
    : result Time :=
  if GetTrainngFieldLength txVector =? 0 then
    let? Ncw := DmgCtrlNcw size in
    let? q := Num.fdiv ((inject_Z size - 6) * 8)
                       (inject_Z (Num.wrap32 (Ncw - 1))) in
    let? Ldpcw := Num.to_uint32 (Num.ceil q) in
    let Ldplcw := Num.wrap32 ((size - 6) * 8 - (Ncw - 2) * Ldpcw) in
    let DencodedSymmbols :=
      Num.wrap32 ((672 - (504 - Ldpcw)) * (Ncw - 2)
                  + (672 - (504 - Ldplcw))) in
    let Chips := Num.wrap32 (DencodedSymmbols * 32) in
    let ret := (inject_Z Chips / (176 # 100))%Q in
    NanoSecondsD (Num.ceil ret)
  else
    let? Ncw := DmgCtrlNcw size in
    NanoSecondsD
      (Num.ceil (inject_Z (Num.wrap32 (88 + (size - 6) * 8 + Ncw * 168))
                 * (57 # 100) * 32)).

(** *** DMG single-carrier and OFDM payload *)

(** Coded bits of the payload: [Nbits] expanded by the inverse code rate. *)
Definition DmgNcbits (payloadMode : WifiMode) (Nbits : Z) : result Z :=
  match GetCodeRate payloadMode with
  | WIFI_CODE_RATE_1_4 => Ok (Num.wrap32 (Nbits * 4))
  | WIFI_CODE_RATE_1_2 => Ok (Num.wrap32 (Nbits * 2))
  | WIFI_CODE_RATE_13_16 => Num.to_uint32 (Num.ceil (inject_Z Nbits * 16 / 13))
  | WIFI_CODE_RATE_3_4 => Num.to_uint32 (Num.ceil (inject_Z Nbits * 4 / 3))
  | WIFI_CODE_RATE_5_8 => Num.to_uint32 (Num.ceil (inject_Z Nbits * 8 / 5))
  | _ => Err (FatalError "unsupported code rate")
  end.

(** Coded bits per symbol block, Table 21-20. *)
Definition DmgScNcbpb (payloadMode : WifiMode) : result Z :=
  let c := GetConstellationSize payloadMode in
  if c =? 2 then Ok 448
  else if c =? 4 then Ok (2 * 448)
  else if c =? 16 then Ok (4 * 448)
  else if c =? 64 then Ok (6 * 448)
  else if c =? 256 then Ok (8 * 448)
  else Err (FatalError "unsupported constellation size").

(** [if (trn != 0) if (tData < floor) tData = floor;] *)
Definition DmgTrainingFloor (txVector : WifiTxVector) (floor : Q) (tData : Z)
    : result Z :=
  if negb (GetTrainngFieldLength txVector =? 0) then
    if negb (Qle_bool floor (inject_Z tData)) then Num.to_uint32 floor
    else Ok tData
  else Ok tData.

Definition DmgScPayloadDuration (size : Z) (txVector : WifiTxVector)
    : result Time :=
  let payloadMode := GetMode txVector in
  let? Ncbpb := DmgScNcbpb payloadMode in
  let Nbits := Num.wrap32 (size * 8) in
  let? Ncbits := DmgNcbits payloadMode Nbits in
  let? Ncw := Num.to_uint32 (Num.ceil (inject_Z Ncbits / 672)) in
  let? Nblks := Num.to_uint32 (Num.ceil (inject_Z Ncw * 672 / inject_Z Ncbpb)) in
  let? t := Num.lrint (Num.ceil ((inject_Z Nblks * 512 + 64) / (176 # 100))) in
  let tData := Num.wrap32 t in
  let? tData := DmgTrainingFloor txVector OFDMSCMin tData in
  Ok (NanoSeconds tData).

(** Coded bits per OFDM symbol. *)
Definition DmgOfdmNcbps (payloadMode : WifiMode) : result Z :=
  let c := GetConstellationSize payloadMode in
  if c =? 2 then Ok 336
  else if c =? 4 then Ok (2 * 336)
  else if c =? 16 then Ok (4 * 336)
  else if c =? 64 then Ok (6 * 336)
  else Err (FatalError "unsupported constellation size").

Definition DmgOfdmPayloadDuration (size : Z) (txVector : WifiTxVector)
    : result Time :=
  let payloadMode := GetMode txVector in
  let? Ncbps := DmgOfdmNcbps payloadMode in
  let Nbits := Num.wrap32 (size * 8) in
  let? Ncbits := DmgNcbits payloadMode Nbits in
  let? Ncw := Num.to_uint32 (Num.ceil (inject_Z Ncbits / 672)) in
  let? Nsym := Num.to_uint32 (Num.ceil (inject_Z Ncw * 672 / inject_Z Ncbps)) in
  let tData := Num.wrap32 (Nsym * 242) in
  let? tData := DmgTrainingFloor txVector OFDMBRPMin tData in
  Ok (NanoSeconds tData).

(** *** [WifiPhy::GetPayloadDuration] *)

Definition GetPayloadDuration (size : Z) (txVector : WifiTxVector)
    (preamble : WifiPreamble) (frequency : Q) (mpdutype : mpduType)
    (incFlag : Z) : M Time :=
  match GetModulationClass (GetMode txVector) with
  | WIFI_MOD_CLASS_OFDM | WIFI_MOD_CLASS_ERP_OFDM =>
      OfdmPayloadDuration size txVector preamble mpdutype incFlag
  | WIFI_MOD_CLASS_HT | WIFI_MOD_CLASS_VHT =>
      HtPayloadDuration size txVector preamble frequency mpdutype incFlag
  | WIFI_MOD_CLASS_DSSS | WIFI_MOD_CLASS_HR_DSSS =>
      lift (DsssPayloadDuration size txVector)
  | WIFI_MOD_CLASS_DMG_CTRL => lift (DmgCtrlPayloadDuration size txVector)
  | WIFI_MOD_CLASS_DMG_LP_SC => ret (NanoSeconds 0)
  | WIFI_MOD_CLASS_DMG_SC => lift (DmgScPayloadDuration size txVector)
  | WIFI_MOD_CLASS_DMG_OFDM => lift (DmgOfdmPayloadDuration size txVector)
  | WIFI_MOD_CLASS_UNKNOWN => fail (FatalError "unsupported modulation class")
  end.

End Calculator.

(** ** Information elements of a management frame *)

(** The element classes [MgtFrame::DeserializeInformationElements] can
    create, and [OtherElement] for every subclass of
    [WifiInformationElement] the switch has no case for. *)
Inductive ElementClass : Type :=
| SupportedRates
| ExtendedSupportedRatesIE
| HtCapabilities
| VhtCapabilities
| HtOperations
| ErpInformation
| DmgCapabilities
| MultiBandElement
| DmgOperationElement
| NextDmgAti
| RelayCapabilitiesElement
| ExtendedScheduleElement
| OtherElement (id : Z).

(** The element ids of wifi-information-element.h, one per case label. *)
Record ElementIds : Type := mkElementIds {
  IE_SUPPORTED_RATES : Z;
  IE_EXTENDED_SUPPORTED_RATES : Z;
  IE_HT_CAPABILITIES : Z;
  IE_VHT_CAPABILITIES : Z;
  IE_HT_OPERATIONS : Z;
  IE_ERP_INFORMATION : Z;
  IE_DMG_CAPABILITIES : Z;
  IE_MULTI_BAND : Z;
  IE_DMG_OPERATION : Z;
  IE_NEXT_DMG_ATI : Z;
  IE_RELAY_CAPABILITIES : Z;
  IE_EXTENDED_SCHEDULE : Z
}.

(** Modelled from the spec: the generic envelope of an information element
    (wifi-information-element.cc is not among the sources).  An element
    reports the size of its information field and writes that field; on the
    wire it is the record [id][length][body], and a new element parses
    exactly [length] bytes as its field. *)
Record WifiInformationElement : Type := mkElement {
  ie_class : ElementClass;
  GetInformationFieldSize : Z;       (* uint8_t, reported by the element *)
  SerializeInformationField : list Z (* the bytes the element writes *)
}.

(** [Ptr<WifiInformationElement>]: [None] is the null pointer, [Some l] the
    object at index [l] of the heap. *)
Abbreviation Ptr := (option nat).
Abbreviation Heap := (list WifiInformationElement).

Definition deref (h : Heap) (p : Ptr) : result WifiInformationElement :=
  match p with
  | None => Err NullDereference
  | Some l =>
      match h !! l with
      | Some e => Ok e
      | None => Err NullDereference
      end
  end.

(** [Create<T> ()]: a new object at the end of the heap. *)
Definition Create (c : ElementClass) (h : Heap) : Ptr * Heap :=
  (Some (length h), h ++ [mkElement c 0 []]).

Definition WriteU8 (v : Z) : list Z := [v mod 256].

(** The order of the keys of [std::map]: ascending ids. *)
Definition by_id (a b : Z * Ptr) : Prop := a.1 ≤ b.1.

#[global] Instance by_id_dec : RelDecision by_id.
Proof. intros a b. unfold by_id. apply _. Defined.

Section Elements.

Variable ids : ElementIds.

Definition ElementId (e : WifiInformationElement) : Z :=
  match ie_class e with
  | SupportedRates => IE_SUPPORTED_RATES ids
  | ExtendedSupportedRatesIE => IE_EXTENDED_SUPPORTED_RATES ids
  | HtCapabilities => IE_HT_CAPABILITIES ids
  | VhtCapabilities => IE_VHT_CAPABILITIES ids
  | HtOperations => IE_HT_OPERATIONS ids
  | ErpInformation => IE_ERP_INFORMATION ids
  | DmgCapabilities => IE_DMG_CAPABILITIES ids
  | MultiBandElement => IE_MULTI_BAND ids
  | DmgOperationElement => IE_DMG_OPERATION ids
  | NextDmgAti => IE_NEXT_DMG_ATI ids
  | RelayCapabilitiesElement => IE_RELAY_CAPABILITIES ids
  | ExtendedScheduleElement => IE_EXTENDED_SCHEDULE ids
  | OtherElement id => id
  end.

(** Modelled from the spec: the self-reported size of a record. *)
Definition GetSerializedSize (e : WifiInformationElement) : Z :=
  2 + GetInformationFieldSize e.

(** Modelled from the spec: [WifiInformationElement::Serialize]. *)
Definition Serialize (e : WifiInformationElement) : list Z :=
  WriteU8 (ElementId e) ++ WriteU8 (GetInformationFieldSize e)
  ++ SerializeInformationField e.

(** Modelled from the spec: [DeserializeElementID] reads the id and the
    length of the next record. *)
Definition DeserializeElementID (i : list Z) : result (list Z * Z * Z) :=
  match i with
  | id :: length :: i' => Ok (i', id, length)
  | _ => Err BufferOverrun
  end.

(** Modelled from the spec: [DeserializeElementBody] makes the element
    parse [length] bytes at the cursor as its information field. *)
Definition DeserializeElementBody (h : Heap) (element : Ptr) (i : list Z)
    (length : Z) : result (list Z * Heap) :=
  match element with
  | None => Err NullDereference
  | Some l =>
      let? e := deref h element in
      if (Z.of_nat (List.length i) <? length) then Err BufferOverrun
      else
        let n := Z.to_nat length in
        Ok (drop n i, <[l := mkElement (ie_class e) length (take n i)]> h)
  end.

(** The switch on the id: the case that matches creates an element of its
    class, and no case leaves [element] as it is. *)
Definition CreateForId (id : Z) (element : Ptr) (h : Heap) : Ptr * Heap :=
  if id =? IE_SUPPORTED_RATES ids then Create SupportedRates h
  else if id =? IE_EXTENDED_SUPPORTED_RATES ids then
    Create ExtendedSupportedRatesIE h
  else if id =? IE_HT_CAPABILITIES ids then Create HtCapabilities h
  else if id =? IE_VHT_CAPABILITIES ids then Create VhtCapabilities h
  else if id =? IE_HT_OPERATIONS ids then Create HtOperations h
  else if id =? IE_ERP_INFORMATION ids then Create ErpInformation h
  else if id =? IE_DMG_CAPABILITIES ids then Create DmgCapabilities h
  else if id =? IE_MULTI_BAND ids then Create MultiBandElement h
  else if id =? IE_DMG_OPERATION ids then Create DmgOperationElement h
  else if id =? IE_NEXT_DMG_ATI ids then Create NextDmgAti h
  else if id =? IE_RELAY_CAPABILITIES ids then Create RelayCapabilitiesElement h
  else if id =? IE_EXTENDED_SCHEDULE ids then Create ExtendedScheduleElement h
  else (element, h).

(** *** [MgtFrame]: the map [m_map] from element id to element *)

(** [m_map[element->ElementId ()] = element] *)
Definition AddWifiInformationElement (h : Heap) (element : Ptr)
    (m_map : gmap Z Ptr) : result (gmap Z Ptr) :=
  let? e := deref h element in
  Ok (<[ElementId e := element]> m_map).

(** [return m_map[id]]: [operator[]] of std::map inserts a
    value-initialised (null) pointer under a key it does not find. *)
Definition GetInformationElement (id : Z) (m_map : gmap Z Ptr)
    : Ptr * gmap Z Ptr :=
  match m_map !! id with
  | Some p => (p, m_map)
  | None => (None, <[id := None]> m_map)
  end.

(** Iteration from [m_map.begin ()] to [m_map.end ()]. *)
Definition in_order (m_map : gmap Z Ptr) : list (Z * Ptr) :=
  merge_sort by_id (map_to_list m_map).

Fixpoint SerializedSizeFrom (h : Heap) (size : Z) (es : list (Z * Ptr))
    : result Z :=
  match es with
  | [] => Ok size
  | elem :: es' =>
      let? element := deref h elem.2 in
      SerializedSizeFrom h (Num.wrap32 (size + GetSerializedSize element)) es'
  end.

Definition GetInformationElementsSerializedSize (h : Heap)
    (m_map : gmap Z Ptr) : result Z :=
  SerializedSizeFrom h 0 (in_order m_map).

Fixpoint SerializeFrom (h : Heap) (es : list (Z * Ptr)) : result (list Z) :=
  match es with
  | [] => Ok []
  | elem :: es' =>
      let? element := deref h elem.2 in
      let? rest := SerializeFrom h es' in
      Ok (Serialize element ++ rest)
  end.

(** The bytes written from [start] on. *)
Definition SerializeInformationElements (h : Heap) (m_map : gmap Z Ptr)
    : result (list Z) :=
  SerializeFrom h (in_order m_map).

(** The loop [while (!i.IsEnd ())].  Every round reads at least the two
    bytes of a record header, so [fuel = length i] rounds are never used
    up; [element] is the local variable that survives from round to
    round. *)
Fixpoint DeserializeLoop (fuel : nat) (h : Heap) (m_map : gmap Z Ptr)
    (element : Ptr) (i : list Z) : result (Heap * gmap Z Ptr) :=
  match i with
  | [] => Ok (h, m_map)
  | _ :: _ =>
      match fuel with
      | O => Err BufferOverrun
      | S fuel' =>
          let? r := DeserializeElementID i in
          let '(i1, id, length) := r in
          let '(element', h1) := CreateForId id element h in
          let? r := DeserializeElementBody h1 element' i1 length in
          let '(i2, h2) := r in
          DeserializeLoop fuel' h2 (<[id := element']> m_map) element' i2
      end
  end.

Definition DeserializeInformationElements (h : Heap) (m_map : gmap Z Ptr)
    (start : list Z) : result (Heap * gmap Z Ptr) :=
  DeserializeLoop (List.length start) h m_map None start.

(** What a container holds: under every id, the id and the body of the
    element stored there (nothing for a null pointer). *)
Definition pairs_of (h : Heap) (m_map : gmap Z Ptr)
    : gmap Z (option (Z * list Z)) :=
  (fun p => match deref h p with
            | Ok e => Some (ElementId e, SerializeInformationField e)
            | Err _ => None
            end) <$> m_map.

End Elements.

(** ** Sample inputs

    Used by the examples that instantiate the theorems below. *)

(** Modelled from the spec: "data-bits-per-symbol from the mode's rate".
    [WifiMode::GetDataRate] is not among the sources; this table gives the
    rate each mode carries in its name on a 20 MHz channel with one stream
    and the long guard interval, and the explicit rate of a DMG mode. *)
Definition SampleDataRate (mode : WifiMode) (channelWidth : Z)
    (isShortGuardInterval : bool) (nss : Z) : Z :=
  let name := GetUniqueName mode in
  match GetModulationClass mode with
  | WIFI_MOD_CLASS_DMG_CTRL | WIFI_MOD_CLASS_DMG_SC
  | WIFI_MOD_CLASS_DMG_OFDM | WIFI_MOD_CLASS_DMG_LP_SC =>
      GetNominalDataRate mode
  | WIFI_MOD_CLASS_DSSS | WIFI_MOD_CLASS_HR_DSSS =>
      if (name =? "DsssRate1Mbps")%string then 1000000
      else if (name =? "DsssRate2Mbps")%string then 2000000
      else if (name =? "DsssRate5_5Mbps")%string then 5500000
      else 11000000
  | WIFI_MOD_CLASS_HT | WIFI_MOD_CLASS_VHT => 6500000
  | _ => 6000000
  end.

Definition SampleOfdmTxVector : WifiTxVector :=
  mkWifiTxVector GetOfdmRate6Mbps 20 1 0 false false 0.

Definition SampleHtTxVector : WifiTxVector :=
  mkWifiTxVector GetHtMcs0 20 1 0 false false 0.

Definition SampleVhtTxVector : WifiTxVector :=
  mkWifiTxVector GetVhtMcs0 20 1 0 false false 0.

Definition SampleDmgCtrlTxVector : WifiTxVector :=
  mkWifiTxVector GetDMG_MCS0 2160 1 0 false false 0.

Definition SampleDmgScTxVector : WifiTxVector :=
  mkWifiTxVector GetDMG_MCS1 2160 1 0 false false 0.

(** The element ids of IEEE Std 802.11-2012 and 802.11ad-2012. *)
Definition SampleElementIds : ElementIds :=
  mkElementIds 1 50 45 191 61 42 148 158 151 144 167 145.

(** ** The tail rule of the HT and VHT payload, as the specification words
       it: the 6 microsecond tail is added exactly when the frequency is in
       the 2.4 GHz band and the frame ends the transmission. *)
Definition tail_rule_as_stated : Prop :=
  forall (GetDataRate : WifiMode -> Z -> bool -> Z -> Z)
         (OFDMSCMin OFDMBRPMin : Q) (size : Z) (txVector : WifiTxVector)
         (preamble : WifiPreamble) (frequency : Q) (mpdutype : mpduType)
         (incFlag : Z) (st st' : WifiPhy) (d0 : Time),
    GetModulationClass (GetMode txVector) = WIFI_MOD_CLASS_HT
    \/ GetModulationClass (GetMode txVector) = WIFI_MOD_CLASS_VHT ->
    HtSymbolsDuration GetDataRate size txVector preamble mpdutype incFlag st
    = (Ok d0, st') ->
    GetPayloadDuration GetDataRate OFDMSCMin OFDMBRPMin size txVector preamble
      frequency mpdutype incFlag st
    = (Ok (if in_2_4GHz_band frequency && ends_transmission mpdutype preamble
           then d0 + MicroSeconds 6 else d0), st').

(** ** Well-formed containers

    The switch of [DeserializeInformationElements] has a case for [id]. *)
Definition registered (ids : ElementIds) (id : Z) : bool :=
  (id =? IE_SUPPORTED_RATES ids) || (id =? IE_EXTENDED_SUPPORTED_RATES ids)
  || (id =? IE_HT_CAPABILITIES ids) || (id =? IE_VHT_CAPABILITIES ids)
  || (id =? IE_HT_OPERATIONS ids) || (id =? IE_ERP_INFORMATION ids)
  || (id =? IE_DMG_CAPABILITIES ids) || (id =? IE_MULTI_BAND ids)
  || (id =? IE_DMG_OPERATION ids) || (id =? IE_NEXT_DMG_ATI ids)
  || (id =? IE_RELAY_CAPABILITIES ids) || (id =? IE_EXTENDED_SCHEDULE ids).

(** An element with an 8-bit id the switch knows, which reports the size
    of the field it writes, a size that fits the length byte. *)
Definition well_formed_element (ids : ElementIds)
    (e : WifiInformationElement) : Prop :=
  0 <= ElementId ids e < 256
  /\ registered ids (ElementId ids e) = true
  /\ GetInformationFieldSize e
     = Z.of_nat (List.length (SerializeInformationField e))
  /\ GetInformationFieldSize e < 256.

(** Every entry of the map points to a well-formed element filed under
    its own id, as [AddWifiInformationElement] files it. *)
Definition well_formed (ids : ElementIds) (h : Heap) (m_map : gmap Z Ptr)
    : Prop :=
  forall (id : Z) (p : Ptr),
    m_map !! id = Some p ->
    exists e, deref h p = Ok e /\ ElementId ids e = id
              /\ well_formed_element ids e.

(** The bytes of a list of elements, record after record, and the
    (id, body) pair an element contributes. *)
Definition records (ids : ElementIds) (es : list WifiInformationElement)
    : list Z :=
  foldr (fun e r => Serialize ids e ++ r) [] es.

Definition entry_of (ids : ElementIds) (e : WifiInformationElement)
    : Z * option (Z * list Z) :=
  (ElementId ids e, Some (ElementId ids e, SerializeInformationField e)).

(** Every pointer of the map is null or points into the heap. *)
Definition in_heap (h : Heap) (m_map : gmap Z Ptr) : Prop :=
  forall id l, m_map !! id = Some (Some l) -> (l < List.length h)%nat.

(** A container of two elements, filed in descending order of id. *)
Definition SampleHeap : Heap :=
  [mkElement HtCapabilities 3 [17; 18; 19]; mkElement SupportedRates 2 [130; 132]].

Definition SampleContainer : gmap Z Ptr :=
  <[1 := Some 1%nat]> (<[45 := Some 0%nat]> ∅).

(** ** Calls that leave the state alone *)

Definition preserves {A : Type} (m : M A) : Prop := forall s, snd (m s) = s.

(** ** The quantities of the symbol-based classes (OFDM, ERP-OFDM, HT and
       VHT) under one name each. *)

Definition is_symbol_class (c : WifiModulationClass) : bool :=
  match c with
  | WIFI_MOD_CLASS_OFDM | WIFI_MOD_CLASS_ERP_OFDM
  | WIFI_MOD_CLASS_HT | WIFI_MOD_CLASS_VHT => true
  | _ => false
  end.

Definition SymbolDuration (txVector : WifiTxVector) : Time :=
  match GetModulationClass (GetMode txVector) with
  | WIFI_MOD_CLASS_OFDM | WIFI_MOD_CLASS_ERP_OFDM => OfdmSymbolDuration txVector
  | _ => HtSymbolDuration txVector
  end.

Definition NumDataBitsPerSymbol (GetDataRate : WifiMode -> Z -> bool -> Z -> Z)
    (txVector : WifiTxVector) : Q :=
  match GetModulationClass (GetMode txVector) with
  | WIFI_MOD_CLASS_OFDM | WIFI_MOD_CLASS_ERP_OFDM =>
      OfdmNumDataBitsPerSymbol GetDataRate txVector
  | _ => HtNumDataBitsPerSymbol GetDataRate txVector
  end.

(** The 16 service bits and the 6 tail bits of every encoder. *)
Definition ServiceAndTailBits (txVector : WifiTxVector) : Q :=
  match GetModulationClass (GetMode txVector) with
  | WIFI_MOD_CLASS_OFDM | WIFI_MOD_CLASS_ERP_OFDM => 16 + 6
  | _ => 16 + 6 * HtNes txVector
  end.

Definition StbcFactor (txVector : WifiTxVector) : Z :=
  match GetModulationClass (GetMode txVector) with
  | WIFI_MOD_CLASS_OFDM | WIFI_MOD_CLASS_ERP_OFDM => 1
  | _ => if IsStbc txVector then 2 else 1
  end.

(** The whole symbols a PSDU of [size] bytes needs. *)
Definition WholeSymbols (GetDataRate : WifiMode -> Z -> bool -> Z -> Z)
    (txVector : WifiTxVector) (size : Z) : Z :=
  StbcFactor txVector
  * Qceiling ((ServiceAndTailBits txVector + inject_Z size * 8)
              / (inject_Z (StbcFactor txVector)
                 * NumDataBitsPerSymbol GetDataRate txVector)).

(** What is added to the duration of the symbols. *)
Definition SignalExtension (txVector : WifiTxVector) (frequency : Q)
    (mpdutype : mpduType) (preamble : WifiPreamble) : Time :=
  match GetModulationClass (GetMode txVector) with
  | WIFI_MOD_CLASS_ERP_OFDM => MicroSeconds 6
  | WIFI_MOD_CLASS_HT =>
      if in_2_4GHz_band frequency && ends_transmission mpdutype preamble
      then MicroSeconds 6 else 0
  | _ => 0
  end.

(** Data rates between 1 kbit/s and 1 Tbit/s, whatever the channel width,
    guard interval and number of streams. *)
Definition rates_in_range (GetDataRate : WifiMode -> Z -> bool -> Z -> Z)
    (mode : WifiMode) : Prop :=
  forall (channelWidth : Z) (isShortGuardInterval : bool) (nss : Z),
    1000 <= GetDataRate mode channelWidth isShortGuardInterval nss
    <= 1000000000000.

(** ** The payload of the symbol-based classes in binary64

    The OFDM, ERP-OFDM, HT and VHT branch of [GetPayloadDuration] once
    more, every operation on doubles rounded: the conversions of [size],
    of the product [rate * symbolDuration] and of the symbol duration, the
    sums, products and quotients, and the accumulation into
    [m_totalAmpduNumSymbols].  [ceil] and [lrint] return integers and
    round nothing.  The other branches keep no state; [GetPayloadDuration]
    below takes them from the embedding above. *)

Module Binary64Phy.

Section Calculator.

Variable GetDataRate : WifiMode -> Z -> bool -> Z -> Z.
Variable OFDMSCMin : Q.
Variable OFDMBRPMin : Q.

(** N_DBPS: the product is taken in [uint64_t] and converted, the
    quotient by [1e9] is rounded. *)
Definition OfdmNumDataBitsPerSymbol (txVector : WifiTxVector) : Q :=
  Binary64.round
    (Binary64.of_int
       (Num.wrap64
          (GetDataRate (GetMode txVector) (GetChannelWidth txVector) false 1
           * OfdmSymbolDuration txVector)) / 1000000000).

(** [m_totalAmpduSize += size; m_totalAmpduNumSymbols += numSymbols],
    under [incFlag == 1]. *)
Definition accumulate (incFlag size : Z) (numSymbols : Q) : M unit :=
  when (incFlag =? 1)
    (s <- get ;
     put (mkWifiPhy (Num.wrap32 (m_totalAmpduSize s + size))
            (Binary64.add (m_totalAmpduNumSymbols s) numSymbols)))%phy.

Definition OfdmNumSymbols (size : Z) (preamble : WifiPreamble)
    (mpdutype : mpduType) (incFlag : Z) (numDataBitsPerSymbol : Q) : M Q :=
  (if is_mpdu_in_aggregate mpdutype && negb (is_preamble_none preamble) then
     (* first packet in an A-MPDU *)
     numSymbols <- lift (Binary64.div
                           (Binary64.add
                              (Binary64.add 16
                                 (Binary64.mul (Binary64.of_int size) 8)) 6)
                           numDataBitsPerSymbol) ;
     _ <- accumulate incFlag size numSymbols ;
     ret numSymbols
   else if is_mpdu_in_aggregate mpdutype && is_preamble_none preamble then
     (* consecutive packets in an A-MPDU *)
     numSymbols <- lift (Binary64.div (Binary64.mul (Binary64.of_int size) 8)
                           numDataBitsPerSymbol) ;
     _ <- accumulate incFlag size numSymbols ;
     ret numSymbols
   else if is_last_mpdu_in_aggregate mpdutype && is_preamble_none preamble then
     (* last packet in an A-MPDU *)
     s <- get ;
     let totalAmpduSize := Num.wrap32 (m_totalAmpduSize s + size) in
     q <- lift (Binary64.div
                  (Binary64.add
                     (Binary64.add 16
                        (Binary64.mul (Binary64.of_int totalAmpduSize) 8)) 6)
                  numDataBitsPerSymbol) ;
     n <- lift (Num.lrint (Num.ceil q)) ;
     let numSymbols := Binary64.of_int n in
     if Qle_bool (m_totalAmpduNumSymbols s) numSymbols then
       _ <- reset incFlag ;
       ret (Binary64.sub numSymbols (m_totalAmpduNumSymbols s))
     else fail AssertionFailed
   else if is_normal_mpdu mpdutype && negb (is_preamble_none preamble) then
     (* not an A-MPDU *)
     q <- lift (Binary64.div
                  (Binary64.add
                     (Binary64.add 16 (Binary64.mul (Binary64.of_int size) 8))
                     6)
                  numDataBitsPerSymbol) ;
     n <- lift (Num.lrint (Num.ceil q)) ;
     ret (Binary64.of_int n)
   else fail (FatalError "Wrong combination of preamble and packet type")
  )%phy%Q.

(** [NanoSeconds (numSymbols * symbolDuration.GetNanoSeconds ())]: the
    product is a double, converted to [uint64_t]. *)
Definition OfdmSymbolsDuration (size : Z) (txVector : WifiTxVector)
    (preamble : WifiPreamble) (mpdutype : mpduType) (incFlag : Z) : M Time :=
  (let symbolDuration := OfdmSymbolDuration txVector in
   let numDataBitsPerSymbol := OfdmNumDataBitsPerSymbol txVector in
   numSymbols <- OfdmNumSymbols size preamble mpdutype incFlag
                   numDataBitsPerSymbol ;
   lift (NanoSecondsD
           (Binary64.mul numSymbols (Binary64.of_int symbolDuration))))%phy.

Definition OfdmPayloadDuration (size : Z) (txVector : WifiTxVector)
    (preamble : WifiPreamble) (mpdutype : mpduType) (incFlag : Z) : M Time :=
  (d <- OfdmSymbolsDuration size txVector preamble mpdutype incFlag ;
   match GetModulationClass (GetMode txVector) with
   | WIFI_MOD_CLASS_ERP_OFDM =>
       (* signal extension of the ERP PHY *)
       ret (d + MicroSeconds 6)
   | _ => ret d
   end)%phy.

Definition HtNumDataBitsPerSymbol (txVector : WifiTxVector) : Q :=
  Binary64.round
    (Binary64.of_int
       (Num.wrap64
          (GetDataRate (GetMode txVector) (GetChannelWidth txVector)
             (IsShortGuardInterval txVector) (GetNss txVector)
           * HtSymbolDuration txVector)) / 1000000000).

Definition HtNumSymbols (size : Z) (preamble : WifiPreamble)
    (mpdutype : mpduType) (incFlag : Z) (m_Stbc Nes numDataBitsPerSymbol : Q)
    : M Q :=
  (if is_mpdu_in_aggregate mpdutype && negb (is_preamble_none preamble) then
     (* first packet in an A-MPDU *)
     numSymbols <- lift (Binary64.div
                           (Binary64.mul m_Stbc
                              (Binary64.add
                                 (Binary64.add 16
                                    (Binary64.mul (Binary64.of_int size) 8))
                                 (Binary64.mul 6 Nes)))
                           (Binary64.mul m_Stbc numDataBitsPerSymbol)) ;
     _ <- accumulate incFlag size numSymbols ;
     ret numSymbols
   else if is_mpdu_in_aggregate mpdutype && is_preamble_none preamble then
     (* consecutive packets in an A-MPDU *)
     numSymbols <- lift (Binary64.div
                           (Binary64.mul
                              (Binary64.mul m_Stbc (Binary64.of_int size)) 8)
                           (Binary64.mul m_Stbc numDataBitsPerSymbol)) ;
     _ <- accumulate incFlag size numSymbols ;
     ret numSymbols
   else if is_last_mpdu_in_aggregate mpdutype && is_preamble_none preamble then
     (* last packet in an A-MPDU *)
     s <- get ;
     let totalAmpduSize := Num.wrap32 (m_totalAmpduSize s + size) in
     q <- lift (Binary64.div
                  (Binary64.add
                     (Binary64.add 16
                        (Binary64.mul (Binary64.of_int totalAmpduSize) 8))
                     (Binary64.mul 6 Nes))
                  (Binary64.mul m_Stbc numDataBitsPerSymbol)) ;
     n <- lift (Num.lrint (Binary64.mul m_Stbc (Num.ceil q))) ;
     let numSymbols := Binary64.of_int n in
     if Qle_bool (m_totalAmpduNumSymbols s) numSymbols then
       _ <- reset incFlag ;
       ret (Binary64.sub numSymbols (m_totalAmpduNumSymbols s))
     else fail AssertionFailed
   else if is_normal_mpdu mpdutype && negb (is_preamble_none preamble) then
     (* not an A-MPDU *)
     q <- lift (Binary64.div
                  (Binary64.add
                     (Binary64.add 16 (Binary64.mul (Binary64.of_int size) 8))
                     (Binary64.mul 6 Nes))
                  (Binary64.mul m_Stbc numDataBitsPerSymbol)) ;
     n <- lift (Num.lrint (Binary64.mul m_Stbc (Num.ceil q))) ;
     ret (Binary64.of_int n)
   else fail (FatalError "Wrong combination of preamble and packet type")
  )%phy%Q.

Definition HtSymbolsDuration (size : Z) (txVector : WifiTxVector)
    (preamble : WifiPreamble) (mpdutype : mpduType) (incFlag : Z) : M Time :=
  (let symbolDuration := HtSymbolDuration txVector in
   let m_Stbc := HtStbc txVector in
   let Nes := HtNes txVector in
   let numDataBitsPerSymbol := HtNumDataBitsPerSymbol txVector in
   numSymbols <- HtNumSymbols size preamble mpdutype incFlag m_Stbc Nes
                   numDataBitsPerSymbol ;
   lift (NanoSecondsD
           (Binary64.mul numSymbols (Binary64.of_int symbolDuration))))%phy.

Definition HtPayloadDuration (size : Z) (txVector : WifiTxVector)
    (preamble : WifiPreamble) (frequency : Q) (mpdutype : mpduType)
    (incFlag : Z) : M Time :=
  (d <- HtSymbolsDuration size txVector preamble mpdutype incFlag ;
   match GetModulationClass (GetMode txVector) with
   | WIFI_MOD_CLASS_HT =>
       if in_2_4GHz_band frequency && ends_transmission mpdutype preamble
       then ret (d + MicroSeconds 6)       (* at 2.4 GHz *)
       else ret d
   | _ => ret d                            (* at 5 GHz *)
   end)%phy.

Definition GetPayloadDuration (size : Z) (txVector : WifiTxVector)
    (preamble : WifiPreamble) (frequency : Q) (mpdutype : mpduType)
    (incFlag : Z) : M Time :=
  match GetModulationClass (GetMode txVector) with
  | WIFI_MOD_CLASS_OFDM | WIFI_MOD_CLASS_ERP_OFDM =>
      OfdmPayloadDuration size txVector preamble mpdutype incFlag
  | WIFI_MOD_CLASS_HT | WIFI_MOD_CLASS_VHT =>
      HtPayloadDuration size txVector preamble frequency mpdutype incFlag
  | _ =>
      GetPayloadDuration GetDataRate OFDMSCMin OFDMBRPMin size txVector
        preamble frequency mpdutype incFlag
  end.

(** The quantities of the symbol-based classes under one name each:
    the divisor of every quotient, the bits of a frame as the double the
    source adds up, and the whole symbols of a PSDU. *)
Definition Divisor (txVector : WifiTxVector) : Q :=
  match GetModulationClass (GetMode txVector) with
  | WIFI_MOD_CLASS_OFDM | WIFI_MOD_CLASS_ERP_OFDM =>
      OfdmNumDataBitsPerSymbol txVector
  | _ => Binary64.mul (HtStbc txVector) (HtNumDataBitsPerSymbol txVector)
  end.

Definition Bits (txVector : WifiTxVector) (size : Z) : Q :=
  match GetModulationClass (GetMode txVector) with
  | WIFI_MOD_CLASS_OFDM | WIFI_MOD_CLASS_ERP_OFDM =>
      Binary64.add (Binary64.add 16 (Binary64.mul (Binary64.of_int size) 8)) 6
  | _ =>
      Binary64.add (Binary64.add 16 (Binary64.mul (Binary64.of_int size) 8))
        (Binary64.mul 6 (HtNes txVector))
  end.

Definition WholeSymbols (txVector : WifiTxVector) (size : Z) : Z :=
  StbcFactor txVector
  * Qceiling (Binary64.round (Bits txVector size / Divisor txVector)).

(** The bits of a symbol that the quotients amount to, and the symbols
    that [b] bits fill, as exact numbers. *)
Definition BitsPerSymbol (txVector : WifiTxVector) : Q :=
  Divisor txVector / inject_Z (StbcFactor txVector).

Definition Symbols (txVector : WifiTxVector) (b : Z) : Q :=
  inject_Z b / BitsPerSymbol txVector.

End Calculator.

(** The bits a frame of an A-MPDU is charged: the first one also carries
    the [O] service and tail bits. *)
Definition FrameBits (O : Z) (preamble : WifiPreamble) (size : Z) : Z :=
  if is_preamble_none preamble then 8 * size else O + 8 * size.

(** An A-MPDU sent frame by frame, every call with [incFlag = 1]: the
    first MPDU with a preamble, the following ones and the last one
    without.  The result is the sum of the durations. *)
Section Burst.

Variable GetDataRate : WifiMode -> Z -> bool -> Z -> Z.
Variable OFDMSCMin : Q.
Variable OFDMBRPMin : Q.
Variable txVector : WifiTxVector.
Variable frequency : Q.

Fixpoint MiddleFrames (sizes : list Z) : M Time :=
  match sizes with
  | [] => ret 0
  | size :: sizes' =>
      (d <- GetPayloadDuration GetDataRate OFDMSCMin OFDMBRPMin size txVector
              WIFI_PREAMBLE_NONE frequency MPDU_IN_AGGREGATE 1 ;
       ds <- MiddleFrames sizes' ;
       ret (d + ds))%phy
  end.

Definition FirstAndMiddleFrames (preamble : WifiPreamble) (first : Z)
    (middle : list Z) : M Time :=
  (d <- GetPayloadDuration GetDataRate OFDMSCMin OFDMBRPMin first txVector
          preamble frequency MPDU_IN_AGGREGATE 1 ;
   ds <- MiddleFrames middle ;
   ret (d + ds))%phy.

Definition SendAmpdu (preamble : WifiPreamble) (first : Z) (middle : list Z)
    (last : Z) : M Time :=
  (d <- FirstAndMiddleFrames preamble first middle ;
   dk <- GetPayloadDuration GetDataRate OFDMSCMin OFDMBRPMin last txVector
           WIFI_PREAMBLE_NONE frequency LAST_MPDU_IN_AGGREGATE 1 ;
   ret (d + dk))%phy.

End Burst.

End Binary64Phy.

Definition sum_sizes (sizes : list Z) : Z := foldr Z.add 0 sizes.

(** The state after a call: updated under [incFlag = 1] only. *)
Definition commit (incFlag : Z) (st st' : WifiPhy) : WifiPhy :=
  if incFlag =? 1 then st' else st.

(** [numSymbols] of either branch. *)
Definition NumSymbolsOf (GetDataRate : WifiMode -> Z -> bool -> Z -> Z)
    (size : Z) (txVector : WifiTxVector) (preamble : WifiPreamble)
    (mpdutype : mpduType) (incFlag : Z) : M Q :=
  match GetModulationClass (GetMode txVector) with
  | WIFI_MOD_CLASS_OFDM | WIFI_MOD_CLASS_ERP_OFDM =>
      OfdmNumSymbols size preamble mpdutype incFlag
        (OfdmNumDataBitsPerSymbol GetDataRate txVector)
  | _ =>
      HtNumSymbols size preamble mpdutype incFlag (HtStbc txVector)
        (HtNes txVector) (HtNumDataBitsPerSymbol GetDataRate txVector)
  end.

(** The codewords after the first. *)
Definition DmgCtrlCodewords (size : Z) : Z :=
  Qceiling ((inject_Z size - 6) * 8 / 168).

(** ** Aggregation conservation, as the specification words it: the
       durations of the frames of an A-MPDU add up to the duration of one
       plain MPDU of the total size, within one symbol. *)
Definition aggregation_conservation_as_stated : Prop :=
  forall (GetDataRate : WifiMode -> Z -> bool -> Z -> Z)
         (OFDMSCMin OFDMBRPMin : Q) (txVector : WifiTxVector) (frequency : Q)
         (preamble : WifiPreamble) (first : Z) (middle : list Z) (last : Z),
    GetModulationClass (GetMode txVector) = WIFI_MOD_CLASS_OFDM
    \/ GetModulationClass (GetMode txVector) = WIFI_MOD_CLASS_HT
    \/ GetModulationClass (GetMode txVector) = WIFI_MOD_CLASS_VHT ->
    rates_in_range GetDataRate (GetMode txVector) ->
    preamble <> WIFI_PREAMBLE_NONE ->
    0 <= first -> Forall (fun s => 0 <= s) middle -> 0 <= last ->
    first + sum_sizes middle + last < 2 ^ 32 ->
    exists (total normal : Time) (st st' : WifiPhy),
      Binary64Phy.SendAmpdu GetDataRate OFDMSCMin OFDMBRPMin txVector
        frequency preamble first middle last WifiPhy_init = (Ok total, st)
      /\ Binary64Phy.GetPayloadDuration GetDataRate OFDMSCMin OFDMBRPMin
           (first + sum_sizes middle + last) txVector preamble frequency
           NORMAL_MPDU 0 WifiPhy_init = (Ok normal, st')
      /\ Z.abs (total - normal) <= SymbolDuration txVector.

(** The largest payload, per class, up to which no 32-bit intermediate of
    [GetPayloadDuration] wraps around. *)
Definition MaxPayloadSize (c : WifiModulationClass) : Z :=
  match c with
  | WIFI_MOD_CLASS_DMG_CTRL => 8388603
  | WIFI_MOD_CLASS_DMG_SC | WIFI_MOD_CLASS_DMG_OFDM => 2 ^ 27 - 1
  | _ => 2 ^ 32 - 1
  end.

(** ** Monotonicity, as the specification words it: whenever two payload
       sizes both get a duration, the larger size gets the longer one. *)
Definition payload_monotone_as_stated : Prop :=
  forall (GetDataRate : WifiMode -> Z -> bool -> Z -> Z)
         (OFDMSCMin OFDMBRPMin : Q) (txVector : WifiTxVector)
         (preamble : WifiPreamble) (frequency : Q) (mpdutype : mpduType)
         (incFlag : Z) (st sa sb : WifiPhy) (a b : Z) (da db : Time),
    0 <= a <= b -> b < 2 ^ 32 ->
    GetPayloadDuration GetDataRate OFDMSCMin OFDMBRPMin a txVector preamble
      frequency mpdutype incFlag st = (Ok da, sa) ->
    GetPayloadDuration GetDataRate OFDMSCMin OFDMBRPMin b txVector preamble
      frequency mpdutype incFlag st = (Ok db, sb) ->
    da <= db.

(** ** The rest of [WifiPhy]: header modes, the PLCP overhead, whole
       transmissions, bit counts and the validity of a transmit vector *)

(** [operator==] of [WifiMode] (wifi-mode.cc) compares the uids of the two
    modes, and [WifiModeFactory] hands out one uid per unique name. *)
Definition WifiMode_eqb (a b : WifiMode) : bool :=
  (GetUniqueName a =? GetUniqueName b)%string.

Definition GetHtPlcpHeaderMode (payloadMode : WifiMode) : WifiMode :=
  GetHtMcs0.

Definition GetVhtPlcpHeaderMode (payloadMode : WifiMode) : WifiMode :=
  GetVhtMcs0.

Definition GetPlcpHeaderMode (payloadMode : WifiMode) (preamble : WifiPreamble)
    (txVector : WifiTxVector) : result WifiMode :=
  match GetModulationClass payloadMode with
  | WIFI_MOD_CLASS_OFDM | WIFI_MOD_CLASS_HT | WIFI_MOD_CLASS_VHT =>
      if GetChannelWidth txVector =? 5 then Ok GetOfdmRate1_5MbpsBW5MHz
      else if GetChannelWidth txVector =? 10 then Ok GetOfdmRate3MbpsBW10MHz
      else Ok GetOfdmRate6Mbps
  | WIFI_MOD_CLASS_ERP_OFDM => Ok GetErpOfdmRate6Mbps
  | WIFI_MOD_CLASS_DSSS | WIFI_MOD_CLASS_HR_DSSS =>
      if match preamble with WIFI_PREAMBLE_LONG => true | _ => false end
         || WifiMode_eqb payloadMode GetDsssRate1Mbps
      then Ok GetDsssRate1Mbps
      else Ok GetDsssRate2Mbps      (* WIFI_PREAMBLE_SHORT *)
  | WIFI_MOD_CLASS_DMG_CTRL => Ok GetDMG_MCS0
  | WIFI_MOD_CLASS_DMG_SC => Ok GetDMG_MCS1
  | WIFI_MOD_CLASS_DMG_OFDM => Ok GetDMG_MCS13
  | _ => Err (FatalError "unsupported modulation class")
  end.

(** [WifiPhy::CaluclateTransmittedBits]: the bits on the air of a DMG
    frame.  The sum of the return statement has [uint32_t] and [int]
    operands only, so it is taken in [uint32_t] before it is widened to the
    [uint64_t] result. *)
Definition CaluclateTransmittedBits (size : Z) (txvector : WifiTxVector)
    : result Z :=
  let payloadMode := GetMode txvector in
  match GetModulationClass payloadMode with
  | WIFI_MOD_CLASS_DMG_SC =>
      let? Ncbpb := DmgScNcbpb payloadMode in
      let Nbits := Num.wrap32 (size * 8) in
      let? Ncbits := DmgNcbits payloadMode Nbits in
      let? Ncw := Num.to_uint32 (Num.ceil (inject_Z Ncbits / 672)) in
      let? Nblks :=
        Num.to_uint32 (Num.ceil (inject_Z Ncw * 672 / inject_Z Ncbpb)) in
      Ok (Num.wrap32 (3328 + 1024       (* preamble + header *)
                      + (Nblks + 1) * 64  (* guard interval bits *)
                      + Nblks * Ncbpb))   (* bits per block *)
  | WIFI_MOD_CLASS_DMG_OFDM =>
      let? Ncbps := DmgOfdmNcbps payloadMode in
      let Nbits := Num.wrap32 (size * 8) in
      let? Ncbits := DmgNcbits payloadMode Nbits in
      let? Ncw := Num.to_uint32 (Num.ceil (inject_Z Ncbits / 672)) in
      let? Nsym :=
        Num.to_uint32 (Num.ceil (inject_Z Ncw * 672 / inject_Z Ncbps)) in
      Ok (Num.wrap32 (3328 + 672 + Nsym * Ncbps))
  | _ => Err (FatalError "unsupported modulation class")
  end.

Definition IsValidTxVector (txVector : WifiTxVector) : bool :=
  let chWidth := GetChannelWidth txVector in
  let nss := GetNss txVector in
  let modeName := GetUniqueName (GetMode txVector) in
  if chWidth =? 20 then
    if negb (nss =? 3) && negb (nss =? 6)
    then negb (modeName =? "VhtMcs9")%string
    else true
  else if chWidth =? 80 then
    if (nss =? 3) || (nss =? 7) then negb (modeName =? "VhtMcs6")%string
    else if nss =? 6 then negb (modeName =? "VhtMcs9")%string
    else true
  else if chWidth =? 160 then
    if nss =? 3 then negb (modeName =? "VhtMcs9")%string else true
  else true.

(** The modes the static [Constructor] of the file instantiates when the
    library is loaded, in its order. *)
Definition Constructor : list WifiMode :=
  [GetDsssRate1Mbps; GetDsssRate2Mbps; GetDsssRate5_5Mbps;
   GetDsssRate11Mbps; GetErpOfdmRate6Mbps; GetErpOfdmRate9Mbps;
   GetErpOfdmRate12Mbps; GetErpOfdmRate18Mbps; GetErpOfdmRate24Mbps;
   GetErpOfdmRate36Mbps; GetErpOfdmRate48Mbps; GetErpOfdmRate54Mbps;
   GetOfdmRate6Mbps; GetOfdmRate9Mbps; GetOfdmRate12Mbps;
   GetOfdmRate18Mbps; GetOfdmRate24Mbps; GetOfdmRate36Mbps;
   GetOfdmRate48Mbps; GetOfdmRate54Mbps; GetOfdmRate3MbpsBW10MHz;
   GetOfdmRate4_5MbpsBW10MHz; GetOfdmRate6MbpsBW10MHz;
   GetOfdmRate9MbpsBW10MHz; GetOfdmRate12MbpsBW10MHz;
   GetOfdmRate18MbpsBW10MHz; GetOfdmRate24MbpsBW10MHz;
   GetOfdmRate27MbpsBW10MHz; GetOfdmRate1_5MbpsBW5MHz;
   GetOfdmRate2_25MbpsBW5MHz; GetOfdmRate3MbpsBW5MHz;
   GetOfdmRate4_5MbpsBW5MHz; GetOfdmRate6MbpsBW5MHz;
   GetOfdmRate9MbpsBW5MHz; GetOfdmRate12MbpsBW5MHz;
   GetOfdmRate13_5MbpsBW5MHz; GetHtMcs0; GetHtMcs1; GetHtMcs2; GetHtMcs3;
   GetHtMcs4; GetHtMcs5; GetHtMcs6; GetHtMcs7; GetHtMcs8; GetHtMcs9;
   GetHtMcs10; GetHtMcs11; GetHtMcs12; GetHtMcs13; GetHtMcs14; GetHtMcs15;
   GetHtMcs16; GetHtMcs17; GetHtMcs18; GetHtMcs19; GetHtMcs20; GetHtMcs21;
   GetHtMcs22; GetHtMcs23; GetHtMcs24; GetHtMcs25; GetHtMcs26; GetHtMcs27;
   GetHtMcs28; GetHtMcs29; GetHtMcs30; GetHtMcs31; GetVhtMcs0; GetVhtMcs1;
   GetVhtMcs2; GetVhtMcs3; GetVhtMcs4; GetVhtMcs5; GetVhtMcs6; GetVhtMcs7;
   GetVhtMcs8; GetVhtMcs9; GetDMG_MCS0; GetDMG_MCS1; GetDMG_MCS2;
   GetDMG_MCS3; GetDMG_MCS4; GetDMG_MCS5; GetDMG_MCS6; GetDMG_MCS7;
   GetDMG_MCS8; GetDMG_MCS9; GetDMG_MCS10; GetDMG_MCS11; GetDMG_MCS12;
   GetDMG_MCS13; GetDMG_MCS14; GetDMG_MCS15; GetDMG_MCS16; GetDMG_MCS17;
   GetDMG_MCS18; GetDMG_MCS19; GetDMG_MCS20; GetDMG_MCS21; GetDMG_MCS22;
   GetDMG_MCS23; GetDMG_MCS24].

(** No name occurs twice. *)
Fixpoint names_distinct (names : list string) : bool :=
  match names with
  | [] => true
  | name :: names' =>
      negb (existsb (String.eqb name) names') && names_distinct names'
  end.

Section TxDuration.

Variable GetDataRate : WifiMode -> Z -> bool -> Z -> Z.
Variable OFDMSCMin : Q.
Variable OFDMBRPMin : Q.

(** [operator+] of [Time] adds the two counts of nanoseconds.

    The overload of [GetPayloadDuration] without [mpdutype] and
    [incFlag]. *)
Definition GetPayloadDuration_plain (size : Z) (txVector : WifiTxVector)
    (preamble : WifiPreamble) (frequency : Q) : M Time :=
  GetPayloadDuration GetDataRate OFDMSCMin OFDMBRPMin size txVector preamble
    frequency NORMAL_MPDU 0.

Definition CalculatePlcpPreambleAndHeaderDuration (txVector : WifiTxVector)
    (preamble : WifiPreamble) : result Time :=
  let? preambleDuration :=
    GetPlcpPreambleDuration GetDataRate txVector preamble in
  let? headerDuration :=
    GetPlcpHeaderDuration GetDataRate txVector preamble in
  Ok (preambleDuration
      + headerDuration
      + GetPlcpHtSigHeaderDuration preamble
      + GetPlcpVhtSigA1Duration preamble
      + GetPlcpVhtSigA2Duration preamble
      + GetPlcpHtTrainingSymbolDuration preamble txVector
      + GetPlcpVhtSigBDuration preamble).

Definition CalculateTxDuration (size : Z) (txVector : WifiTxVector)
    (preamble : WifiPreamble) (frequency : Q) (mpdutype : mpduType)
    (incFlag : Z) : M Time :=
  (plcp <- lift (CalculatePlcpPreambleAndHeaderDuration txVector preamble) ;
   payload <- GetPayloadDuration GetDataRate OFDMSCMin OFDMBRPMin size txVector
                preamble frequency mpdutype incFlag ;
   ret (plcp + payload))%phy.

(** The same sum with its right operand evaluated first: the language
    leaves the order of the two operands of [+] open. *)
Definition CalculateTxDuration_payload_first (size : Z)
    (txVector : WifiTxVector) (preamble : WifiPreamble) (frequency : Q)
    (mpdutype : mpduType) (incFlag : Z) : M Time :=
  (payload <- GetPayloadDuration GetDataRate OFDMSCMin OFDMBRPMin size txVector
                preamble frequency mpdutype incFlag ;
   plcp <- lift (CalculatePlcpPreambleAndHeaderDuration txVector preamble) ;
   ret (plcp + payload))%phy.

(** The overload of [CalculateTxDuration] without [mpdutype] and
    [incFlag]. *)
Definition CalculateTxDuration_plain (size : Z) (txVector : WifiTxVector)
    (preamble : WifiPreamble) (frequency : Q) : M Time :=
  CalculateTxDuration size txVector preamble frequency NORMAL_MPDU 0.

End TxDuration.

(** ** What a container puts on the wire: under every id, the id, the
       length byte and the body of the element stored there (nothing for a
       null pointer). *)
Definition wire_of (ids : ElementIds) (h : Heap) (m_map : gmap Z Ptr)
    : gmap Z (option (Z * Z * list Z)) :=
  (fun p => match deref h p with
            | Ok e => Some (ElementId ids e, GetInformationFieldSize e,
                            SerializeInformationField e)
            | Err _ => None
            end) <$> m_map.

Definition wire_entry_of (ids : ElementIds) (e : WifiInformationElement)
    : Z * option (Z * Z * list Z) :=
  (ElementId ids e,
   Some (ElementId ids e, GetInformationFieldSize e,
         SerializeInformationField e)).

(** The order of two map entries by their keys. *)
Definition key_le {V : Type} (a b : Z * V) : Prop := a.1 <= b.1.

(** ** More sample inputs *)

Definition SampleDsssTxVector : WifiTxVector :=
  mkWifiTxVector GetDsssRate2Mbps 22 1 0 false false 0.

Definition SampleLpScTxVector : WifiTxVector :=
  mkWifiTxVector GetDMG_MCS25 2160 1 0 false false 0.

(** A single-carrier frame with four training fields appended. *)
Definition SampleDmgScTrainingTxVector : WifiTxVector :=
  mkWifiTxVector GetDMG_MCS1 2160 1 0 false false 4.

(** The two elements of the sample container, in ascending order of id. *)
Definition SampleElements : list WifiInformationElement :=
  [mkElement SupportedRates 2 [130; 132];
   mkElement HtCapabilities 3 [17; 18; 19]].

(** * Properties *)

(** ** Arithmetic of the numeric model *)

Module NumFacts.
Import Num.

Lemma wrap32_small z : 0 <= z < 2 ^ 32 -> wrap32 z = z.
Proof. intros H. unfold wrap32. now apply Z.mod_small. Qed.

Lemma wrap64_small z : 0 <= z < 2 ^ 64 -> wrap64 z = z.
Proof. intros H. unfold wrap64. now apply Z.mod_small. Qed.

Lemma wrap32_range z : 0 <= wrap32 z < 2 ^ 32.
Proof. unfold wrap32. apply Z.mod_pos_bound. lia. Qed.

Lemma wrap64_range z : 0 <= wrap64 z < 2 ^ 64.
Proof. unfold wrap64. apply Z.mod_pos_bound. lia. Qed.

Lemma trunc_nonneg x : (0 <= x)%Q -> trunc x = Qfloor x.
Proof.
  intros H. unfold trunc.
  destruct (Qle_bool 0 x) eqn:E; [reflexivity|].
  apply Qle_bool_iff in H. congruence.
Qed.

Lemma trunc_inject z : trunc (inject_Z z) = z.
Proof.
  unfold trunc. destruct (Qle_bool 0 (inject_Z z));
    [apply Qfloor_Z | apply Qceiling_Z].
Qed.

Lemma Qfloor_nonneg x : (0 <= x)%Q -> 0 <= Qfloor x.
Proof. intros H. change 0 with (Qfloor 0). now apply Qfloor_resp_le. Qed.

Lemma Qceiling_nonneg x : (0 <= x)%Q -> 0 <= Qceiling x.
Proof. intros H. change 0 with (Qceiling 0). now apply Qceiling_resp_le. Qed.

Lemma Qfloor_lt_Z x z : (x < inject_Z z)%Q -> Qfloor x < z.
Proof.
  intros H. pose proof (Qfloor_le x) as Hf.
  apply Z.lt_nge. intros Hz.
  assert (inject_Z z <= inject_Z (Qfloor x))%Q by (now rewrite <- Zle_Qle).
  lra.
Qed.

Lemma Qceiling_le_Z x z : (x <= inject_Z z)%Q -> Qceiling x <= z.
Proof.
  intros H. rewrite <- (Qceiling_Z z). now apply Qceiling_resp_le.
Qed.

Lemma to_uint32_ok x :
  (0 <= x)%Q -> (x < inject_Z (2 ^ 32))%Q -> to_uint32 x = Ok (Qfloor x).
Proof.
  intros H0 H1. unfold to_uint32. rewrite trunc_nonneg by assumption.
  pose proof (Qfloor_nonneg x H0). pose proof (Qfloor_lt_Z x _ H1).
  destruct (Z.leb_spec 0 (Qfloor x)); [|lia].
  destruct (Z.ltb_spec (Qfloor x) (2 ^ 32)); [reflexivity|lia].
Qed.

Lemma to_uint32_inject z : 0 <= z < 2 ^ 32 -> to_uint32 (inject_Z z) = Ok z.
Proof.
  intros H. unfold to_uint32. rewrite trunc_inject.
  destruct (Z.leb_spec 0 z); [|lia].
  destruct (Z.ltb_spec z (2 ^ 32)); [reflexivity|lia].
Qed.

Lemma to_uint32_inv x v : to_uint32 x = Ok v -> v = trunc x /\ 0 <= v < 2 ^ 32.
Proof.
  unfold to_uint32.
  destruct (Z.leb_spec 0 (trunc x)); simpl; [|discriminate].
  destruct (Z.ltb_spec (trunc x) (2 ^ 32)); [|discriminate].
  intros [= <-]. lia.
Qed.

Lemma to_uint64_ok x :
  (0 <= x)%Q -> (x < inject_Z (2 ^ 64))%Q -> to_uint64 x = Ok (Qfloor x).
Proof.
  intros H0 H1. unfold to_uint64. rewrite trunc_nonneg by assumption.
  pose proof (Qfloor_nonneg x H0). pose proof (Qfloor_lt_Z x _ H1).
  destruct (Z.leb_spec 0 (Qfloor x)); [|lia].
  destruct (Z.ltb_spec (Qfloor x) (2 ^ 64)); [reflexivity|lia].
Qed.

Lemma nearest_even_inject z : nearest_even (inject_Z z) = z.
Proof.
  unfold nearest_even. rewrite Qfloor_Z.
  assert (E : (inject_Z z - inject_Z z ?= 1 # 2)%Q = Lt).
  { rewrite <- Qlt_alt. lra. }
  now rewrite E.
Qed.

Lemma lrint_inject z : - 2 ^ 63 <= z < 2 ^ 63 -> lrint (inject_Z z) = Ok z.
Proof.
  intros H. unfold lrint. rewrite nearest_even_inject.
  destruct (Z.leb_spec (- 2 ^ 63) z); [|lia].
  destruct (Z.ltb_spec z (2 ^ 63)); [reflexivity|lia].
Qed.

Lemma fdiv_ok x y : ~ (y == 0)%Q -> fdiv x y = Ok (x / y)%Q.
Proof.
  intros H. unfold fdiv. destruct (Qeq_bool y 0) eqn:E; [|reflexivity].
  apply Qeq_bool_iff in E. contradiction.
Qed.

Lemma fdiv_inv x y q : fdiv x y = Ok q -> ~ (y == 0)%Q /\ q = (x / y)%Q.
Proof.
  unfold fdiv. destruct (Qeq_bool y 0) eqn:E; [discriminate|].
  intros [= <-]. split; [|reflexivity]. now apply Qeq_bool_neq.
Qed.

Lemma fdiv_zero x y : (y == 0)%Q -> fdiv x y = Err DivisionByZero.
Proof.
  intros H. unfold fdiv. apply Qeq_bool_iff in H. now rewrite H.
Qed.

End NumFacts.

Lemma int64_of_uint64_small v : 0 <= v < 2 ^ 63 -> int64_of_uint64 v = v.
Proof.
  intros H. unfold int64_of_uint64.
  destruct (Z.ltb_spec v (2 ^ 63)); [reflexivity|lia].
Qed.

Lemma NanoSecondsD_ok x :
  (0 <= x)%Q -> (x < inject_Z (2 ^ 63))%Q -> NanoSecondsD x = Ok (Qfloor x).
Proof.
  intros H0 H1. unfold NanoSecondsD.
  assert (x < inject_Z (2 ^ 64))%Q.
  { eapply Qlt_trans; [exact H1|]. rewrite <- Zlt_Qlt. lia. }
  rewrite NumFacts.to_uint64_ok by assumption. simpl.
  unfold NanoSeconds. rewrite int64_of_uint64_small; [reflexivity|].
  split; [now apply NumFacts.Qfloor_nonneg | now apply NumFacts.Qfloor_lt_Z].
Qed.

Lemma NanoSecondsD_mono x y :
  (0 <= x)%Q -> (x <= y)%Q -> (y < inject_Z (2 ^ 63))%Q ->
  exists dx dy, NanoSecondsD x = Ok dx /\ NanoSecondsD y = Ok dy /\ dx <= dy.
Proof.
  intros H0 Hxy Hy. exists (Qfloor x), (Qfloor y).
  assert (x < inject_Z (2 ^ 63))%Q by (eapply Qle_lt_trans; eassumption).
  assert (0 <= y)%Q by (eapply Qle_trans; eassumption).
  rewrite !NanoSecondsD_ok by assumption.
  repeat split. now apply Qfloor_resp_le.
Qed.

(** ** The monad: calls that leave the state alone *)

Lemma preserves_ret {A : Type} (a : A) : preserves (ret a).
Proof. intros s. reflexivity. Qed.

Lemma preserves_lift {A : Type} (r : result A) : preserves (lift r).
Proof. intros s. reflexivity. Qed.

Lemma preserves_fail {A : Type} (e : error) : preserves (@fail A e).
Proof. intros s. reflexivity. Qed.

Lemma preserves_get : preserves get.
Proof. intros s. reflexivity. Qed.

Lemma preserves_bind {A B : Type} (m : M A) (k : A -> M B) :
  preserves m -> (forall a, preserves (k a)) -> preserves (bind m k).
Proof.
  intros Hm Hk s. unfold bind. specialize (Hm s).
  destruct (m s) as [[a|e] s1]; simpl in *; subst s1.
  - apply Hk.
  - reflexivity.
Qed.

Lemma preserves_accumulate incFlag size n :
  incFlag <> 1 -> preserves (accumulate incFlag size n).
Proof.
  intros H. unfold accumulate, when.
  destruct (Z.eqb_spec incFlag 1); [contradiction|]. apply preserves_ret.
Qed.

Lemma preserves_reset incFlag : incFlag <> 1 -> preserves (reset incFlag).
Proof.
  intros H. unfold reset, when.
  destruct (Z.eqb_spec incFlag 1); [contradiction|]. apply preserves_ret.
Qed.

Create HintDb preserves.

#[local] Hint Resolve preserves_ret preserves_lift preserves_fail
  preserves_get preserves_accumulate preserves_reset : preserves.

Ltac preserves_step :=
  match goal with
  | |- preserves (bind _ _) => apply preserves_bind; [|intros ?]
  | |- preserves (if ?b then _ else _) => destruct b
  | |- preserves (match ?x with _ => _ end) => destruct x
  | |- preserves _ => solve [auto with preserves]
  end.

Section PhyFacts.

Variable GetDataRate : WifiMode -> Z -> bool -> Z -> Z.
Variable OFDMSCMin : Q.
Variable OFDMBRPMin : Q.

Local Abbreviation PayloadDuration :=
  (GetPayloadDuration GetDataRate OFDMSCMin OFDMBRPMin).

Lemma preserves_OfdmNumSymbols size preamble mpdutype incFlag N :
  incFlag <> 1 -> preserves (OfdmNumSymbols size preamble mpdutype incFlag N).
Proof. intros H. unfold OfdmNumSymbols. repeat preserves_step. Qed.

Lemma preserves_HtNumSymbols size preamble mpdutype incFlag stbc nes N :
  incFlag <> 1 ->
  preserves (HtNumSymbols size preamble mpdutype incFlag stbc nes N).
Proof. intros H. unfold HtNumSymbols. repeat preserves_step. Qed.

(** C5.  A call of [GetPayloadDuration] whose commit flag is not set (any
    [incFlag] other than 1) leaves the A-MPDU accumulator as it found it:
    [m_totalAmpduSize] and [m_totalAmpduNumSymbols] are the same after the
    call as before, whatever the size, transmit vector, preamble,
    frequency and MPDU type, and whether or not the call fails. *)
Theorem probe_leaves_accumulator_unchanged :
  forall (size : Z) (txVector : WifiTxVector) (preamble : WifiPreamble)
         (frequency : Q) (mpdutype : mpduType) (incFlag : Z) (st : WifiPhy),
    incFlag <> 1 ->
    snd (PayloadDuration size txVector preamble frequency mpdutype incFlag st)
    = st.
Proof.
  intros size txVector preamble frequency mpdutype incFlag st H.
  assert (Hp : preserves (PayloadDuration size txVector preamble frequency
                            mpdutype incFlag)); [|apply Hp].
  pose proof (preserves_OfdmNumSymbols size preamble mpdutype incFlag) as HO.
  pose proof (preserves_HtNumSymbols size preamble mpdutype incFlag) as HH.
  unfold GetPayloadDuration, OfdmPayloadDuration, OfdmSymbolsDuration,
    HtPayloadDuration, HtSymbolsDuration.
  destruct (GetModulationClass (GetMode txVector));
    repeat (preserves_step || (apply HO; assumption) || (apply HH; assumption)).
Qed.

(** C2.  For a legacy OFDM mode and a preamble other than NONE, the PLCP
    preamble lasts 16 microseconds on a 20 MHz, a 10 MHz and a 5 MHz
    channel alike: the switch of [GetPlcpPreambleDuration] compares the
    width in MHz with 10000000 and 5000000, so its 32 and 64 microsecond
    cases are never taken for these widths. *)
Theorem ofdm_preamble_same_for_all_widths :
  forall (txVector : WifiTxVector) (preamble : WifiPreamble),
    GetModulationClass (GetMode txVector) = WIFI_MOD_CLASS_OFDM ->
    preamble <> WIFI_PREAMBLE_NONE ->
    GetChannelWidth txVector = 20 \/ GetChannelWidth txVector = 10
    \/ GetChannelWidth txVector = 5 ->
    GetPlcpPreambleDuration GetDataRate txVector preamble
    = Ok (MicroSeconds 16).
Proof.
  intros txVector preamble Hc Hp Hw. unfold GetPlcpPreambleDuration.
  rewrite Hc. destruct preamble; try contradiction; simpl;
    destruct Hw as [-> | [-> | ->]]; reflexivity.
Qed.

(** The header duration of the same modes does follow the width. *)
Lemma ofdm_header_follows_width :
  forall (txVector : WifiTxVector) (preamble : WifiPreamble),
    GetModulationClass (GetMode txVector) = WIFI_MOD_CLASS_OFDM ->
    preamble <> WIFI_PREAMBLE_NONE ->
    GetPlcpHeaderDuration GetDataRate txVector preamble
    = Ok (if GetChannelWidth txVector =? 10 then MicroSeconds 8
          else if GetChannelWidth txVector =? 5 then MicroSeconds 16
          else MicroSeconds 4).
Proof.
  intros txVector preamble Hc Hp. unfold GetPlcpHeaderDuration.
  rewrite Hc. destruct preamble; try contradiction; simpl;
    repeat destruct (_ =? _); reflexivity.
Qed.

(** The DMG control PHY without training field divides by [Ncw - 1], which
    is zero for every payload of at most six bytes. *)
Lemma DmgCtrl_short_payload :
  forall (size : Z) (txVector : WifiTxVector),
    GetTrainngFieldLength txVector = 0 ->
    0 <= size <= 6 ->
    DmgCtrlPayloadDuration size txVector = Err DivisionByZero.
Proof.
  intros size txVector Ht Hs. unfold DmgCtrlPayloadDuration. rewrite Ht.
  assert (size = 0 \/ size = 1 \/ size = 2 \/ size = 3 \/ size = 4
          \/ size = 5 \/ size = 6) as Hc by lia.
  repeat (destruct Hc as [-> | Hc]; [reflexivity|]). subst. reflexivity.
Qed.

(** C1.  With payload size 0 the DMG control mode (DMG_MCS0, no training
    field) does not return a duration: the number of codewords is 1 and the
    per-codeword bit count divides by [Ncw - 1 = 0]. *)
Theorem size_zero_dmg_ctrl_divides_by_zero :
  forall (preamble : WifiPreamble) (frequency : Q) (mpdutype : mpduType)
         (incFlag : Z) (st : WifiPhy),
    PayloadDuration 0 SampleDmgCtrlTxVector preamble frequency mpdutype
      incFlag st
    = (Err DivisionByZero, st).
Proof. intros. reflexivity. Qed.

(** C7.  Scenario A: an OFDM mode at 6 Mbit/s on a 20 MHz channel carries
    24 data bits per symbol; a plain MPDU of 1000 bytes takes
    ceil ((16 + 8000 + 6) / 24) = 335 symbols, and [GetPayloadDuration]
    returns 335 x 4 us = 1340 us. *)
Theorem scenario_ofdm_6mbps_1000_bytes :
  forall (txVector : WifiTxVector) (preamble : WifiPreamble) (frequency : Q)
         (incFlag : Z) (st : WifiPhy),
    GetMode txVector = GetOfdmRate6Mbps ->
    GetChannelWidth txVector = 20 ->
    GetDataRate GetOfdmRate6Mbps 20 false 1 = 6000000 ->
    preamble <> WIFI_PREAMBLE_NONE ->
    (OfdmNumDataBitsPerSymbol GetDataRate txVector == 24)%Q
    /\ Qceiling ((16 + 8000 + 6) / 24) = 335
    /\ OfdmNumSymbols 1000 preamble NORMAL_MPDU incFlag
         (OfdmNumDataBitsPerSymbol GetDataRate txVector) st
       = (Ok (inject_Z 335), st)
    /\ PayloadDuration 1000 txVector preamble frequency NORMAL_MPDU incFlag st
       = (Ok (335 * MicroSeconds 4), st)
    /\ 335 * MicroSeconds 4 = MicroSeconds 1340.
Proof.
  intros txVector preamble frequency incFlag st Hm Hw Hr Hp.
  assert (HN : OfdmNumDataBitsPerSymbol GetDataRate txVector
               = (inject_Z 24000000000 / 1000000000)%Q).
  { unfold OfdmNumDataBitsPerSymbol, OfdmSymbolDuration.
    rewrite Hm, Hw, Hr. reflexivity. }
  assert (HS : OfdmNumSymbols 1000 preamble NORMAL_MPDU incFlag
                 (OfdmNumDataBitsPerSymbol GetDataRate txVector) st
               = (Ok (inject_Z 335), st)).
  { rewrite HN. destruct preamble; try contradiction; reflexivity. }
  repeat split.
  - rewrite HN. reflexivity.
  - exact HS.
  - assert (Hc : GetModulationClass (GetMode txVector) = WIFI_MOD_CLASS_OFDM)
      by (rewrite Hm; reflexivity).
    unfold GetPayloadDuration, OfdmPayloadDuration, OfdmSymbolsDuration.
    rewrite Hc. unfold bind. rewrite HS.
    unfold OfdmSymbolDuration. rewrite Hw. reflexivity.
Qed.

(** C6 (amended).  For an HT or VHT mode, whenever the symbols of the frame
    get a duration [d0], [GetPayloadDuration] returns [d0] plus 6
    microseconds if the mode is an HT mode, the frequency lies in
    2400..2500 MHz and the frame ends the transmission (a plain MPDU with a
    preamble, or the last MPDU of an A-MPDU without one), and returns
    exactly [d0] in every other case; a VHT mode never gets the tail. *)
Theorem ht_tail_rule :
  forall (size : Z) (txVector : WifiTxVector) (preamble : WifiPreamble)
         (frequency : Q) (mpdutype : mpduType) (incFlag : Z)
         (st st' : WifiPhy) (d0 : Time),
    GetModulationClass (GetMode txVector) = WIFI_MOD_CLASS_HT
    \/ GetModulationClass (GetMode txVector) = WIFI_MOD_CLASS_VHT ->
    HtSymbolsDuration GetDataRate size txVector preamble mpdutype incFlag st
    = (Ok d0, st') ->
    PayloadDuration size txVector preamble frequency mpdutype incFlag st
    = (Ok (match GetModulationClass (GetMode txVector) with
           | WIFI_MOD_CLASS_HT =>
               if in_2_4GHz_band frequency
                  && ends_transmission mpdutype preamble
               then d0 + MicroSeconds 6 else d0
           | _ => d0
           end), st').
Proof.
  intros size txVector preamble frequency mpdutype incFlag st st' d0 Hc Hd.
  unfold GetPayloadDuration, HtPayloadDuration.
  destruct Hc as [Hc | Hc]; rewrite Hc; unfold bind; rewrite Hd.
  - destruct (in_2_4GHz_band frequency && ends_transmission mpdutype preamble);
      reflexivity.
  - reflexivity.
Qed.

End PhyFacts.

(** C1, the failing input again with the rate table of the examples: no
    duration comes back for size 0. *)
Example size_zero_dmg_ctrl_sample :
  fst (GetPayloadDuration SampleDataRate 0 0 0 SampleDmgCtrlTxVector
         WIFI_PREAMBLE_LONG 60480 NORMAL_MPDU 0 WifiPhy_init)
  = Err DivisionByZero.
Proof. reflexivity. Qed.

Lemma probe_leaves_accumulator_unchanged_witness :
  2 <> 1
  /\ snd (GetPayloadDuration SampleDataRate 0 0 1000 SampleHtTxVector
            WIFI_PREAMBLE_NONE 2437 MPDU_IN_AGGREGATE 2 (mkWifiPhy 1500 (3 # 2)))
     = mkWifiPhy 1500 (3 # 2).
Proof.
  split; [lia|].
  apply (probe_leaves_accumulator_unchanged SampleDataRate 0 0 1000
           SampleHtTxVector WIFI_PREAMBLE_NONE 2437 MPDU_IN_AGGREGATE 2
           (mkWifiPhy 1500 (3 # 2))).
  lia.
Defined.

Lemma ofdm_preamble_same_for_all_widths_witness :
  GetPlcpPreambleDuration SampleDataRate
    (mkWifiTxVector GetOfdmRate3MbpsBW10MHz 10 1 0 false false 0)
    WIFI_PREAMBLE_LONG
  = Ok (MicroSeconds 16).
Proof.
  apply (ofdm_preamble_same_for_all_widths SampleDataRate
           (mkWifiTxVector GetOfdmRate3MbpsBW10MHz 10 1 0 false false 0)
           WIFI_PREAMBLE_LONG).
  - reflexivity.
  - discriminate.
  - right. left. reflexivity.
Defined.

Lemma scenario_ofdm_6mbps_1000_bytes_witness :
  GetPayloadDuration SampleDataRate 0 0 1000 SampleOfdmTxVector
    WIFI_PREAMBLE_LONG 5180 NORMAL_MPDU 0 WifiPhy_init
  = (Ok 1340000, WifiPhy_init).
Proof.
  apply (scenario_ofdm_6mbps_1000_bytes SampleDataRate 0 0 SampleOfdmTxVector
           WIFI_PREAMBLE_LONG 5180 0 WifiPhy_init).
  - reflexivity.
  - reflexivity.
  - reflexivity.
  - discriminate.
Defined.

Lemma ht_tail_rule_witness :
  GetPayloadDuration SampleDataRate 0 0 1000 SampleHtTxVector
    WIFI_PREAMBLE_HT_MF 2437 NORMAL_MPDU 0 WifiPhy_init
  = (Ok (1236000 + 6000), WifiPhy_init).
Proof.
  apply (ht_tail_rule SampleDataRate 0 0 1000 SampleHtTxVector
           WIFI_PREAMBLE_HT_MF 2437 NORMAL_MPDU 0 WifiPhy_init WifiPhy_init
           1236000).
  - left. reflexivity.
  - reflexivity.
Defined.

(** C6, as stated, fails for VHT: at 2450 MHz a plain VHT MPDU of 1000
    bytes ends the transmission and still gets no tail. *)
Lemma tail_rule_as_stated_fails_for_vht : ~ tail_rule_as_stated.
Proof.
  intros H.
  specialize (H SampleDataRate 0%Q 0%Q 1000 SampleVhtTxVector
                WIFI_PREAMBLE_VHT 2450%Q NORMAL_MPDU 0 WifiPhy_init
                WifiPhy_init 1236000
                (or_intror eq_refl) eq_refl).
  vm_compute in H. discriminate H.
Qed.


(** ** The symbol-based classes: OFDM, ERP-OFDM, HT and VHT *)

Lemma inject_Z_le (a b : Z) : a <= b -> (inject_Z a <= inject_Z b)%Q.
Proof. intros H. now rewrite <- Zle_Qle. Qed.

Lemma inject_Z_lt (a b : Z) : a < b -> (inject_Z a < inject_Z b)%Q.
Proof. intros H. now rewrite <- Zlt_Qlt. Qed.

Lemma Qceiling_lt_succ (x : Q) : (inject_Z (Qceiling x) < x + 1)%Q.
Proof.
  pose proof (Qceiling_lt x) as H. unfold Z.sub in H.
  rewrite inject_Z_plus in H.
  assert (E : (inject_Z (- (1)) == - (1))%Q) by reflexivity.
  rewrite E in H. lra.
Qed.

Lemma Qdiv_nonneg (x y : Q) : (0 <= x)%Q -> (0 < y)%Q -> (0 <= x / y)%Q.
Proof. intros Hx Hy. apply Qle_shift_div_l; [assumption|]. lra. Qed.

Lemma Qdiv_le_compat (x x' y : Q) :
  (x <= x')%Q -> (0 < y)%Q -> (x / y <= x' / y)%Q.
Proof.
  intros Hx Hy. apply Qle_shift_div_l; [assumption|].
  assert (x / y * y == x)%Q by (field; lra). lra.
Qed.

(** [x / N] symbols of duration [T] last at most [x] microseconds when a
    symbol carries at least [T / 10^6] bits. *)
Lemma symbols_duration_bound (x N T : Q) :
  (0 <= x)%Q -> (0 < N)%Q -> (0 <= T)%Q -> (T <= 1000000 * N)%Q ->
  (0 <= x / N * T <= 1000000 * x)%Q.
Proof.
  intros Hx HN HT HTN.
  pose proof (Qdiv_nonneg x N Hx HN) as Hq.
  split; [apply Qmult_le_0_compat; assumption|].
  assert (E : (1000000 * x == x / N * (1000000 * N))%Q) by (field; lra).
  rewrite E. apply Qmult_le_compat_nonneg; split; lra.
Qed.

Lemma HtNes_cases txVector :
  HtNes txVector = 1%Q \/ HtNes txVector = 2%Q \/ HtNes txVector = 3%Q
  \/ HtNes txVector = 4%Q \/ HtNes txVector = 6%Q.
Proof.
  unfold HtNes.
  repeat match goal with
         | |- context [if ?c then _ else _] => destruct c
         end; tauto.
Qed.

Lemma SymbolDuration_cases txVector :
  SymbolDuration txVector = 3600 \/ SymbolDuration txVector = 4000
  \/ SymbolDuration txVector = 8000 \/ SymbolDuration txVector = 16000.
Proof.
  unfold SymbolDuration, OfdmSymbolDuration, HtSymbolDuration.
  destruct (GetModulationClass (GetMode txVector));
    repeat match goal with
           | |- context [if ?c then _ else _] => destruct c
           end; tauto.
Qed.

Lemma StbcFactor_cases txVector :
  StbcFactor txVector = 1 \/ StbcFactor txVector = 2.
Proof.
  unfold StbcFactor.
  destruct (GetModulationClass (GetMode txVector)), (IsStbc txVector); tauto.
Qed.

Lemma ServiceAndTailBits_range txVector :
  (16 <= ServiceAndTailBits txVector <= 52)%Q.
Proof.
  unfold ServiceAndTailBits.
  destruct (GetModulationClass (GetMode txVector));
    try (split; reflexivity || discriminate);
    destruct (HtNes_cases txVector) as [-> | [-> | [-> | [-> | ->]]]];
    split; discriminate.
Qed.

Section SymbolFacts.

Variable GetDataRate : WifiMode -> Z -> bool -> Z -> Z.
Variable txVector : WifiTxVector.
Hypothesis Hclass :
  is_symbol_class (GetModulationClass (GetMode txVector)) = true.
Hypothesis Hrates : rates_in_range GetDataRate (GetMode txVector).

Lemma NumDataBitsPerSymbol_rate :
  exists r : Z,
    1000 <= r <= 1000000000000
    /\ NumDataBitsPerSymbol GetDataRate txVector
       = (inject_Z (r * SymbolDuration txVector) / 1000000000)%Q.
Proof.
  unfold NumDataBitsPerSymbol, SymbolDuration, OfdmNumDataBitsPerSymbol,
    HtNumDataBitsPerSymbol.
  pose proof (SymbolDuration_cases txVector) as HT.
  unfold SymbolDuration in HT.
  destruct (GetModulationClass (GetMode txVector)); try discriminate Hclass;
    match goal with
    | |- context [GetDataRate ?m ?w ?g ?n] =>
        exists (GetDataRate m w g n); split; [apply Hrates|];
        pose proof (Hrates w g n)
    end;
    rewrite NumFacts.wrap64_small; try reflexivity; lia.
Qed.

Lemma NumDataBitsPerSymbol_pos :
  (0 < NumDataBitsPerSymbol GetDataRate txVector)%Q
  /\ (inject_Z (SymbolDuration txVector)
      <= 1000000 * NumDataBitsPerSymbol GetDataRate txVector)%Q.
Proof.
  destruct NumDataBitsPerSymbol_rate as (r & Hr & ->).
  pose proof (SymbolDuration_cases txVector) as HT.
  rewrite inject_Z_mult.
  assert (1000 <= inject_Z r)%Q by (apply (inject_Z_le 1000 r); lia).
  assert (3600 <= inject_Z (SymbolDuration txVector))%Q
    by (apply (inject_Z_le 3600); lia).
  split.
  - apply Qlt_shift_div_l; [reflexivity|]. nra.
  - set (T := inject_Z (SymbolDuration txVector)) in *.
    set (R := inject_Z r) in *.
    assert (E : (1000000 * (R * T / 1000000000) == R * T / 1000)%Q)
      by (field).
    rewrite E. apply Qle_shift_div_l; [reflexivity|]. nra.
Qed.

End SymbolFacts.

Lemma accumulate_run incFlag size n st :
  accumulate incFlag size n st
  = (Ok tt, commit incFlag st
              (mkWifiPhy (Num.wrap32 (m_totalAmpduSize st + size))
                 (m_totalAmpduNumSymbols st + n)%Q)).
Proof.
  unfold accumulate, when, commit. destruct (incFlag =? 1); reflexivity.
Qed.

Lemma reset_run incFlag st :
  reset incFlag st = (Ok tt, commit incFlag st WifiPhy_init).
Proof. unfold reset, when, commit. destruct (incFlag =? 1); reflexivity. Qed.

Lemma nearest_even_integer (x : Q) (z : Z) :
  (x == inject_Z z)%Q -> Num.nearest_even x = z.
Proof.
  intros H. unfold Num.nearest_even.
  assert (Hf : Qfloor x = z) by (rewrite H; apply Qfloor_Z).
  rewrite Hf.
  assert (E : (x - inject_Z z ?= 1 # 2)%Q = Lt).
  { rewrite <- Qlt_alt. rewrite H. lra. }
  now rewrite E.
Qed.

Lemma lrint_integer (x : Q) (z : Z) :
  (x == inject_Z z)%Q -> - 2 ^ 63 <= z < 2 ^ 63 -> Num.lrint x = Ok z.
Proof.
  intros H Hz. unfold Num.lrint. rewrite (nearest_even_integer x z H).
  destruct (Z.leb_spec (- 2 ^ 63) z); [|lia].
  destruct (Z.ltb_spec z (2 ^ 63)); [reflexivity|lia].
Qed.

Section NumSymbolsRoles.

Variable size : Z.
Variable incFlag : Z.
Variable N : Q.
Variable st : WifiPhy.
Hypothesis HN : ~ (N == 0)%Q.

Lemma OfdmNumSymbols_first preamble :
  preamble <> WIFI_PREAMBLE_NONE ->
  OfdmNumSymbols size preamble MPDU_IN_AGGREGATE incFlag N st
  = (Ok ((16 + inject_Z size * 8 + 6) / N)%Q,
     commit incFlag st
       (mkWifiPhy (Num.wrap32 (m_totalAmpduSize st + size))
          (m_totalAmpduNumSymbols st + (16 + inject_Z size * 8 + 6) / N)%Q)).
Proof.
  intros Hp. unfold OfdmNumSymbols.
  destruct preamble; try contradiction; simpl; unfold bind, lift;
    rewrite NumFacts.fdiv_ok by assumption; rewrite accumulate_run;
    reflexivity.
Qed.

Lemma OfdmNumSymbols_middle :
  OfdmNumSymbols size WIFI_PREAMBLE_NONE MPDU_IN_AGGREGATE incFlag N st
  = (Ok (inject_Z size * 8 / N)%Q,
     commit incFlag st
       (mkWifiPhy (Num.wrap32 (m_totalAmpduSize st + size))
          (m_totalAmpduNumSymbols st + inject_Z size * 8 / N)%Q)).
Proof.
  unfold OfdmNumSymbols. simpl. unfold bind, lift.
  rewrite NumFacts.fdiv_ok by assumption. rewrite accumulate_run.
  reflexivity.
Qed.

Lemma OfdmNumSymbols_last (w : Z) :
  w = Qceiling ((16 + inject_Z (Num.wrap32 (m_totalAmpduSize st + size)) * 8
                 + 6) / N) ->
  - 2 ^ 63 <= w < 2 ^ 63 ->
  OfdmNumSymbols size WIFI_PREAMBLE_NONE LAST_MPDU_IN_AGGREGATE incFlag N st
  = if Qle_bool (m_totalAmpduNumSymbols st) (inject_Z w)
    then (Ok (inject_Z w - m_totalAmpduNumSymbols st)%Q,
          commit incFlag st WifiPhy_init)
    else (Err AssertionFailed, st).
Proof.
  intros Hw Hr. unfold OfdmNumSymbols. simpl. unfold bind, lift, get.
  rewrite NumFacts.fdiv_ok by assumption. unfold Num.ceil. rewrite <- Hw.
  rewrite NumFacts.lrint_inject by assumption.
  destruct (Qle_bool (m_totalAmpduNumSymbols st) (inject_Z w));
    [rewrite reset_run|]; reflexivity.
Qed.

Lemma OfdmNumSymbols_normal preamble (w : Z) :
  preamble <> WIFI_PREAMBLE_NONE ->
  w = Qceiling ((16 + inject_Z size * 8 + 6) / N) ->
  - 2 ^ 63 <= w < 2 ^ 63 ->
  OfdmNumSymbols size preamble NORMAL_MPDU incFlag N st
  = (Ok (inject_Z w), st).
Proof.
  intros Hp Hw Hr. unfold OfdmNumSymbols.
  destruct preamble; try contradiction; simpl; unfold bind, lift;
    rewrite NumFacts.fdiv_ok by assumption; unfold Num.ceil; rewrite <- Hw;
    rewrite NumFacts.lrint_inject by assumption; reflexivity.
Qed.

Variable K : Z.
Variable Nes : Q.
Hypothesis HK : K = 1 \/ K = 2.

Lemma HtDivisor_nonzero : ~ (inject_Z K * N == 0)%Q.
Proof.
  intros H. apply HN. destruct HK as [-> | ->].
  - rewrite <- H. ring.
  - assert (E : (N == (1 # 2) * (inject_Z 2 * N))%Q) by ring.
    rewrite E, H. reflexivity.
Qed.

Lemma HtNumSymbols_first preamble :
  preamble <> WIFI_PREAMBLE_NONE ->
  HtNumSymbols size preamble MPDU_IN_AGGREGATE incFlag (inject_Z K) Nes N st
  = (Ok (inject_Z K * (16 + inject_Z size * 8 + 6 * Nes)
         / (inject_Z K * N))%Q,
     commit incFlag st
       (mkWifiPhy (Num.wrap32 (m_totalAmpduSize st + size))
          (m_totalAmpduNumSymbols st
           + inject_Z K * (16 + inject_Z size * 8 + 6 * Nes)
             / (inject_Z K * N))%Q)).
Proof.
  intros Hp. pose proof HtDivisor_nonzero. unfold HtNumSymbols.
  destruct preamble; try contradiction; simpl; unfold bind, lift;
    rewrite NumFacts.fdiv_ok by assumption; rewrite accumulate_run;
    reflexivity.
Qed.

Lemma HtNumSymbols_middle :
  HtNumSymbols size WIFI_PREAMBLE_NONE MPDU_IN_AGGREGATE incFlag (inject_Z K)
    Nes N st
  = (Ok (inject_Z K * inject_Z size * 8 / (inject_Z K * N))%Q,
     commit incFlag st
       (mkWifiPhy (Num.wrap32 (m_totalAmpduSize st + size))
          (m_totalAmpduNumSymbols st
           + inject_Z K * inject_Z size * 8 / (inject_Z K * N))%Q)).
Proof.
  pose proof HtDivisor_nonzero. unfold HtNumSymbols. simpl.
  unfold bind, lift. rewrite NumFacts.fdiv_ok by assumption.
  rewrite accumulate_run. reflexivity.
Qed.

Lemma HtNumSymbols_last (c : Z) :
  c = Qceiling ((16 + inject_Z (Num.wrap32 (m_totalAmpduSize st + size)) * 8
                 + 6 * Nes) / (inject_Z K * N)) ->
  - 2 ^ 63 <= K * c < 2 ^ 63 ->
  HtNumSymbols size WIFI_PREAMBLE_NONE LAST_MPDU_IN_AGGREGATE incFlag
    (inject_Z K) Nes N st
  = if Qle_bool (m_totalAmpduNumSymbols st) (inject_Z (K * c))
    then (Ok (inject_Z (K * c) - m_totalAmpduNumSymbols st)%Q,
          commit incFlag st WifiPhy_init)
    else (Err AssertionFailed, st).
Proof.
  intros Hc Hr. pose proof HtDivisor_nonzero.
  unfold HtNumSymbols. simpl. unfold bind, lift, get.
  rewrite NumFacts.fdiv_ok by assumption. unfold Num.ceil. rewrite <- Hc.
  rewrite (lrint_integer _ (K * c)); [|now rewrite inject_Z_mult|assumption].
  destruct (Qle_bool (m_totalAmpduNumSymbols st) (inject_Z (K * c)));
    [rewrite reset_run|]; reflexivity.
Qed.

Lemma HtNumSymbols_normal preamble (c : Z) :
  preamble <> WIFI_PREAMBLE_NONE ->
  c = Qceiling ((16 + inject_Z size * 8 + 6 * Nes) / (inject_Z K * N)) ->
  - 2 ^ 63 <= K * c < 2 ^ 63 ->
  HtNumSymbols size preamble NORMAL_MPDU incFlag (inject_Z K) Nes N st
  = (Ok (inject_Z (K * c)), st).
Proof.
  intros Hp Hc Hr. pose proof HtDivisor_nonzero. unfold HtNumSymbols.
  destruct preamble; try contradiction; simpl; unfold bind, lift;
    rewrite NumFacts.fdiv_ok by assumption; unfold Num.ceil; rewrite <- Hc;
    (rewrite (lrint_integer _ (K * c));
     [|now rewrite inject_Z_mult|assumption]); reflexivity.
Qed.

End NumSymbolsRoles.

Lemma NanoSecondsD_small (x : Q) :
  (0 <= x)%Q -> (x <= 40000000000000000)%Q -> NanoSecondsD x = Ok (Qfloor x).
Proof.
  intros H0 H1. apply NanoSecondsD_ok; [assumption|].
  eapply Qle_lt_trans; [exact H1|]. reflexivity.
Qed.

Section PayloadRoles.

Variable GetDataRate : WifiMode -> Z -> bool -> Z -> Z.
Variable OFDMSCMin : Q.
Variable OFDMBRPMin : Q.
Variable txVector : WifiTxVector.
Hypothesis Hclass :
  is_symbol_class (GetModulationClass (GetMode txVector)) = true.
Hypothesis Hrates : rates_in_range GetDataRate (GetMode txVector).

Local Abbreviation PayloadDuration :=
  (GetPayloadDuration GetDataRate OFDMSCMin OFDMBRPMin).
Local Abbreviation N := (NumDataBitsPerSymbol GetDataRate txVector).
Local Abbreviation T := (inject_Z (SymbolDuration txVector)).
Local Abbreviation O := (ServiceAndTailBits txVector).
Local Abbreviation K := (StbcFactor txVector).

Lemma N_nonzero : ~ (N == 0)%Q.
Proof.
  destruct (NumDataBitsPerSymbol_pos GetDataRate txVector Hclass Hrates).
  lra.
Qed.

Lemma T_range : (3600 <= T <= 16000)%Q.
Proof.
  pose proof (SymbolDuration_cases txVector).
  split; [apply (inject_Z_le 3600) | apply (inject_Z_le _ 16000)]; lia.
Qed.

Lemma K_range : (1 <= inject_Z K <= 2)%Q.
Proof.
  pose proof (StbcFactor_cases txVector).
  split; [apply (inject_Z_le 1) | apply (inject_Z_le _ 2)]; lia.
Qed.

Lemma bits_range (size : Z) :
  0 <= size < 2 ^ 32 ->
  (0 <= inject_Z size * 8 <= 34359738360)%Q
  /\ (16 <= O + inject_Z size * 8 <= 34359738412)%Q.
Proof.
  intros Hs. pose proof (ServiceAndTailBits_range txVector).
  assert (0 <= inject_Z size)%Q by (apply (inject_Z_le 0); lia).
  assert (inject_Z size <= 4294967295)%Q
    by (apply (inject_Z_le _ 4294967295); lia).
  lra.
Qed.

(** The duration of [n] symbols, [n] worth [x] bits. *)
Lemma symbols_NanoSecondsD (n x : Q) :
  (n == x / N)%Q -> (0 <= x <= 34359738412)%Q ->
  NanoSecondsD (n * T) = Ok (Qfloor (n * T)).
Proof.
  intros Hn Hx.
  destruct (NumDataBitsPerSymbol_pos GetDataRate txVector Hclass Hrates)
    as [HN HTN].
  pose proof T_range as HT.
  assert (0 <= x / N * T <= 1000000 * x)%Q as Hb
    by (apply symbols_duration_bound; lra).
  apply NanoSecondsD_small; rewrite Hn; lra.
Qed.

Lemma WholeSymbols_bounds (size : Z) :
  0 <= size < 2 ^ 32 ->
  ((O + inject_Z size * 8) / N
   <= inject_Z (WholeSymbols GetDataRate txVector size))%Q
  /\ (inject_Z (WholeSymbols GetDataRate txVector size)
      < (O + inject_Z size * 8) / N + inject_Z K)%Q.
Proof.
  intros Hs. unfold WholeSymbols.
  destruct (NumDataBitsPerSymbol_pos GetDataRate txVector Hclass Hrates)
    as [HN HTN].
  pose proof K_range as HK.
  set (x := (O + inject_Z size * 8)%Q).
  set (q := (x / (inject_Z K * N))%Q).
  pose proof (Qle_ceiling q) as H1. pose proof (Qceiling_lt_succ q) as H2.
  rewrite inject_Z_mult.
  assert (E : (x / N == inject_Z K * q)%Q) by (unfold q; field; lra).
  rewrite E. clearbody q. split; nra.
Qed.

Lemma WholeSymbols_duration (size : Z) :
  0 <= size < 2 ^ 32 ->
  0 <= WholeSymbols GetDataRate txVector size
  /\ (0 <= inject_Z (WholeSymbols GetDataRate txVector size) * T
      <= 34400000000000000)%Q.
Proof.
  intros Hs.
  destruct (NumDataBitsPerSymbol_pos GetDataRate txVector Hclass Hrates)
    as [HN HTN].
  pose proof T_range as HT. pose proof K_range as HK.
  destruct (bits_range size Hs) as [_ Hx].
  destruct (WholeSymbols_bounds size Hs) as [H1 H2].
  set (w := WholeSymbols GetDataRate txVector size) in *.
  set (x := (O + inject_Z size * 8)%Q) in *.
  assert (0 <= x / N * T <= 1000000 * x)%Q as Hb
    by (apply symbols_duration_bound; lra).
  assert (0 <= x / N)%Q as Hq by (apply Qdiv_nonneg; lra).
  assert (0 <= inject_Z w)%Q as Hw by lra.
  split.
  - rewrite Zle_Qle. exact Hw.
  - split; [nra|].
    assert (inject_Z w * T <= (x / N + inject_Z K) * T)%Q
      by (apply Qmult_le_compat_r; lra).
    nra.
Qed.

Lemma WholeSymbols_mono (a b : Z) :
  a <= b ->
  WholeSymbols GetDataRate txVector a <= WholeSymbols GetDataRate txVector b.
Proof.
  intros Hab. unfold WholeSymbols.
  destruct (NumDataBitsPerSymbol_pos GetDataRate txVector Hclass Hrates)
    as [HN HTN].
  pose proof K_range as HK. pose proof (StbcFactor_cases txVector) as HKz.
  apply Z.mul_le_mono_nonneg_l; [lia|].
  apply Qceiling_resp_le. apply Qdiv_le_compat; [|nra].
  assert (inject_Z a <= inject_Z b)%Q by (now apply inject_Z_le). lra.
Qed.

End PayloadRoles.

Section PayloadRoles2.

Variable GetDataRate : WifiMode -> Z -> bool -> Z -> Z.
Variable OFDMSCMin : Q.
Variable OFDMBRPMin : Q.
Variable txVector : WifiTxVector.
Hypothesis Hclass :
  is_symbol_class (GetModulationClass (GetMode txVector)) = true.
Hypothesis Hrates : rates_in_range GetDataRate (GetMode txVector).

Local Abbreviation PayloadDuration :=
  (GetPayloadDuration GetDataRate OFDMSCMin OFDMBRPMin).
Local Abbreviation N := (NumDataBitsPerSymbol GetDataRate txVector).
Local Abbreviation T := (inject_Z (SymbolDuration txVector)).
Local Abbreviation O := (ServiceAndTailBits txVector).
Local Abbreviation K := (StbcFactor txVector).
Local Abbreviation Whole := (WholeSymbols GetDataRate txVector).

Lemma payload_of_symbols size preamble frequency mpdutype incFlag st :
  PayloadDuration size txVector preamble frequency mpdutype incFlag st
  = match NumSymbolsOf GetDataRate size txVector preamble mpdutype incFlag st
    with
    | (Ok n, st') =>
        (match NanoSecondsD (n * T) with
         | Ok d => Ok (d + SignalExtension txVector frequency mpdutype
                             preamble)
         | Err e => Err e
         end, st')
    | (Err e, st') => (Err e, st')
    end.
Proof.
  unfold GetPayloadDuration, NumSymbolsOf, SymbolDuration, SignalExtension,
    OfdmPayloadDuration, OfdmSymbolsDuration, HtPayloadDuration,
    HtSymbolsDuration, bind, lift, ret.
  destruct (GetModulationClass (GetMode txVector)); try discriminate Hclass;
    match goal with
    | |- context [?f size preamble mpdutype incFlag ?a st] =>
        destruct (f size preamble mpdutype incFlag a st) as [[n|e] st']
    | |- context [?f size preamble mpdutype incFlag ?a ?b ?c st] =>
        destruct (f size preamble mpdutype incFlag a b c st) as [[n|e] st']
    end; try reflexivity;
    match goal with
    | |- context [NanoSecondsD ?x] => destruct (NanoSecondsD x) as [d|e]
    end; try reflexivity;
    try (destruct (in_2_4GHz_band frequency
                   && ends_transmission mpdutype preamble));
    rewrite ?Z.add_0_r; reflexivity.
Qed.

Lemma HtStbc_StbcFactor :
  GetModulationClass (GetMode txVector) = WIFI_MOD_CLASS_HT
  \/ GetModulationClass (GetMode txVector) = WIFI_MOD_CLASS_VHT ->
  HtStbc txVector = inject_Z K.
Proof.
  intros [H | H]; unfold HtStbc, StbcFactor; rewrite H;
    destruct (IsStbc txVector); reflexivity.
Qed.

Lemma NumSymbolsOf_first size preamble incFlag st :
  preamble <> WIFI_PREAMBLE_NONE ->
  exists n : Q,
    (n == (O + inject_Z size * 8) / N)%Q
    /\ NumSymbolsOf GetDataRate size txVector preamble MPDU_IN_AGGREGATE
         incFlag st
       = (Ok n, commit incFlag st
                  (mkWifiPhy (Num.wrap32 (m_totalAmpduSize st + size))
                     (m_totalAmpduNumSymbols st + n)%Q)).
Proof.
  intros Hp. pose proof (N_nonzero _ _ Hclass Hrates) as HN.
  pose proof (StbcFactor_cases txVector) as HK.
  pose proof (K_range txVector) as HKq.
  pose proof HtStbc_StbcFactor as HS.
  unfold NumSymbolsOf, NumDataBitsPerSymbol, ServiceAndTailBits in *.
  destruct (GetModulationClass (GetMode txVector)); try discriminate Hclass.
  1,2: eexists; split;
    [|apply (OfdmNumSymbols_first _ _ _ _ HN _ Hp)]; field; exact HN.
  1,2: rewrite HS by tauto; eexists; split;
    [|apply (HtNumSymbols_first _ _ _ _ HN _ _ HK _ Hp)]; field; lra.
Qed.

Lemma NumSymbolsOf_middle size incFlag st :
  exists n : Q,
    (n == inject_Z size * 8 / N)%Q
    /\ NumSymbolsOf GetDataRate size txVector WIFI_PREAMBLE_NONE
         MPDU_IN_AGGREGATE incFlag st
       = (Ok n, commit incFlag st
                  (mkWifiPhy (Num.wrap32 (m_totalAmpduSize st + size))
                     (m_totalAmpduNumSymbols st + n)%Q)).
Proof.
  pose proof (N_nonzero _ _ Hclass Hrates) as HN.
  pose proof (StbcFactor_cases txVector) as HK.
  pose proof (K_range txVector) as HKq.
  pose proof HtStbc_StbcFactor as HS.
  unfold NumSymbolsOf, NumDataBitsPerSymbol, ServiceAndTailBits in *.
  destruct (GetModulationClass (GetMode txVector)); try discriminate Hclass.
  1,2: eexists; split;
    [|apply (OfdmNumSymbols_middle _ _ _ _ HN)]; field; exact HN.
  1,2: rewrite HS by tauto; eexists; split;
    [|apply (HtNumSymbols_middle _ _ _ _ HN _ _ HK)]; field; lra.
Qed.

Lemma Whole_range size :
  0 <= size < 2 ^ 32 -> - 2 ^ 63 <= Whole size < 2 ^ 63.
Proof.
  intros Hs.
  destruct (WholeSymbols_duration _ _ Hclass Hrates size Hs) as [H0 [_ H1]].
  pose proof (T_range txVector) as HT.
  assert (inject_Z (Whole size) <= 34400000000000000)%Q as Hq.
  { assert (0 <= inject_Z (Whole size))%Q by (now apply (inject_Z_le 0)).
    nra. }
  change 34400000000000000%Q with (inject_Z 34400000000000000) in Hq.
  rewrite <- Zle_Qle in Hq. lia.
Qed.

Lemma NumSymbolsOf_last size incFlag st :
  NumSymbolsOf GetDataRate size txVector WIFI_PREAMBLE_NONE
    LAST_MPDU_IN_AGGREGATE incFlag st
  = if Qle_bool (m_totalAmpduNumSymbols st)
         (inject_Z (Whole (Num.wrap32 (m_totalAmpduSize st + size))))
    then (Ok (inject_Z (Whole (Num.wrap32 (m_totalAmpduSize st + size)))
              - m_totalAmpduNumSymbols st)%Q,
          commit incFlag st WifiPhy_init)
    else (Err AssertionFailed, st).
Proof.
  pose proof (N_nonzero _ _ Hclass Hrates) as HN.
  pose proof (StbcFactor_cases txVector) as HK.
  pose proof (K_range txVector) as HKq.
  pose proof HtStbc_StbcFactor as HS.
  pose proof (Whole_range (Num.wrap32 (m_totalAmpduSize st + size))
                (NumFacts.wrap32_range _)) as Hr.
  unfold WholeSymbols, NumSymbolsOf, NumDataBitsPerSymbol, ServiceAndTailBits,
    StbcFactor in *.
  destruct (GetModulationClass (GetMode txVector)); try discriminate Hclass.
  1,2: rewrite !Z.mul_1_l in *;
    apply (OfdmNumSymbols_last _ _ _ _ HN); [|exact Hr];
    apply Qceiling_comp; change (inject_Z 1) with 1%Q; field; exact HN.
  1,2: rewrite HS by tauto;
    apply (HtNumSymbols_last _ _ _ _ HN _ _ HK); [|exact Hr];
    apply Qceiling_comp; field; lra.
Qed.

Lemma NumSymbolsOf_normal size preamble incFlag st :
  preamble <> WIFI_PREAMBLE_NONE ->
  0 <= size < 2 ^ 32 ->
  NumSymbolsOf GetDataRate size txVector preamble NORMAL_MPDU incFlag st
  = (Ok (inject_Z (Whole size)), st).
Proof.
  intros Hp Hs.
  pose proof (N_nonzero _ _ Hclass Hrates) as HN.
  pose proof (StbcFactor_cases txVector) as HK.
  pose proof (K_range txVector) as HKq.
  pose proof HtStbc_StbcFactor as HS.
  pose proof (Whole_range size Hs) as Hr.
  unfold WholeSymbols, NumSymbolsOf, NumDataBitsPerSymbol, ServiceAndTailBits,
    StbcFactor in *.
  destruct (GetModulationClass (GetMode txVector)); try discriminate Hclass.
  1,2: rewrite !Z.mul_1_l in *;
    apply (OfdmNumSymbols_normal _ _ _ _ HN _ _ Hp); [|exact Hr];
    apply Qceiling_comp; change (inject_Z 1) with 1%Q; field; exact HN.
  1,2: rewrite HS by tauto;
    apply (HtNumSymbols_normal _ _ _ _ HN _ _ HK _ _ Hp); [|exact Hr];
    apply Qceiling_comp; field; lra.
Qed.

(** *** [GetPayloadDuration], role by role *)

Lemma payload_first size preamble frequency incFlag st :
  preamble <> WIFI_PREAMBLE_NONE ->
  0 <= size < 2 ^ 32 ->
  exists n : Q,
    (n == (O + inject_Z size * 8) / N)%Q
    /\ PayloadDuration size txVector preamble frequency MPDU_IN_AGGREGATE
         incFlag st
       = (Ok (Qfloor (n * T)
              + SignalExtension txVector frequency MPDU_IN_AGGREGATE preamble),
          commit incFlag st
            (mkWifiPhy (Num.wrap32 (m_totalAmpduSize st + size))
               (m_totalAmpduNumSymbols st + n)%Q)).
Proof.
  intros Hp Hs.
  destruct (NumSymbolsOf_first size preamble incFlag st Hp) as (n & Hn & Hrun).
  exists n. split; [exact Hn|].
  rewrite payload_of_symbols, Hrun.
  destruct (bits_range txVector size Hs) as [_ Hb].
  rewrite (symbols_NanoSecondsD _ _ Hclass Hrates n _ Hn) by lra.
  reflexivity.
Qed.

Lemma payload_middle size frequency incFlag st :
  0 <= size < 2 ^ 32 ->
  exists n : Q,
    (n == inject_Z size * 8 / N)%Q
    /\ PayloadDuration size txVector WIFI_PREAMBLE_NONE frequency
         MPDU_IN_AGGREGATE incFlag st
       = (Ok (Qfloor (n * T)
              + SignalExtension txVector frequency MPDU_IN_AGGREGATE
                  WIFI_PREAMBLE_NONE),
          commit incFlag st
            (mkWifiPhy (Num.wrap32 (m_totalAmpduSize st + size))
               (m_totalAmpduNumSymbols st + n)%Q)).
Proof.
  intros Hs.
  destruct (NumSymbolsOf_middle size incFlag st) as (n & Hn & Hrun).
  exists n. split; [exact Hn|].
  rewrite payload_of_symbols, Hrun.
  destruct (bits_range txVector size Hs) as [Hb _].
  rewrite (symbols_NanoSecondsD _ _ Hclass Hrates n _ Hn) by lra.
  reflexivity.
Qed.

Lemma payload_last size frequency incFlag st :
  (0 <= m_totalAmpduNumSymbols st)%Q ->
  PayloadDuration size txVector WIFI_PREAMBLE_NONE frequency
    LAST_MPDU_IN_AGGREGATE incFlag st
  = if Qle_bool (m_totalAmpduNumSymbols st)
         (inject_Z (Whole (Num.wrap32 (m_totalAmpduSize st + size))))
    then (Ok (Qfloor ((inject_Z (Whole (Num.wrap32 (m_totalAmpduSize st
                                                    + size)))
                       - m_totalAmpduNumSymbols st) * T)
              + SignalExtension txVector frequency LAST_MPDU_IN_AGGREGATE
                  WIFI_PREAMBLE_NONE),
          commit incFlag st WifiPhy_init)
    else (Err AssertionFailed, st).
Proof.
  intros Hacc. rewrite payload_of_symbols, NumSymbolsOf_last.
  set (w := Whole (Num.wrap32 (m_totalAmpduSize st + size))).
  destruct (Qle_bool (m_totalAmpduNumSymbols st) (inject_Z w)) eqn:E;
    [|reflexivity].
  apply Qle_bool_iff in E.
  destruct (WholeSymbols_duration _ _ Hclass Hrates
              (Num.wrap32 (m_totalAmpduSize st + size))
              (NumFacts.wrap32_range _)) as [H0 [H1 H2]].
  fold w in H0, H1, H2. pose proof (T_range txVector) as HT.
  rewrite NanoSecondsD_small; [reflexivity| |]; nra.
Qed.

Lemma payload_normal size preamble frequency incFlag st :
  preamble <> WIFI_PREAMBLE_NONE ->
  0 <= size < 2 ^ 32 ->
  PayloadDuration size txVector preamble frequency NORMAL_MPDU incFlag st
  = (Ok (Whole size * SymbolDuration txVector
         + SignalExtension txVector frequency NORMAL_MPDU preamble), st).
Proof.
  intros Hp Hs. rewrite payload_of_symbols, NumSymbolsOf_normal by assumption.
  destruct (WholeSymbols_duration _ _ Hclass Hrates size Hs) as [H0 [H1 H2]].
  rewrite NanoSecondsD_small; [| exact H1 | lra].
  rewrite <- inject_Z_mult, Qfloor_Z. reflexivity.
Qed.

End PayloadRoles2.

Lemma SampleDataRate_in_range_ofdm :
  rates_in_range SampleDataRate (GetMode SampleOfdmTxVector).
Proof. intros w g n. vm_compute. split; discriminate. Qed.

(** ** The other classes: the duration as a closed formula *)

Lemma to_uint32_ceil (x : Q) :
  (-1 < x)%Q -> (x <= 4294967295)%Q ->
  Num.to_uint32 (Num.ceil x) = Ok (Qceiling x) /\ 0 <= Qceiling x < 2 ^ 32.
Proof.
  intros H0 H1.
  assert (Hr : 0 <= Qceiling x < 2 ^ 32).
  { split.
    - pose proof (Qle_ceiling x) as H.
      assert (inject_Z (-1) < inject_Z (Qceiling x))%Q as H'.
      { assert (E : (inject_Z (-1) == -1)%Q) by reflexivity. rewrite E. lra. }
      rewrite <- Zlt_Qlt in H'. lia.
    - assert (Qceiling x <= 4294967295); [|lia].
      apply NumFacts.Qceiling_le_Z. exact H1. }
  split; [|exact Hr]. unfold Num.ceil. now apply NumFacts.to_uint32_inject.
Qed.

Lemma NanoSecondsD_ceil (x : Q) :
  (0 <= x)%Q -> (x <= 4294967295)%Q ->
  NanoSecondsD (Num.ceil x) = Ok (Qceiling x).
Proof.
  intros H0 H1. unfold Num.ceil.
  assert (0 <= Qceiling x) by (now apply NumFacts.Qceiling_nonneg).
  assert (Qceiling x <= 4294967295) by (now apply NumFacts.Qceiling_le_Z).
  rewrite NanoSecondsD_ok.
  - now rewrite Qfloor_Z.
  - now apply (inject_Z_le 0).
  - apply inject_Z_lt. lia.
Qed.

Section Dsss.

Variable GetDataRate : WifiMode -> Z -> bool -> Z -> Z.
Variable txVector : WifiTxVector.
Hypothesis Hrates : rates_in_range GetDataRate (GetMode txVector).

Lemma DsssPayloadDuration_formula (size : Z) :
  0 <= size < 2 ^ 32 ->
  DsssPayloadDuration GetDataRate size txVector
  = Ok (1000 * Qceiling (inject_Z size * 8
                         / (inject_Z (GetDataRate (GetMode txVector) 22 false 1)
                            / 1000000))).
Proof.
  intros Hs. unfold DsssPayloadDuration.
  pose proof (Hrates 22 false 1) as Hr.
  set (r := GetDataRate (GetMode txVector) 22 false 1) in *. clearbody r.
  assert (1000 <= inject_Z r)%Q by (apply (inject_Z_le 1000); lia).
  assert (0 <= inject_Z size)%Q by (apply (inject_Z_le 0); lia).
  assert (inject_Z size <= 4294967295)%Q
    by (apply (inject_Z_le _ 4294967295); lia).
  assert (Hpos : (0 < inject_Z r / 1000000)%Q)
    by (apply Qlt_shift_div_l; [reflexivity|lra]).
  rewrite NumFacts.fdiv_ok by (apply Qnot_eq_sym, Qlt_not_eq, Hpos).
  simpl rbind.
  set (q := (inject_Z size * 8 / (inject_Z r / 1000000))%Q).
  assert (Hq : (0 <= q <= 34359738360000)%Q).
  { unfold q. split; [apply Qdiv_nonneg; [lra|exact Hpos]|].
    apply Qle_shift_div_r; [exact Hpos|].
    assert (E : (34359738360000 * (inject_Z r / 1000000)
                 == 34359738360 * inject_Z r / 1000)%Q) by field.
    rewrite E. apply Qle_shift_div_l; [reflexivity|]. nra. }
  assert (Hc : 0 <= Qceiling q <= 34359738360000).
  { split; [apply NumFacts.Qceiling_nonneg; lra|].
    apply NumFacts.Qceiling_le_Z. exact (proj2 Hq). }
  unfold Num.ceil. rewrite NumFacts.lrint_inject by lia. simpl rbind.
  unfold MicroSeconds.
  rewrite (NumFacts.wrap64_small (Qceiling q)) by lia.
  rewrite NumFacts.wrap64_small by lia.
  rewrite int64_of_uint64_small by lia. rewrite (Z.mul_comm 1000).
  reflexivity.
Qed.

Lemma DsssPayloadDuration_mono (a b : Z) :
  0 <= a <= b -> b < 2 ^ 32 ->
  exists da db,
    DsssPayloadDuration GetDataRate a txVector = Ok da
    /\ DsssPayloadDuration GetDataRate b txVector = Ok db
    /\ da <= db.
Proof.
  intros Hab Hb. do 2 eexists.
  rewrite !DsssPayloadDuration_formula by lia.
  repeat split.
  pose proof (Hrates 22 false 1) as Hr.
  assert (1000 <= inject_Z (GetDataRate (GetMode txVector) 22 false 1))%Q
    by (apply (inject_Z_le 1000); lia).
  apply Z.mul_le_mono_nonneg_l; [lia|].
  apply Qceiling_resp_le. apply Qdiv_le_compat.
  - assert (inject_Z a <= inject_Z b)%Q by (apply inject_Z_le; lia). lra.
  - apply Qlt_shift_div_l; [reflexivity|lra].
Qed.

End Dsss.

(** *** DMG control PHY *)

Lemma Qdiv_bounds (y d lo hi : Q) :
  (0 < d)%Q -> (lo * d < y)%Q -> (y <= hi * d)%Q ->
  (lo < y / d)%Q /\ (y / d <= hi)%Q.
Proof.
  intros Hd Hlo Hhi. split.
  - now apply Qlt_shift_div_l.
  - now apply Qle_shift_div_r.
Qed.

Lemma DmgCtrlCodewords_range (size : Z) :
  0 <= size <= 8388603 -> 0 <= DmgCtrlCodewords size <= 399457.
Proof.
  intros Hs. unfold DmgCtrlCodewords.
  assert (0 <= inject_Z size)%Q by (apply (inject_Z_le 0); lia).
  assert (inject_Z size <= 8388603)%Q by (apply (inject_Z_le _ 8388603); lia).
  destruct (Qdiv_bounds ((inject_Z size - 6) * 8) 168 (-1) 399457)
    as [Hlo Hhi]; [reflexivity|lra|lra|].
  destruct (to_uint32_ceil ((inject_Z size - 6) * 8 / 168)) as [_ Hc];
    [exact Hlo|lra|].
  split; [lia|]. apply NumFacts.Qceiling_le_Z. exact Hhi.
Qed.

Lemma DmgCtrlCodewords_mono (a b : Z) :
  a <= b -> DmgCtrlCodewords a <= DmgCtrlCodewords b.
Proof.
  intros Hab. unfold DmgCtrlCodewords. apply Qceiling_resp_le.
  assert (inject_Z a <= inject_Z b)%Q by (now apply inject_Z_le).
  apply Qdiv_le_compat; [lra|reflexivity].
Qed.

Lemma DmgCtrlCodewords_positive (size : Z) :
  7 <= size -> 1 <= DmgCtrlCodewords size.
Proof.
  intros Hs. unfold DmgCtrlCodewords.
  assert (7 <= inject_Z size)%Q by (apply (inject_Z_le 7); lia).
  pose proof (Qle_ceiling ((inject_Z size - 6) * 8 / 168)) as H1.
  destruct (Qdiv_bounds ((inject_Z size - 6) * 8) 168 0 (inject_Z size))
    as [Hlo _]; [reflexivity|lra|lra|].
  set (c := Qceiling ((inject_Z size - 6) * 8 / 168)) in *.
  assert (0 < inject_Z c)%Q as Hc by lra.
  change 0%Q with (inject_Z 0) in Hc. rewrite <- Zlt_Qlt in Hc. lia.
Qed.

Lemma DmgCtrlNcw_formula (size : Z) :
  0 <= size <= 8388603 ->
  DmgCtrlNcw size = Ok (1 + DmgCtrlCodewords size).
Proof.
  intros Hs. pose proof (DmgCtrlCodewords_range size Hs) as Hc.
  unfold DmgCtrlNcw, DmgCtrlCodewords in *.
  assert (0 <= inject_Z size)%Q by (apply (inject_Z_le 0); lia).
  assert (inject_Z size <= 8388603)%Q by (apply (inject_Z_le _ 8388603); lia).
  destruct (Qdiv_bounds ((inject_Z size - 6) * 8) 168 (-1) 399457)
    as [Hlo Hhi]; [reflexivity|lra|lra|].
  destruct (to_uint32_ceil ((inject_Z size - 6) * 8 / 168)) as [-> _];
    [exact Hlo|lra|].
  simpl rbind. rewrite NumFacts.wrap32_small by lia. reflexivity.
Qed.

Lemma DmgCtrl_with_training (size : Z) (txVector : WifiTxVector) :
  GetTrainngFieldLength txVector <> 0 ->
  0 <= size <= 8388603 ->
  DmgCtrlPayloadDuration size txVector
  = Ok (Qceiling (inject_Z (88 + (size - 6) * 8
                            + (1 + DmgCtrlCodewords size) * 168)
                  * (57 # 100) * 32)).
Proof.
  intros Ht Hs. pose proof (DmgCtrlCodewords_range size Hs) as Hc.
  unfold DmgCtrlPayloadDuration.
  destruct (Z.eqb_spec (GetTrainngFieldLength txVector) 0); [contradiction|].
  rewrite DmgCtrlNcw_formula by assumption. simpl rbind.
  set (c := DmgCtrlCodewords size) in *.
  rewrite NumFacts.wrap32_small by lia.
  set (v := 88 + (size - 6) * 8 + (1 + c) * 168).
  assert (0 <= inject_Z v)%Q by (apply (inject_Z_le 0); unfold v; lia).
  assert (inject_Z v <= 134217984)%Q
    by (apply (inject_Z_le _ 134217984); unfold v; lia).
  apply NanoSecondsD_ceil; lra.
Qed.

Lemma DmgCtrl_without_training (size : Z) (txVector : WifiTxVector) :
  GetTrainngFieldLength txVector = 0 ->
  7 <= size <= 8388603 ->
  DmgCtrlPayloadDuration size txVector
  = Ok (Qceiling (inject_Z (32 * (168 * DmgCtrlCodewords size
                                  + (size - 6) * 8))
                  / (176 # 100))).
Proof.
  intros Ht Hs.
  pose proof (DmgCtrlCodewords_range size) as Hc.
  pose proof (DmgCtrlCodewords_positive size) as Hc1.
  unfold DmgCtrlPayloadDuration. rewrite Ht. simpl (0 =? 0).
  rewrite DmgCtrlNcw_formula by lia. simpl rbind.
  set (c := DmgCtrlCodewords size) in *.
  replace (1 + c - 1) with c by ring. replace (1 + c - 2) with (c - 1) by ring.
  rewrite (NumFacts.wrap32_small c) by lia.
  assert (1 <= inject_Z c)%Q by (apply (inject_Z_le 1); lia).
  assert (7 <= inject_Z size)%Q by (apply (inject_Z_le 7); lia).
  assert (inject_Z size <= 8388603)%Q by (apply (inject_Z_le _ 8388603); lia).
  rewrite NumFacts.fdiv_ok by lra. simpl rbind.
  set (q := ((inject_Z size - 6) * 8 / inject_Z c)%Q).
  assert (Hq : (0 <= q <= 67108776)%Q).
  { unfold q. split.
    - apply Qdiv_nonneg; lra.
    - apply Qle_shift_div_r; [lra|]. nra. }
  destruct (to_uint32_ceil q) as [-> HL]; [lra|lra|]. simpl rbind.
  set (L := Qceiling q) in *.
  assert (HD : Num.wrap32 ((672 - (504 - L)) * (c - 1)
                           + (672 - (504 - Num.wrap32 ((size - 6) * 8
                                                       - (c - 1) * L))))
               = 168 * c + (size - 6) * 8).
  { unfold Num.wrap32.
    replace ((672 - (504 - L)) * (c - 1)
             + (672 - (504 - ((size - 6) * 8 - (c - 1) * L) mod 2 ^ 32)))
      with ((168 + L) * (c - 1) + 168
            + ((size - 6) * 8 - (c - 1) * L) mod 2 ^ 32) by ring.
    rewrite Zplus_mod_idemp_r.
    replace ((168 + L) * (c - 1) + 168 + ((size - 6) * 8 - (c - 1) * L))
      with (168 * c + (size - 6) * 8) by ring.
    apply Z.mod_small. lia. }
  rewrite HD. rewrite NumFacts.wrap32_small by lia.
  rewrite (Z.mul_comm _ 32).
  set (chips := 32 * (168 * c + (size - 6) * 8)).
  assert (0 <= inject_Z chips)%Q by (apply (inject_Z_le 0); unfold chips; lia).
  assert (inject_Z chips <= 4294961664)%Q
    by (apply (inject_Z_le _ 4294961664); unfold chips; lia).
  apply NanoSecondsD_ceil.
  - apply Qdiv_nonneg; [lra|reflexivity].
  - apply Qle_shift_div_r; [reflexivity|]. lra.
Qed.

Lemma DmgCtrl_mono (a b : Z) (txVector : WifiTxVector) (da : Time) :
  0 <= a <= b -> b <= 8388603 ->
  DmgCtrlPayloadDuration a txVector = Ok da ->
  exists db : Time,
    DmgCtrlPayloadDuration b txVector = Ok db /\ da <= db.
Proof.
  intros Hab Hb Ha.
  pose proof (DmgCtrlCodewords_mono a b (proj2 Hab)) as Hc.
  pose proof (DmgCtrlCodewords_range a) as Hca.
  pose proof (DmgCtrlCodewords_range b) as Hcb.
  destruct (Z.eq_dec (GetTrainngFieldLength txVector) 0) as [Ht|Ht].
  - assert (7 <= a).
    { destruct (Z_lt_le_dec a 7) as [Hlt|]; [|assumption].
      rewrite DmgCtrl_short_payload in Ha by (assumption || lia).
      discriminate Ha. }
    rewrite DmgCtrl_without_training in Ha by (assumption || lia).
    injection Ha as <-. eexists. split.
    + apply DmgCtrl_without_training; [assumption|lia].
    + apply Qceiling_resp_le. apply Qdiv_le_compat; [|reflexivity].
      apply inject_Z_le. lia.
  - rewrite DmgCtrl_with_training in Ha by (assumption || lia).
    injection Ha as <-. eexists. split.
    + apply DmgCtrl_with_training; [assumption|lia].
    + apply Qceiling_resp_le.
      assert (inject_Z (88 + (a - 6) * 8 + (1 + DmgCtrlCodewords a) * 168)
              <= inject_Z (88 + (b - 6) * 8
                           + (1 + DmgCtrlCodewords b) * 168))%Q
        by (apply inject_Z_le; lia).
      lra.
Qed.

(** *** DMG single-carrier and OFDM PHY *)

Lemma ceil_ratio (x : Z) (n d : Q) (hi : Z) :
  0 <= x -> (0 <= n)%Q -> (0 < d)%Q ->
  (inject_Z x * n <= inject_Z hi * d)%Q -> hi <= 4294967295 ->
  Num.to_uint32 (Num.ceil (inject_Z x * n / d))
  = Ok (Qceiling (inject_Z x * n / d))
  /\ 0 <= Qceiling (inject_Z x * n / d) <= hi.
Proof.
  intros Hx Hn Hd Hhi Hhi'.
  assert (0 <= inject_Z x)%Q by (now apply (inject_Z_le 0)).
  assert (H0 : (0 <= inject_Z x * n / d)%Q)
    by (apply Qdiv_nonneg; [now apply Qmult_le_0_compat|assumption]).
  assert (H1 : (inject_Z x * n / d <= inject_Z hi)%Q)
    by (now apply Qle_shift_div_r).
  assert (H2 : Qceiling (inject_Z x * n / d) <= hi)
    by (now apply NumFacts.Qceiling_le_Z).
  pose proof (NumFacts.Qceiling_nonneg _ H0) as H3.
  split; [|lia]. unfold Num.ceil. apply NumFacts.to_uint32_inject. lia.
Qed.

Lemma ceil_ratio_mono (x y : Z) (n d : Q) :
  x <= y -> (0 <= n)%Q -> (0 < d)%Q ->
  Qceiling (inject_Z x * n / d) <= Qceiling (inject_Z y * n / d).
Proof.
  intros Hxy Hn Hd. apply Qceiling_resp_le. apply Qdiv_le_compat; [|exact Hd].
  apply Qmult_le_compat_r; [now apply inject_Z_le|exact Hn].
Qed.

Lemma DmgNcbits_mono (mode : WifiMode) (x y cx : Z) :
  0 <= x <= y -> y <= 1073741816 ->
  DmgNcbits mode x = Ok cx ->
  exists cy : Z,
    DmgNcbits mode y = Ok cy /\ 0 <= cx <= cy /\ cy <= 4294967264.
Proof.
  intros Hxy Hy. unfold DmgNcbits.
  assert (Hq : forall n d : Q,
             (0 <= n)%Q -> (0 < d)%Q -> (n <= 4 * d)%Q ->
             Num.to_uint32 (Num.ceil (inject_Z x * n / d)) = Ok cx ->
             exists cy : Z,
               Num.to_uint32 (Num.ceil (inject_Z y * n / d)) = Ok cy
               /\ 0 <= cx <= cy /\ cy <= 4294967264).
  { intros n d Hn Hd Hnd Hx.
    assert (Hb : forall z, 0 <= z <= 1073741816 ->
                           (inject_Z z * n <= inject_Z 4294967264 * d)%Q).
    { intros z Hz.
      assert (0 <= inject_Z z)%Q by (apply (inject_Z_le 0); lia).
      assert (inject_Z z <= 1073741816)%Q
        by (apply (inject_Z_le _ 1073741816); lia).
      change (inject_Z 4294967264) with 4294967264%Q. nra. }
    destruct (ceil_ratio x n d 4294967264) as [Ex Hrx];
      [lia|assumption|assumption|apply Hb; lia|lia|].
    destruct (ceil_ratio y n d 4294967264) as [Ey Hry];
      [lia|assumption|assumption|apply Hb; lia|lia|].
    rewrite Ex in Hx. injection Hx as <-. eexists. split; [exact Ey|].
    pose proof (ceil_ratio_mono x y n d (proj2 Hxy) Hn Hd). lia. }
  destruct (GetCodeRate mode); try discriminate.
  - intros Hx. apply (Hq 4%Q 3%Q); [discriminate|reflexivity|discriminate|exact Hx].
  - rewrite !NumFacts.wrap32_small by lia. intros [= <-].
    eexists. split; [reflexivity|lia].
  - rewrite !NumFacts.wrap32_small by lia. intros [= <-].
    eexists. split; [reflexivity|lia].
  - intros Hx.
    apply (Hq 16%Q 13%Q); [discriminate|reflexivity|discriminate|exact Hx].
  - intros Hx. apply (Hq 8%Q 5%Q); [discriminate|reflexivity|discriminate|exact Hx].
Qed.

Lemma DmgTrainingFloor_mono (txVector : WifiTxVector) (floor : Q)
    (ta tb ra : Z) :
  0 <= ta <= tb -> tb < 2 ^ 32 ->
  DmgTrainingFloor txVector floor ta = Ok ra ->
  exists rb : Z,
    DmgTrainingFloor txVector floor tb = Ok rb
    /\ 0 <= ra <= rb /\ rb < 2 ^ 32.
Proof.
  intros Hab Hb. unfold DmgTrainingFloor.
  destruct (negb (GetTrainngFieldLength txVector =? 0)).
  - destruct (Qle_bool floor (inject_Z ta)) eqn:Ea; simpl.
    + apply Qle_bool_iff in Ea.
      assert (E : Qle_bool floor (inject_Z tb) = true).
      { apply Qle_bool_iff. eapply Qle_trans; [exact Ea|].
        apply inject_Z_le. lia. }
      rewrite E. intros [= <-]. simpl. eexists. split; [reflexivity|lia].
    + intros Hf. apply NumFacts.to_uint32_inv in Hf as [Hra Hr].
      assert (Hfl : (inject_Z ta < floor)%Q).
      { apply Qnot_le_lt. intros Hle. apply Qle_bool_iff in Hle. congruence. }
      assert (H0 : (0 <= floor)%Q).
      { apply Qlt_le_weak. eapply Qle_lt_trans; [|exact Hfl].
        apply (inject_Z_le 0). lia. }
      rewrite NumFacts.trunc_nonneg in Hra by assumption.
      destruct (Qle_bool floor (inject_Z tb)) eqn:Eb; simpl.
      * apply Qle_bool_iff in Eb. eexists. split; [reflexivity|].
        assert (Qfloor floor <= tb).
        { rewrite <- (Qfloor_Z tb). now apply Qfloor_resp_le. }
        lia.
      * exists ra. split; [|lia]. unfold Num.to_uint32.
        rewrite NumFacts.trunc_nonneg by assumption. rewrite <- Hra.
        destruct (Z.leb_spec 0 ra); [|lia].
        destruct (Z.ltb_spec ra (2 ^ 32)); [reflexivity|lia].
  - intros [= <-]. eexists. split; [reflexivity|lia].
Qed.

Lemma DmgScNcbpb_range (mode : WifiMode) (p : Z) :
  DmgScNcbpb mode = Ok p -> 448 <= p <= 3584.
Proof.
  unfold DmgScNcbpb.
  repeat match goal with
         | |- context [if ?c then _ else _] => destruct c
         end; intros [= <-]; lia.
Qed.

Lemma DmgOfdmNcbps_range (mode : WifiMode) (p : Z) :
  DmgOfdmNcbps mode = Ok p -> 336 <= p <= 2016.
Proof.
  unfold DmgOfdmNcbps.
  repeat match goal with
         | |- context [if ?c then _ else _] => destruct c
         end; intros [= <-]; lia.
Qed.

(** One step of the packing arithmetic, [(uint32_t) ceil (f x)]: it
    succeeds on a larger argument when it does on a smaller one, with a
    larger result. *)
Lemma uint32_ceil_step (f : Z -> Q) (hi_in hi_out : Z) :
  (forall x y : Z, 0 <= x <= y -> y <= hi_in -> (0 <= f x <= f y)%Q) ->
  (f hi_in <= inject_Z hi_out)%Q -> hi_out <= 4294967295 ->
  forall a b ra : Z,
    0 <= a <= b -> b <= hi_in ->
    Num.to_uint32 (Num.ceil (f a)) = Ok ra ->
    exists rb : Z,
      Num.to_uint32 (Num.ceil (f b)) = Ok rb /\ 0 <= ra <= rb /\ rb <= hi_out.
Proof.
  intros Hf Hhi Hout a b ra Hab Hb Ha.
  assert (Hr : forall z, 0 <= z <= hi_in ->
                         Num.to_uint32 (Num.ceil (f z)) = Ok (Qceiling (f z))
                         /\ 0 <= Qceiling (f z) <= hi_out).
  { intros z Hz. destruct (Hf z hi_in) as [H0 H1]; [lia|lia|].
    assert (Qceiling (f z) <= hi_out).
    { apply NumFacts.Qceiling_le_Z. eapply Qle_trans; eassumption. }
    pose proof (NumFacts.Qceiling_nonneg _ H0).
    split; [|lia]. unfold Num.ceil. apply NumFacts.to_uint32_inject. lia. }
  destruct (Hr a) as [Ea Hra]; [lia|]. destruct (Hr b) as [Eb Hrb]; [lia|].
  rewrite Ea in Ha. injection Ha as <-. eexists. split; [exact Eb|].
  destruct (Hf a b) as [_ Hm]; [lia|lia|].
  pose proof (Qceiling_resp_le _ _ Hm). lia.
Qed.

Lemma codewords_step (a b ra : Z) :
  0 <= a <= b -> b <= 4294967264 ->
  Num.to_uint32 (Num.ceil (inject_Z a / 672)) = Ok ra ->
  exists rb : Z,
    Num.to_uint32 (Num.ceil (inject_Z b / 672)) = Ok rb
    /\ 0 <= ra <= rb /\ rb <= 6391321.
Proof.
  apply (uint32_ceil_step (fun x => inject_Z x / 672)%Q 4294967264 6391321);
    [|vm_compute; discriminate|lia].
  intros x y Hxy Hy.
  assert (0 <= inject_Z x)%Q by (apply (inject_Z_le 0); lia).
  assert (inject_Z x <= inject_Z y)%Q by (apply inject_Z_le; lia).
  split; [apply Qdiv_nonneg; [assumption|reflexivity]|].
  apply Qdiv_le_compat; [assumption|reflexivity].
Qed.

Lemma blocks_step (p lo hi : Z) (a b ra : Z) :
  lo <= p -> 0 < lo -> 6391321 * 672 <= hi * lo -> hi <= 4294967295 ->
  0 <= a <= b -> b <= 6391321 ->
  Num.to_uint32 (Num.ceil (inject_Z a * 672 / inject_Z p)) = Ok ra ->
  exists rb : Z,
    Num.to_uint32 (Num.ceil (inject_Z b * 672 / inject_Z p)) = Ok rb
    /\ 0 <= ra <= rb /\ rb <= hi.
Proof.
  intros Hp Hlo Hhi Hhi'.
  assert (Hpq : (0 < inject_Z p)%Q) by (apply (inject_Z_lt 0); lia).
  apply (uint32_ceil_step (fun x => inject_Z x * 672 / inject_Z p)%Q
           6391321 hi); [| |lia].
  - intros x y Hxy Hy.
    assert (0 <= inject_Z x)%Q by (apply (inject_Z_le 0); lia).
    assert (inject_Z x <= inject_Z y)%Q by (apply inject_Z_le; lia).
    split; [apply Qdiv_nonneg; [lra|assumption]|].
    apply Qdiv_le_compat; [lra|assumption].
  - apply Qle_shift_div_r; [assumption|].
    rewrite <- !inject_Z_mult.
    change (inject_Z 6391321 * 672)%Q with (inject_Z (6391321 * 672)).
    apply inject_Z_le. nia.
Qed.

Lemma lrint_ceil (q : Q) (hi : Z) :
  (0 <= q)%Q -> (q <= inject_Z hi)%Q -> hi < 2 ^ 63 ->
  Num.lrint (Num.ceil q) = Ok (Qceiling q) /\ 0 <= Qceiling q <= hi.
Proof.
  intros H0 H1 Hhi.
  pose proof (NumFacts.Qceiling_nonneg _ H0).
  pose proof (NumFacts.Qceiling_le_Z _ _ H1).
  split; [|lia]. unfold Num.ceil. apply NumFacts.lrint_inject. lia.
Qed.

Section DmgData.

Variable OFDMSCMin : Q.
Variable OFDMBRPMin : Q.
Variable txVector : WifiTxVector.

Lemma DmgSc_mono (a b : Z) (da : Time) :
  0 <= a <= b -> b <= 2 ^ 27 - 1 ->
  DmgScPayloadDuration OFDMSCMin a txVector = Ok da ->
  exists db : Time,
    DmgScPayloadDuration OFDMSCMin b txVector = Ok db /\ da <= db.
Proof.
  intros Hab Hb. unfold DmgScPayloadDuration.
  destruct (DmgScNcbpb (GetMode txVector)) as [p|] eqn:Hp; [|discriminate].
  apply DmgScNcbpb_range in Hp. simpl rbind.
  rewrite !NumFacts.wrap32_small by lia.
  destruct (DmgNcbits (GetMode txVector) (a * 8)) as [ca|] eqn:Hca;
    [|discriminate].
  destruct (DmgNcbits_mono (GetMode txVector) (a * 8) (b * 8) ca) as (cb & -> & Hc1 & Hc2);
    [lia|lia|exact Hca|].
  simpl rbind.
  destruct (Num.to_uint32 (Num.ceil (inject_Z ca / 672))) as [wa|] eqn:Hwa;
    [|discriminate].
  destruct (codewords_step ca cb wa) as (wb & -> & Hw1 & Hw2);
    [lia|lia|exact Hwa|].
  simpl rbind.
  destruct (Num.to_uint32 (Num.ceil (inject_Z wa * 672 / inject_Z p)))
    as [ka|] eqn:Hka; [|discriminate].
  destruct (blocks_step p 448 9586982 wa wb ka) as (kb & -> & Hk1 & Hk2);
    [lia|lia|lia|lia|lia|lia|exact Hka|].
  simpl rbind.
  assert (Ht : forall k, 0 <= k <= 9586982 ->
             Num.lrint (Num.ceil ((inject_Z k * 512 + 64) / (176 # 100)))
             = Ok (Qceiling ((inject_Z k * 512 + 64) / (176 # 100)))
             /\ 0 <= Qceiling ((inject_Z k * 512 + 64) / (176 # 100))
                <= 2788940255).
  { intros k Hk.
    assert (0 <= inject_Z k)%Q by (apply (inject_Z_le 0); lia).
    assert (inject_Z k <= 9586982)%Q by (apply (inject_Z_le _ 9586982); lia).
    apply lrint_ceil; [| |lia].
    - apply Qdiv_nonneg; [lra|reflexivity].
    - apply Qle_shift_div_r; [reflexivity|].
      change (inject_Z 2788940255) with 2788940255%Q. lra. }
  destruct (Ht ka) as [-> Hta]; [lia|]. destruct (Ht kb) as [-> Htb]; [lia|].
  simpl rbind. rewrite !NumFacts.wrap32_small by lia.
  assert (Hmono : Qceiling ((inject_Z ka * 512 + 64) / (176 # 100))
                  <= Qceiling ((inject_Z kb * 512 + 64) / (176 # 100))).
  { apply Qceiling_resp_le. apply Qdiv_le_compat; [|reflexivity].
    assert (inject_Z ka <= inject_Z kb)%Q by (apply inject_Z_le; lia). lra. }
  set (ta := Qceiling ((inject_Z ka * 512 + 64) / (176 # 100))) in *.
  set (tb := Qceiling ((inject_Z kb * 512 + 64) / (176 # 100))) in *.
  destruct (DmgTrainingFloor txVector OFDMSCMin ta) as [ra|] eqn:Hra;
    [|discriminate].
  destruct (DmgTrainingFloor_mono txVector OFDMSCMin ta tb ra)
    as (rb & -> & Hr1 & Hr2); [lia|lia|exact Hra|].
  simpl rbind. intros [= <-]. eexists. split; [reflexivity|].
  unfold NanoSeconds. rewrite !int64_of_uint64_small by lia. lia.
Qed.

Lemma DmgOfdm_mono (a b : Z) (da : Time) :
  0 <= a <= b -> b <= 2 ^ 27 - 1 ->
  DmgOfdmPayloadDuration OFDMBRPMin a txVector = Ok da ->
  exists db : Time,
    DmgOfdmPayloadDuration OFDMBRPMin b txVector = Ok db /\ da <= db.
Proof.
  intros Hab Hb. unfold DmgOfdmPayloadDuration.
  destruct (DmgOfdmNcbps (GetMode txVector)) as [p|] eqn:Hp; [|discriminate].
  apply DmgOfdmNcbps_range in Hp. simpl rbind.
  rewrite !NumFacts.wrap32_small by lia.
  destruct (DmgNcbits (GetMode txVector) (a * 8)) as [ca|] eqn:Hca;
    [|discriminate].
  destruct (DmgNcbits_mono (GetMode txVector) (a * 8) (b * 8) ca) as (cb & -> & Hc1 & Hc2);
    [lia|lia|exact Hca|].
  simpl rbind.
  destruct (Num.to_uint32 (Num.ceil (inject_Z ca / 672))) as [wa|] eqn:Hwa;
    [|discriminate].
  destruct (codewords_step ca cb wa) as (wb & -> & Hw1 & Hw2);
    [lia|lia|exact Hwa|].
  simpl rbind.
  destruct (Num.to_uint32 (Num.ceil (inject_Z wa * 672 / inject_Z p)))
    as [ka|] eqn:Hka; [|discriminate].
  destruct (blocks_step p 336 12782642 wa wb ka) as (kb & -> & Hk1 & Hk2);
    [lia|lia|lia|lia|lia|lia|exact Hka|].
  simpl rbind. rewrite !NumFacts.wrap32_small by lia.
  destruct (DmgTrainingFloor txVector OFDMBRPMin (ka * 242)) as [ra|] eqn:Hra;
    [|discriminate].
  destruct (DmgTrainingFloor_mono txVector OFDMBRPMin (ka * 242) (kb * 242) ra)
    as (rb & -> & Hr1 & Hr2); [lia|lia|exact Hra|].
  simpl rbind. intros [= <-]. eexists. split; [reflexivity|].
  unfold NanoSeconds. rewrite !int64_of_uint64_small by lia. lia.
Qed.

End DmgData.



Section Monotone.

Variable GetDataRate : WifiMode -> Z -> bool -> Z -> Z.
Variable OFDMSCMin : Q.
Variable OFDMBRPMin : Q.

Local Abbreviation PayloadDuration :=
  (GetPayloadDuration GetDataRate OFDMSCMin OFDMBRPMin).

Lemma NumSymbolsOf_wrong_combination txVector size preamble mpdutype incFlag
    st :
  ends_transmission mpdutype preamble = false ->
  is_mpdu_in_aggregate mpdutype = false ->
  exists e, NumSymbolsOf GetDataRate size txVector preamble mpdutype incFlag st
            = (Err e, st).
Proof.
  intros He Ha. unfold NumSymbolsOf, OfdmNumSymbols, HtNumSymbols.
  unfold ends_transmission in He. apply orb_false_elim in He as [H1 H2].
  rewrite Ha, H1, H2. simpl.
  destruct (GetModulationClass (GetMode txVector)); eexists; reflexivity.
Qed.

Lemma symbol_class_mono (txVector : WifiTxVector) (preamble : WifiPreamble)
    (frequency : Q) (mpdutype : mpduType) (incFlag : Z) (st sa : WifiPhy)
    (a b : Z) (da : Time) :
  is_symbol_class (GetModulationClass (GetMode txVector)) = true ->
  rates_in_range GetDataRate (GetMode txVector) ->
  0 <= a <= b -> b < 2 ^ 32 ->
  (mpdutype = LAST_MPDU_IN_AGGREGATE ->
   0 <= m_totalAmpduSize st /\ m_totalAmpduSize st + b < 2 ^ 32
   /\ (0 <= m_totalAmpduNumSymbols st)%Q) ->
  PayloadDuration a txVector preamble frequency mpdutype incFlag st
  = (Ok da, sa) ->
  exists (db : Time) (sb : WifiPhy),
    PayloadDuration b txVector preamble frequency mpdutype incFlag st
    = (Ok db, sb)
    /\ da <= db.
Proof.
  intros Hclass Hrates Hab Hb Hlast Ha.
  destruct (NumDataBitsPerSymbol_pos GetDataRate txVector Hclass Hrates)
    as [HN _].
  pose proof (T_range txVector) as HT.
  assert (Hq : (inject_Z a <= inject_Z b)%Q) by (apply inject_Z_le; lia).
  assert (Hp : preamble = WIFI_PREAMBLE_NONE \/ preamble <> WIFI_PREAMBLE_NONE)
    by (destruct preamble; auto; right; discriminate).
  assert (Hfloor : forall na nb x y : Q,
             (na == x / NumDataBitsPerSymbol GetDataRate txVector)%Q ->
             (nb == y / NumDataBitsPerSymbol GetDataRate txVector)%Q ->
             (x <= y)%Q ->
             Qfloor (na * inject_Z (SymbolDuration txVector))
             <= Qfloor (nb * inject_Z (SymbolDuration txVector))).
  { intros na nb x y Hna Hnb Hxy. apply Qfloor_resp_le. rewrite Hna, Hnb.
    apply Qmult_le_compat_r; [now apply Qdiv_le_compat|].
    destruct HT as [HT1 _]. eapply Qle_trans; [|exact HT1]. discriminate. }
  destruct mpdutype.
  - (* a plain MPDU *)
    destruct Hp as [-> | Hp].
    + rewrite payload_of_symbols in Ha by assumption.
      destruct (NumSymbolsOf_wrong_combination txVector a WIFI_PREAMBLE_NONE
                  NORMAL_MPDU incFlag st) as [e He]; [reflexivity..|].
      rewrite He in Ha. discriminate Ha.
    + rewrite payload_normal in Ha by (assumption || lia).
      assert (Hda : da = WholeSymbols GetDataRate txVector a
                         * SymbolDuration txVector
                         + SignalExtension txVector frequency NORMAL_MPDU
                             preamble) by congruence.
      do 2 eexists. split.
      * apply payload_normal; assumption || lia.
      * pose proof (WholeSymbols_mono GetDataRate txVector Hclass Hrates a b
                      (proj2 Hab)).
        pose proof (SymbolDuration_cases txVector). nia.
  - (* an MPDU of an A-MPDU before the last *)
    destruct Hp as [-> | Hp].
    + destruct (payload_middle GetDataRate OFDMSCMin OFDMBRPMin txVector
                  Hclass Hrates a frequency incFlag st)
        as (na & Hna & Hra); [lia|].
      destruct (payload_middle GetDataRate OFDMSCMin OFDMBRPMin txVector
                  Hclass Hrates b frequency incFlag st)
        as (nb & Hnb & Hrb); [lia|].
      rewrite Hra in Ha.
      assert (Hda : da = Qfloor (na * inject_Z (SymbolDuration txVector))
                         + SignalExtension txVector frequency
                             MPDU_IN_AGGREGATE WIFI_PREAMBLE_NONE)
        by congruence.
      do 2 eexists. split; [exact Hrb|].
      pose proof (Hfloor na nb _ _ Hna Hnb) as H.
      assert (H' : (inject_Z a * 8 <= inject_Z b * 8)%Q) by (clear - Hq; lra).
      specialize (H H'). lia.
    + destruct (payload_first GetDataRate OFDMSCMin OFDMBRPMin txVector
                  Hclass Hrates a preamble frequency incFlag st Hp)
        as (na & Hna & Hra); [lia|].
      destruct (payload_first GetDataRate OFDMSCMin OFDMBRPMin txVector
                  Hclass Hrates b preamble frequency incFlag st Hp)
        as (nb & Hnb & Hrb); [lia|].
      rewrite Hra in Ha.
      assert (Hda : da = Qfloor (na * inject_Z (SymbolDuration txVector))
                         + SignalExtension txVector frequency
                             MPDU_IN_AGGREGATE preamble)
        by congruence.
      do 2 eexists. split; [exact Hrb|].
      pose proof (Hfloor na nb _ _ Hna Hnb) as H.
      assert (H' : (ServiceAndTailBits txVector + inject_Z a * 8
                    <= ServiceAndTailBits txVector + inject_Z b * 8)%Q)
        by (clear - Hq; lra).
      specialize (H H'). lia.
  - (* the last MPDU of an A-MPDU *)
    destruct Hp as [-> | Hp].
    + destruct Hlast as (Hm & Hmb & Hacc); [reflexivity|].
      rewrite payload_last in Ha by assumption.
      rewrite payload_last by assumption.
      rewrite !NumFacts.wrap32_small in * by lia.
      pose proof (WholeSymbols_mono GetDataRate txVector Hclass Hrates
                    (m_totalAmpduSize st + a) (m_totalAmpduSize st + b))
        as Hw.
      set (wa := WholeSymbols GetDataRate txVector (m_totalAmpduSize st + a))
        in *.
      set (wb := WholeSymbols GetDataRate txVector (m_totalAmpduSize st + b))
        in *.
      assert (Hwq : (inject_Z wa <= inject_Z wb)%Q)
        by (apply inject_Z_le; apply Hw; lia).
      destruct (Qle_bool (m_totalAmpduNumSymbols st) (inject_Z wa)) eqn:Ea;
        [|discriminate Ha].
      apply Qle_bool_iff in Ea.
      assert (Eb : Qle_bool (m_totalAmpduNumSymbols st) (inject_Z wb) = true)
        by (apply Qle_bool_iff; clear - Ea Hwq; lra).
      rewrite Eb.
      assert (Hda : da = Qfloor ((inject_Z wa - m_totalAmpduNumSymbols st)
                                 * inject_Z (SymbolDuration txVector))
                         + SignalExtension txVector frequency
                             LAST_MPDU_IN_AGGREGATE WIFI_PREAMBLE_NONE)
        by congruence.
      do 2 eexists. split; [reflexivity|].
      assert (Qfloor ((inject_Z wa - m_totalAmpduNumSymbols st)
                      * inject_Z (SymbolDuration txVector))
              <= Qfloor ((inject_Z wb - m_totalAmpduNumSymbols st)
                         * inject_Z (SymbolDuration txVector))).
      { apply Qfloor_resp_le. apply Qmult_le_compat_r;
          [clear - Hwq; lra|clear - HT; lra]. }
      lia.
    + rewrite payload_of_symbols in Ha by assumption.
      destruct (NumSymbolsOf_wrong_combination txVector a preamble
                  LAST_MPDU_IN_AGGREGATE incFlag st) as [e He];
        [destruct preamble; try contradiction; reflexivity|reflexivity|].
      rewrite He in Ha. discriminate Ha.
Qed.

(** C8 (amended).  With data rates in range, [GetPayloadDuration] is
    non-decreasing in the payload size up to the largest size, per class,
    for which no 32-bit intermediate wraps around (8388603 bytes for the
    DMG control PHY, 2^27 - 1 for the DMG SC and OFDM PHYs, any 32-bit size
    for the others; for the last MPDU of an A-MPDU the bytes accumulated so
    far count too), and, for the DMG control PHY without training field,
    from 7 bytes on, where the divisor [Ncw - 1] is not zero: whenever the
    call for such a size [a] returns a duration, the call for every size
    [b] from [a] up to that bound, all else equal, returns a duration that
    is at least as long. *)
Theorem payload_duration_monotone :
  forall (txVector : WifiTxVector) (preamble : WifiPreamble) (frequency : Q)
         (mpdutype : mpduType) (incFlag : Z) (st sa : WifiPhy) (a b : Z)
         (da : Time),
    rates_in_range GetDataRate (GetMode txVector) ->
    0 <= a <= b ->
    b <= MaxPayloadSize (GetModulationClass (GetMode txVector)) ->
    (GetModulationClass (GetMode txVector) = WIFI_MOD_CLASS_DMG_CTRL ->
     GetTrainngFieldLength txVector = 0 -> 7 <= a) ->
    (mpdutype = LAST_MPDU_IN_AGGREGATE ->
     0 <= m_totalAmpduSize st /\ m_totalAmpduSize st + b < 2 ^ 32
     /\ (0 <= m_totalAmpduNumSymbols st)%Q) ->
    PayloadDuration a txVector preamble frequency mpdutype incFlag st
    = (Ok da, sa) ->
    exists (db : Time) (sb : WifiPhy),
      PayloadDuration b txVector preamble frequency mpdutype incFlag st
      = (Ok db, sb)
      /\ da <= db.
Proof.
  intros txVector preamble frequency mpdutype incFlag st sa a b da Hrates Hab
    Hb _ Hlast Ha.
  destruct (GetModulationClass (GetMode txVector)) eqn:Hc;
    unfold MaxPayloadSize in Hb.
  - unfold GetPayloadDuration in Ha. rewrite Hc in Ha. discriminate Ha.
  - unfold GetPayloadDuration in *. rewrite Hc in *. unfold lift in *.
    destruct (DsssPayloadDuration_mono GetDataRate txVector Hrates a b)
      as (da' & db & Ea & Eb & Hle); [lia|lia|].
    rewrite Ea in Ha. injection Ha as <- <-. rewrite Eb. eauto.
  - unfold GetPayloadDuration in *. rewrite Hc in *. unfold lift in *.
    destruct (DsssPayloadDuration_mono GetDataRate txVector Hrates a b)
      as (da' & db & Ea & Eb & Hle); [lia|lia|].
    rewrite Ea in Ha. injection Ha as <- <-. rewrite Eb. eauto.
  - eapply symbol_class_mono; try eassumption; [rewrite Hc; reflexivity|lia].
  - eapply symbol_class_mono; try eassumption; [rewrite Hc; reflexivity|lia].
  - eapply symbol_class_mono; try eassumption; [rewrite Hc; reflexivity|lia].
  - eapply symbol_class_mono; try eassumption; [rewrite Hc; reflexivity|lia].
  - unfold GetPayloadDuration in *. rewrite Hc in *. unfold lift in *.
    injection Ha as Ha <-.
    destruct (DmgCtrl_mono a b txVector da) as (db & -> & Hle);
      [lia|lia|exact Ha|]. eauto.
  - unfold GetPayloadDuration in *. rewrite Hc in *. unfold lift in *.
    injection Ha as Ha <-.
    destruct (DmgOfdm_mono OFDMBRPMin txVector a b da) as (db & -> & Hle);
      [lia|lia|exact Ha|]. eauto.
  - unfold GetPayloadDuration in *. rewrite Hc in *. unfold lift in *.
    injection Ha as Ha <-.
    destruct (DmgSc_mono OFDMSCMin txVector a b da) as (db & -> & Hle);
      [lia|lia|exact Ha|]. eauto.
  - unfold GetPayloadDuration in *. rewrite Hc in *. unfold ret in *.
    injection Ha as <- <-. do 2 eexists. split; [reflexivity|lia].
Qed.

End Monotone.

(** C8, as stated, fails where [Nbits * 4] wraps around: with DMG_MCS1
    (code rate 1/4) a payload of 2^27 - 1 bytes takes 2788940255 ns and a
    payload of 2^27 bytes, whose coded bit count wraps to 0, takes 37 ns. *)
Lemma payload_monotone_fails_on_wrap : ~ payload_monotone_as_stated.
Proof.
  intros H.
  specialize (H SampleDataRate 0%Q 0%Q SampleDmgScTxVector WIFI_PREAMBLE_LONG
                60480%Q NORMAL_MPDU 0 WifiPhy_init WifiPhy_init WifiPhy_init
                (2 ^ 27 - 1) (2 ^ 27) 2788940255 37).
  assert (Hle : 2788940255 <= 37); [|lia].
  apply H; [lia|lia| |]; vm_compute; reflexivity.
Qed.

Lemma payload_duration_monotone_witness :
  exists (db : Time) (sb : WifiPhy),
    GetPayloadDuration SampleDataRate 0 0 1000 SampleOfdmTxVector
      WIFI_PREAMBLE_LONG 5180 NORMAL_MPDU 0 WifiPhy_init = (Ok db, sb)
    /\ 140000 <= db.
Proof.
  apply (payload_duration_monotone SampleDataRate 0 0 SampleOfdmTxVector
           WIFI_PREAMBLE_LONG 5180 NORMAL_MPDU 0 WifiPhy_init WifiPhy_init
           100 1000 140000).
  - exact SampleDataRate_in_range_ofdm.
  - lia.
  - vm_compute. discriminate.
  - discriminate.
  - discriminate.
  - reflexivity.
Defined.

(** ** The element container *)

Section ContainerFacts.

Variable ids : ElementIds.

Lemma deref_error h p e : deref h p = Err e -> e = NullDereference.
Proof.
  unfold deref. destruct p as [l|]; [destruct (h !! l)|]; congruence.
Qed.

Lemma SerializedSizeFrom_null h es :
  forall size, (exists id, (id, None) ∈ es) ->
               SerializedSizeFrom h size es = Err NullDereference.
Proof.
  induction es as [|[k p] es IH]; intros size [id Hin].
  - inversion Hin.
  - simpl. destruct (deref h p) as [e|e] eqn:E; simpl.
    + apply IH. exists id. apply elem_of_cons in Hin as [Hin|Hin]; [|exact Hin].
      injection Hin as <- <-. discriminate E.
    + f_equal. eapply deref_error; eassumption.
Qed.

Lemma SerializeFrom_null h es :
  (exists id, (id, None) ∈ es) -> SerializeFrom ids h es = Err NullDereference.
Proof.
  induction es as [|[k p] es IH]; intros [id Hin].
  - inversion Hin.
  - simpl. destruct (deref h p) as [e|e] eqn:E; simpl.
    + rewrite IH; [reflexivity|]. exists id.
      apply elem_of_cons in Hin as [Hin|Hin]; [|exact Hin].
      injection Hin as <- <-. discriminate E.
    + f_equal. eapply deref_error; eassumption.
Qed.

Lemma elem_of_in_order (m_map : gmap Z Ptr) id p :
  (id, p) ∈ in_order m_map <-> m_map !! id = Some p.
Proof.
  unfold in_order. rewrite merge_sort_Permutation.
  apply elem_of_map_to_list.
Qed.

(** C10.  Looking up an id the container does not hold returns the null
    element and files that null element under the id: the map has one
    entry more, the iteration over the map now meets the null entry, and a
    following [GetInformationElementsSerializedSize] or
    [SerializeInformationElements] calls through the null pointer. *)
Theorem lookup_of_absent_id_inserts_null :
  forall (h : Heap) (id : Z) (m_map : gmap Z Ptr),
    m_map !! id = None ->
    fst (GetInformationElement id m_map) = None
    /\ snd (GetInformationElement id m_map) !! id = Some None
    /\ size (snd (GetInformationElement id m_map)) = S (size m_map)
    /\ (id, None) ∈ in_order (snd (GetInformationElement id m_map))
    /\ GetInformationElementsSerializedSize h
         (snd (GetInformationElement id m_map)) = Err NullDereference
    /\ SerializeInformationElements ids h
         (snd (GetInformationElement id m_map)) = Err NullDereference.
Proof.
  intros h id m_map Hm. unfold GetInformationElement. rewrite Hm. simpl.
  assert (Hin : (id, None) ∈ in_order (<[id:=None]> m_map)).
  { apply elem_of_in_order. apply lookup_insert_eq. }
  repeat split.
  - apply lookup_insert_eq.
  - now apply map_size_insert_None.
  - exact Hin.
  - apply SerializedSizeFrom_null. now exists id.
  - apply SerializeFrom_null. now exists id.
Qed.


Lemma CreateForId_registered id p h :
  registered ids id = true ->
  exists c, CreateForId ids id p h = Create c h
            /\ forall n b, ElementId ids (mkElement c n b) = id.
Proof.
  unfold registered, CreateForId. intros H.
  repeat (match goal with
          | |- context [if ?x =? ?y then _ else _] =>
              destruct (Z.eqb_spec x y) as [->|?];
              [eexists; split; [reflexivity|intros; reflexivity]|]
          end).
  repeat (match goal with
          | H : context [?x =? ?y] |- _ =>
              destruct (Z.eqb_spec x y); [contradiction|]
          end).
  discriminate H.
Qed.

Lemma in_heap_alloc h m_map id e :
  in_heap h m_map -> in_heap (h ++ [e]) (<[id := Some (List.length h)]> m_map).
Proof.
  intros H k l. rewrite length_app. simpl.
  destruct (decide (id = k)) as [->|Hne].
  - rewrite lookup_insert_eq. intros [= <-]. lia.
  - rewrite lookup_insert_ne by assumption. intros Hk.
    specialize (H k l Hk). lia.
Qed.

Lemma pairs_of_alloc h m_map id e :
  in_heap h m_map ->
  pairs_of ids (h ++ [e]) (<[id := Some (List.length h)]> m_map)
  = <[id := Some (ElementId ids e, SerializeInformationField e)]>
      (pairs_of ids h m_map).
Proof.
  intros H. unfold pairs_of. rewrite fmap_insert. f_equal.
  - unfold deref. rewrite list_lookup_middle by reflexivity. reflexivity.
  - apply map_fmap_ext. intros k [l|] Hk; [|reflexivity].
    unfold deref. rewrite lookup_app_l by (eapply H; eassumption).
    reflexivity.
Qed.

Lemma DeserializeLoop_record fuel h m_map p e rest :
  well_formed_element ids e ->
  exists e',
    DeserializeLoop ids (S fuel) h m_map p (Serialize ids e ++ rest)
    = DeserializeLoop ids fuel (h ++ [e'])
        (<[ElementId ids e := Some (List.length h)]> m_map)
        (Some (List.length h)) rest
    /\ entry_of ids e' = entry_of ids e.
Proof.
  intros (Hid & Hreg & Hsize & Hlt).
  destruct (CreateForId_registered _ p h Hreg) as (c & Hc & Hidc).
  exists (mkElement c (GetInformationFieldSize e) (SerializeInformationField e)).
  split; [|unfold entry_of; rewrite Hidc; reflexivity].
  unfold Serialize, WriteU8. simpl.
  rewrite (Z.mod_small (ElementId ids e)) by lia.
  rewrite (Z.mod_small (GetInformationFieldSize e)) by lia.
  rewrite Hc. unfold Create, DeserializeElementBody, deref.
  rewrite list_lookup_middle by reflexivity. simpl.
  rewrite length_app.
  destruct (Z.ltb_spec (Z.of_nat (List.length (SerializeInformationField e)
                                  + List.length rest))
              (GetInformationFieldSize e)) as [Hl|_]; [lia|].
  simpl. rewrite Hsize, Nat2Z.id, take_app_length, drop_app_length.
  rewrite <- (Nat.add_0_r (List.length h)) at 1.
  rewrite insert_app_r. reflexivity.
Qed.

Lemma Serialize_length e : (2 <= List.length (Serialize ids e))%nat.
Proof. unfold Serialize, WriteU8. simpl. lia. Qed.

Lemma DeserializeLoop_records es :
  Forall (well_formed_element ids) es ->
  forall fuel h m_map p,
    in_heap h m_map ->
    (List.length (records ids es) <= fuel)%nat ->
    exists h' m_map',
      DeserializeLoop ids fuel h m_map p (records ids es) = Ok (h', m_map')
      /\ pairs_of ids h' m_map'
         = foldl (fun acc e => <[(entry_of ids e).1 := (entry_of ids e).2]> acc)
             (pairs_of ids h m_map) es.
Proof.
  induction 1 as [|e es He Hes IH]; intros fuel h m_map p Hh Hfuel.
  - exists h, m_map. split; [destruct fuel; reflexivity|reflexivity].
  - change (records ids (e :: es)) with (Serialize ids e ++ records ids es) in *.
    rewrite length_app in Hfuel.
    pose proof (Serialize_length e) as Hlen.
    destruct fuel as [|fuel]; [lia|].
    destruct (DeserializeLoop_record fuel h m_map p e (records ids es) He)
      as (e' & -> & He').
    destruct (IH fuel (h ++ [e'])
                (<[ElementId ids e := Some (List.length h)]> m_map)
                (Some (List.length h))) as (h' & m' & Hrun & Hpairs).
    + now apply in_heap_alloc.
    + lia.
    + exists h', m'. split; [exact Hrun|]. rewrite Hpairs.
      rewrite pairs_of_alloc by assumption.
      change (foldl ?f ?a (e :: es)) with (foldl f (f a e) es).
      assert (Hk : ElementId ids e' = ElementId ids e)
        by (unfold entry_of in He'; congruence).
      cbv beta. rewrite <- He'. unfold entry_of. simpl. rewrite Hk.
      reflexivity.
Qed.


Lemma SerializeFrom_well_formed h (es : list (Z * Ptr)) :
  (forall id p, (id, p) ∈ es ->
     exists e, deref h p = Ok e /\ ElementId ids e = id
               /\ well_formed_element ids e) ->
  exists els,
    SerializeFrom ids h es = Ok (records ids els)
    /\ Forall (well_formed_element ids) els
    /\ entry_of ids <$> els
       = prod_map id (fun p => match deref h p with
                               | Ok e => Some (ElementId ids e,
                                               SerializeInformationField e)
                               | Err _ => None
                               end) <$> es.
Proof.
  induction es as [|[k p] es IH]; intros H.
  - exists []. repeat split. constructor.
  - destruct (H k p) as (e & He & Hk & Hwf); [left|].
    destruct IH as (els & Hs & Hall & Hmap).
    { intros id' p' Hin. apply H. now right. }
    exists (e :: els).
    split; [simpl; rewrite He, Hs; reflexivity|].
    split; [now constructor|].
    rewrite !fmap_cons, Hmap. unfold entry_of, prod_map. simpl.
    rewrite He, Hk. reflexivity.
Qed.

Lemma foldl_insert_list_to_map {V : Type} (l : list (Z * V)) :
  foldl (fun acc kv => <[kv.1 := kv.2]> acc) (∅ : gmap Z V) l
  = list_to_map (rev l).
Proof.
  rewrite <- (rev_involutive l) at 1. generalize (rev l). clear l.
  intros l. induction l as [|[k v] l IH]; [reflexivity|].
  simpl rev. rewrite foldl_app. simpl. rewrite IH. reflexivity.
Qed.

(** C9.  A container whose entries all point to well-formed elements (an
    8-bit id with a case in the switch, filed under that id, reporting the
    size of the field it writes) serializes to a byte string from which
    [DeserializeInformationElements], started on an empty container,
    rebuilds a container with the same (id, body) pair under every id. *)
Theorem serialize_deserialize_roundtrip :
  forall (h h0 : Heap) (m_map : gmap Z Ptr),
    well_formed ids h m_map ->
    exists (bytes : list Z) (h' : Heap) (m_map' : gmap Z Ptr),
      SerializeInformationElements ids h m_map = Ok bytes
      /\ DeserializeInformationElements ids h0 ∅ bytes = Ok (h', m_map')
      /\ pairs_of ids h' m_map' = pairs_of ids h m_map.
Proof.
  intros h h0 m_map Hwf.
  destruct (SerializeFrom_well_formed h (in_order m_map))
    as (els & Hser & Hall & Hmap).
  { intros id p Hin. apply Hwf. now apply elem_of_in_order. }
  destruct (DeserializeLoop_records els Hall (List.length (records ids els)) h0 ∅
              None) as (h' & m' & Hrun & Hpairs).
  { intros id l Hl. rewrite lookup_empty in Hl. discriminate. }
  { reflexivity. }
  exists (records ids els), h', m'. repeat split; [exact Hser|exact Hrun|].
  rewrite Hpairs. unfold pairs_of at 1. rewrite fmap_empty.
  rewrite <- (foldl_fmap (fun acc kv => <[kv.1 := kv.2]> acc) ∅ els (entry_of ids)).
  rewrite foldl_insert_list_to_map, Hmap.
  symmetry. apply list_to_map_flip. unfold pairs_of.
  rewrite map_to_list_fmap, <- Permutation_rev. unfold in_order.
  now rewrite merge_sort_Permutation.
Qed.

End ContainerFacts.

Lemma lookup_of_absent_id_inserts_null_witness :
  SampleContainer !! 42 = None
  /\ fst (GetInformationElement 42 SampleContainer) = None
  /\ size (snd (GetInformationElement 42 SampleContainer)) = 3%nat
  /\ SerializeInformationElements SampleElementIds SampleHeap
       (snd (GetInformationElement 42 SampleContainer))
     = Err NullDereference.
Proof.
  assert (H : SampleContainer !! 42 = None) by reflexivity.
  split; [exact H|].
  pose proof (lookup_of_absent_id_inserts_null SampleElementIds SampleHeap 42
                SampleContainer H) as (H1 & _ & H3 & _ & _ & H6).
  split; [exact H1|]. split; [exact H3|exact H6].
Defined.

Lemma SampleContainer_well_formed :
  well_formed SampleElementIds SampleHeap SampleContainer.
Proof.
  intros id p H. unfold SampleContainer in H.
  apply lookup_insert_Some in H as [[<- <-]|[_ H]].
  { eexists. split; [reflexivity|]. split; [reflexivity|].
    repeat split; vm_compute; congruence. }
  apply lookup_insert_Some in H as [[<- <-]|[_ H]].
  { eexists. split; [reflexivity|]. split; [reflexivity|].
    repeat split; vm_compute; congruence. }
  rewrite lookup_empty in H. discriminate H.
Defined.

Lemma serialize_deserialize_roundtrip_witness :
  exists (bytes : list Z) (h' : Heap) (m_map' : gmap Z Ptr),
    SerializeInformationElements SampleElementIds SampleHeap SampleContainer
    = Ok bytes
    /\ DeserializeInformationElements SampleElementIds [] ∅ bytes
       = Ok (h', m_map')
    /\ pairs_of SampleElementIds h' m_map'
       = pairs_of SampleElementIds SampleHeap SampleContainer.
Proof.
  apply (serialize_deserialize_roundtrip SampleElementIds SampleHeap []
           SampleContainer).
  exact SampleContainer_well_formed.
Defined.

(** Scenario C of the specification on the sample container: the element
    with id 1 is written before the element with id 45, although it was
    added last. *)
Example SampleContainer_bytes :
  SerializeInformationElements SampleElementIds SampleHeap SampleContainer
  = Ok [1; 2; 130; 132; 45; 3; 17; 18; 19].
Proof. vm_compute. reflexivity. Qed.

(** ** Header modes, transmit vector validity and the registered modes *)

Lemma MicroSeconds_small (v : Z) :
  0 <= v <= 1000000000000 -> MicroSeconds v = v * 1000.
Proof.
  intros Hv. unfold MicroSeconds.
  rewrite NumFacts.wrap64_small by lia. apply int64_of_uint64_small. lia.
Qed.

Lemma NanoSeconds_small (v : Z) :
  0 <= v <= 1000000000000 -> NanoSeconds v = v.
Proof. intros Hv. apply int64_of_uint64_small. lia. Qed.

Lemma names_distinct_NoDup (names : list string) :
  names_distinct names = true -> List.NoDup names.
Proof.
  induction names as [|name names IH]; intros H; [constructor|].
  simpl in H. apply andb_prop in H as [H1 H2].
  constructor; [|now apply IH].
  intros Hin. apply negb_true_iff in H1.
  assert (existsb (String.eqb name) names = true) as E; [|congruence].
  apply existsb_exists. exists name. split; [exact Hin|apply String.eqb_refl].
Qed.

Lemma same_name_same_mode (modes : list WifiMode) (a b : WifiMode) :
  List.NoDup (List.map GetUniqueName modes) ->
  In a modes -> In b modes -> GetUniqueName a = GetUniqueName b -> a = b.
Proof.
  induction modes as [|m modes IH]; intros Hnd Ha Hb Hn; [contradiction|].
  simpl in Hnd. inversion Hnd as [|? ? Hnotin Hnd']; subst.
  destruct Ha as [<-|Ha], Hb as [<-|Hb].
  - reflexivity.
  - exfalso. apply Hnotin. rewrite Hn. now apply in_map.
  - exfalso. apply Hnotin. rewrite <- Hn. now apply in_map.
  - now apply IH.
Qed.

Lemma Constructor_classes :
  List.Forall (fun mode => GetModulationClass mode <> WIFI_MOD_CLASS_UNKNOWN
                           /\ GetModulationClass mode
                              <> WIFI_MOD_CLASS_DMG_LP_SC) Constructor.
Proof. repeat (constructor; [split; discriminate|]). constructor. Qed.

(** X1.  The header mode is a fixed point of [GetPlcpHeaderMode]: the mode
    it returns for a payload mode is, under the same preamble and transmit
    vector, its own header mode. *)
Theorem plcp_header_mode_idempotent :
  forall (payloadMode : WifiMode) (preamble : WifiPreamble)
         (txVector : WifiTxVector) (headerMode : WifiMode),
    GetPlcpHeaderMode payloadMode preamble txVector = Ok headerMode ->
    GetPlcpHeaderMode headerMode preamble txVector = Ok headerMode.
Proof.
  intros m p tv h. unfold GetPlcpHeaderMode.
  destruct (GetModulationClass m); try discriminate;
    try (intros [= <-]; reflexivity);
    try (destruct (GetChannelWidth tv =? 5) eqn:E5;
         [|destruct (GetChannelWidth tv =? 10) eqn:E10];
         intros [= <-]; simpl; rewrite ?E5, ?E10; reflexivity).
  all: destruct (_ || _) eqn:E; intros [= <-]; simpl.
  all: try (rewrite orb_true_r; reflexivity).
  all: apply orb_false_elim in E as [-> _]; reflexivity.
Qed.

(** X2.  Every mode the [Constructor] registers has a header mode, whatever
    the preamble and the transmit vector, and that header mode is itself a
    registered, mandatory mode. *)
Theorem registered_mode_has_mandatory_header_mode :
  forall (payloadMode : WifiMode) (preamble : WifiPreamble)
         (txVector : WifiTxVector),
    In payloadMode Constructor ->
    exists headerMode : WifiMode,
      GetPlcpHeaderMode payloadMode preamble txVector = Ok headerMode
      /\ IsMandatory headerMode = true
      /\ In headerMode Constructor.
Proof.
  intros m p tv Hin.
  destruct (proj1 (List.Forall_forall _ _) Constructor_classes m Hin)
    as [H1 H2].
  unfold GetPlcpHeaderMode.
  destruct (GetModulationClass m); try contradiction;
    repeat match goal with
           | |- context [if ?c then _ else _] => destruct c
           end;
    eexists; (split; [reflexivity|]); (split; [reflexivity|]);
    unfold Constructor; repeat (first [left; reflexivity | right]).
Qed.

(** X3.  Two registered modes that [operator==] takes for equal (they have
    the same unique name) are the same mode: no name is used twice in the
    catalog the [Constructor] registers. *)
Theorem registered_modes_equal_by_name :
  forall a b : WifiMode,
    In a Constructor -> In b Constructor ->
    WifiMode_eqb a b = true -> a = b.
Proof.
  intros a b Ha Hb E. apply (same_name_same_mode Constructor); try assumption.
  - apply names_distinct_NoDup. vm_compute. reflexivity.
  - now apply String.eqb_eq.
Qed.

(** X4.  [IsValidTxVector] rejects a transmit vector exactly in these
    cases: VhtMcs9 on 20 MHz with a number of streams other than 3 and 6,
    VhtMcs9 on 80 MHz with 6 streams or on 160 MHz with 3 streams, and
    VhtMcs6 on 80 MHz with 3 or 7 streams. *)
Theorem IsValidTxVector_rejects :
  forall txVector : WifiTxVector,
    IsValidTxVector txVector = false
    <-> (GetUniqueName (GetMode txVector) = "VhtMcs9"%string
         /\ ((GetChannelWidth txVector = 20 /\ GetNss txVector <> 3
              /\ GetNss txVector <> 6)
             \/ (GetChannelWidth txVector = 80 /\ GetNss txVector = 6)
             \/ (GetChannelWidth txVector = 160 /\ GetNss txVector = 3)))
        \/ (GetUniqueName (GetMode txVector) = "VhtMcs6"%string
            /\ GetChannelWidth txVector = 80
            /\ (GetNss txVector = 3 \/ GetNss txVector = 7)).
Proof.
  intros tv. unfold IsValidTxVector.
  destruct (String.eqb_spec (GetUniqueName (GetMode tv)) "VhtMcs9") as [E9|E9];
    destruct (String.eqb_spec (GetUniqueName (GetMode tv)) "VhtMcs6")
      as [E6|E6];
    try (rewrite E9 in E6; discriminate E6);
    destruct (Z.eqb_spec (GetChannelWidth tv) 20);
    destruct (Z.eqb_spec (GetChannelWidth tv) 80);
    destruct (Z.eqb_spec (GetChannelWidth tv) 160);
    destruct (Z.eqb_spec (GetNss tv) 3);
    destruct (Z.eqb_spec (GetNss tv) 6);
    destruct (Z.eqb_spec (GetNss tv) 7);
    simpl; try lia; (split; [try discriminate|]);
    intuition (try lia; try congruence).
Qed.

(** ** The PLCP overhead and whole transmissions *)

Lemma training_duration (txVector : WifiTxVector) :
  0 <= GetNss txVector < 256 -> 0 <= GetNess txVector < 256 ->
  exists Ndltf Neltf : Z,
    0 <= Ndltf <= 8 /\ 0 <= Neltf <= 4
    /\ forall preamble : WifiPreamble,
         GetPlcpHtTrainingSymbolDuration preamble txVector
         = match preamble with
           | WIFI_PREAMBLE_HT_MF => 4000 + 4000 * Ndltf + 4000 * Neltf
           | WIFI_PREAMBLE_HT_GF => 4000 * Ndltf + 4000 * Neltf
           | WIFI_PREAMBLE_VHT => 4000 + 4000 * Ndltf
           | _ => 0
           end.
Proof.
  intros Hs He. unfold GetPlcpHtTrainingSymbolDuration.
  set (Nd := if GetNss txVector <? 3 then GetNss txVector
             else if GetNss txVector <? 5 then 4
             else if GetNss txVector <? 7 then 6 else 8).
  set (Ne := if GetNess txVector <? 3 then GetNess txVector else 4).
  assert (0 <= Nd <= 8).
  { unfold Nd. destruct (Z.ltb_spec (GetNss txVector) 3); [lia|].
    destruct (GetNss txVector <? 5); [lia|].
    destruct (GetNss txVector <? 7); lia. }
  assert (0 <= Ne <= 4).
  { unfold Ne. destruct (Z.ltb_spec (GetNess txVector) 3); lia. }
  exists Nd, Ne. split; [assumption|]. split; [assumption|].
  intros preamble. destruct preamble; rewrite MicroSeconds_small by lia; lia.
Qed.

Section TxDurationFacts.

Variable GetDataRate : WifiMode -> Z -> bool -> Z -> Z.
Variable OFDMSCMin : Q.
Variable OFDMBRPMin : Q.

Local Abbreviation PayloadDuration :=
  (GetPayloadDuration GetDataRate OFDMSCMin OFDMBRPMin).
Local Abbreviation PlcpDuration :=
  (CalculatePlcpPreambleAndHeaderDuration GetDataRate).
Local Abbreviation TxDuration :=
  (CalculateTxDuration GetDataRate OFDMSCMin OFDMBRPMin).

Lemma PlcpDuration_none (txVector : WifiTxVector) :
  PlcpDuration txVector WIFI_PREAMBLE_NONE = Ok 0.
Proof. reflexivity. Qed.

(** X5.  A frame sent without a preamble (every MPDU of an A-MPDU after the
    first) has no PLCP overhead: [CalculateTxDuration] is
    [GetPayloadDuration], in the value or the error it returns and in what
    it does to the accumulator, for every transmit vector. *)
Theorem tx_duration_without_preamble :
  forall (size : Z) (txVector : WifiTxVector) (frequency : Q)
         (mpdutype : mpduType) (incFlag : Z) (st : WifiPhy),
    TxDuration size txVector WIFI_PREAMBLE_NONE frequency mpdutype incFlag st
    = PayloadDuration size txVector WIFI_PREAMBLE_NONE frequency mpdutype
        incFlag st.
Proof.
  intros. unfold CalculateTxDuration, bind, lift. rewrite PlcpDuration_none.
  destruct (PayloadDuration _ _ _ _ _ _ _) as [[d|e] st']; reflexivity.
Qed.

(** X6.  For an HT mode the greenfield preamble saves exactly 8
    microseconds of PLCP overhead against the mixed-format preamble, for
    every number of streams and extension streams. *)
Theorem greenfield_saves_8_microseconds :
  forall txVector : WifiTxVector,
    GetModulationClass (GetMode txVector) = WIFI_MOD_CLASS_HT ->
    0 <= GetNss txVector < 256 -> 0 <= GetNess txVector < 256 ->
    exists mixed : Time,
      PlcpDuration txVector WIFI_PREAMBLE_HT_MF = Ok mixed
      /\ PlcpDuration txVector WIFI_PREAMBLE_HT_GF = Ok (mixed - 8000).
Proof.
  intros tv Hc Hs He.
  destruct (training_duration tv Hs He) as (Nd & Ne & HNd & HNe & Ht).
  unfold CalculatePlcpPreambleAndHeaderDuration, GetPlcpPreambleDuration,
    GetPlcpHeaderDuration.
  rewrite Hc, !Ht.
  cbn [is_preamble_none rbind GetPlcpHtSigHeaderDuration
       GetPlcpVhtSigA1Duration GetPlcpVhtSigA2Duration
       GetPlcpVhtSigBDuration].
  eexists. split; [reflexivity|]. f_equal.
  rewrite !MicroSeconds_small by lia. lia.
Qed.

(** X7.  The PLCP overhead is defined for every modulation class a mode can
    have and for every preamble, it is never negative and never more than
    252 microseconds. *)
Theorem plcp_overhead_bounded :
  forall (txVector : WifiTxVector) (preamble : WifiPreamble),
    GetModulationClass (GetMode txVector) <> WIFI_MOD_CLASS_UNKNOWN ->
    0 <= GetNss txVector < 256 -> 0 <= GetNess txVector < 256 ->
    exists plcp : Time,
      PlcpDuration txVector preamble = Ok plcp /\ 0 <= plcp <= 252000.
Proof.
  intros tv p Hc Hs He.
  destruct (training_duration tv Hs He) as (Nd & Ne & HNd & HNe & Ht).
  unfold CalculatePlcpPreambleAndHeaderDuration, GetPlcpPreambleDuration,
    GetPlcpHeaderDuration.
  rewrite Ht. clear Ht.
  destruct (GetModulationClass (GetMode tv)); try contradiction;
    destruct p; cbn [is_preamble_none];
    repeat match goal with
           | |- context [if ?c then _ else _] => destruct c
           end;
    cbn [rbind GetPlcpHtSigHeaderDuration GetPlcpVhtSigA1Duration
         GetPlcpVhtSigA2Duration GetPlcpVhtSigBDuration];
    (eexists; split; [reflexivity|]);
    rewrite ?MicroSeconds_small, ?NanoSeconds_small by lia; lia.
Qed.

(** X8.  A low-power single-carrier mode (DMG_MCS25 to DMG_MCS31) has PLCP
    durations but no payload model: with a long or short preamble a frame
    of any size takes 2473 ns, the preamble and the header alone, and
    [GetPlcpHeaderMode] stops with a fatal error. *)
Theorem low_power_sc_frames_have_no_payload_time :
  forall (size : Z) (txVector : WifiTxVector) (preamble : WifiPreamble)
         (frequency : Q) (mpdutype : mpduType) (incFlag : Z) (st : WifiPhy),
    GetModulationClass (GetMode txVector) = WIFI_MOD_CLASS_DMG_LP_SC ->
    preamble = WIFI_PREAMBLE_LONG \/ preamble = WIFI_PREAMBLE_SHORT ->
    TxDuration size txVector preamble frequency mpdutype incFlag st
    = (Ok 2473, st)
    /\ GetPlcpHeaderMode (GetMode txVector) preamble txVector
       = Err (FatalError "unsupported modulation class").
Proof.
  intros size tv p f mt flag st Hc Hp.
  unfold CalculateTxDuration, CalculatePlcpPreambleAndHeaderDuration,
    GetPayloadDuration, GetPlcpPreambleDuration, GetPlcpHeaderDuration,
    GetPlcpHeaderMode.
  rewrite Hc. destruct Hp as [-> | ->]; split; reflexivity.
Qed.

(** X9.  The result of [CalculateTxDuration] does not depend on which
    operand of its sum is evaluated first: where the PLCP part stops with
    an error, the payload part stops with the same error and leaves the
    accumulator alone. *)
Theorem tx_duration_order_of_evaluation :
  forall (size : Z) (txVector : WifiTxVector) (preamble : WifiPreamble)
         (frequency : Q) (mpdutype : mpduType) (incFlag : Z) (st : WifiPhy),
    CalculateTxDuration_payload_first GetDataRate OFDMSCMin OFDMBRPMin size
      txVector preamble frequency mpdutype incFlag st
    = TxDuration size txVector preamble frequency mpdutype incFlag st.
Proof.
  intros size tv p f mt flag st.
  unfold CalculateTxDuration_payload_first, CalculateTxDuration, bind, lift.
  destruct (PlcpDuration tv p) as [plcp|e] eqn:Hplcp.
  - destruct (PayloadDuration _ _ _ _ _ _ _) as [[d|e] st']; reflexivity.
  - assert (Hc : GetModulationClass (GetMode tv) = WIFI_MOD_CLASS_UNKNOWN
                 /\ e = FatalError "unsupported modulation class").
    { revert Hplcp.
      unfold CalculatePlcpPreambleAndHeaderDuration, GetPlcpPreambleDuration,
        GetPlcpHeaderDuration.
      destruct (is_preamble_none p); [discriminate|].
      destruct (GetModulationClass (GetMode tv));
        repeat match goal with
               | |- context [if ?c then _ else _] => destruct c
               end;
        try discriminate;
        try (destruct p; repeat match goal with
               | |- context [if ?c then _ else _] => destruct c
               end; discriminate).
      intros [= <-]. split; reflexivity. }
    destruct Hc as [Hc ->]. unfold GetPayloadDuration. rewrite Hc.
    reflexivity.
Qed.

End TxDurationFacts.

(** ** What the role and the commit flag do and do not change *)

Ltac split_matches :=
  repeat (cbv beta iota;
          match goal with
          | |- context [match ?x with _ => _ end] =>
              lazymatch type of x with
              | result _ => destruct x
              | bool => destruct x
              | WifiModulationClass => destruct x
              end
          end);
  cbv beta iota.

Section RoleFacts.

Variable GetDataRate : WifiMode -> Z -> bool -> Z -> Z.
Variable OFDMSCMin : Q.
Variable OFDMBRPMin : Q.

Local Abbreviation PayloadDuration :=
  (GetPayloadDuration GetDataRate OFDMSCMin OFDMBRPMin).
Local Abbreviation TxDuration :=
  (CalculateTxDuration GetDataRate OFDMSCMin OFDMBRPMin).

Lemma normal_mpdu_ignores_accumulator size txVector preamble frequency incFlag
    (st st0 : WifiPhy) :
  PayloadDuration size txVector preamble frequency NORMAL_MPDU incFlag st
  = (fst (PayloadDuration size txVector preamble frequency NORMAL_MPDU incFlag
            st0), st).
Proof.
  unfold GetPayloadDuration, OfdmPayloadDuration, OfdmSymbolsDuration,
    OfdmNumSymbols, HtPayloadDuration, HtSymbolsDuration, HtNumSymbols,
    bind, lift, ret, fail.
  cbn [is_mpdu_in_aggregate is_last_mpdu_in_aggregate is_normal_mpdu andb].
  destruct (GetModulationClass (GetMode txVector)); try reflexivity;
    destruct (is_preamble_none preamble); cbn [negb]; try reflexivity;
    split_matches; reflexivity.
Qed.

(** X10.  The overloads of [GetPayloadDuration] and [CalculateTxDuration]
    without role and commit flag are pure: called in any state of the
    A-MPDU accumulator they return what they return on a new [WifiPhy], and
    they leave the accumulator as it is. *)
Theorem plain_overloads_are_pure :
  forall (size : Z) (txVector : WifiTxVector) (preamble : WifiPreamble)
         (frequency : Q) (st : WifiPhy),
    GetPayloadDuration_plain GetDataRate OFDMSCMin OFDMBRPMin size txVector
      preamble frequency st
    = (fst (GetPayloadDuration_plain GetDataRate OFDMSCMin OFDMBRPMin size
              txVector preamble frequency WifiPhy_init), st)
    /\ CalculateTxDuration_plain GetDataRate OFDMSCMin OFDMBRPMin size txVector
         preamble frequency st
       = (fst (CalculateTxDuration_plain GetDataRate OFDMSCMin OFDMBRPMin size
                 txVector preamble frequency WifiPhy_init), st).
Proof.
  intros size tv p f st.
  unfold CalculateTxDuration_plain, CalculateTxDuration,
    GetPayloadDuration_plain, bind, lift.
  split; [apply normal_mpdu_ignores_accumulator|].
  destruct (CalculatePlcpPreambleAndHeaderDuration _ _ _); [|reflexivity].
  rewrite (normal_mpdu_ignores_accumulator size tv p f 0 st WifiPhy_init).
  rewrite (normal_mpdu_ignores_accumulator size tv p f 0 WifiPhy_init
             WifiPhy_init).
  destruct (fst _); reflexivity.
Qed.

(** X11.  The commit flag changes what a call does to the accumulator,
    never what it returns: two calls that differ in [incFlag] only return
    the same duration or the same error. *)
Theorem commit_flag_does_not_change_the_duration :
  forall (size : Z) (txVector : WifiTxVector) (preamble : WifiPreamble)
         (frequency : Q) (mpdutype : mpduType) (incFlag incFlag' : Z)
         (st : WifiPhy),
    fst (TxDuration size txVector preamble frequency mpdutype incFlag st)
    = fst (TxDuration size txVector preamble frequency mpdutype incFlag' st).
Proof.
  intros size tv p f mt flag flag' st.
  assert (H : fst (PayloadDuration size tv p f mt flag st)
              = fst (PayloadDuration size tv p f mt flag' st)).
  { unfold GetPayloadDuration, OfdmPayloadDuration, OfdmSymbolsDuration,
      OfdmNumSymbols, HtPayloadDuration, HtSymbolsDuration, HtNumSymbols,
      accumulate, reset, when, bind, lift, ret, fail, get, put.
    destruct (GetModulationClass (GetMode tv)); try reflexivity;
      destruct mt, (is_preamble_none p);
      cbn [is_mpdu_in_aggregate is_last_mpdu_in_aggregate is_normal_mpdu
           andb negb];
      try reflexivity;
      destruct (flag =? 1), (flag' =? 1); split_matches; reflexivity. }
  unfold CalculateTxDuration, bind, lift.
  destruct (CalculatePlcpPreambleAndHeaderDuration _ _ _); [|reflexivity].
  destruct (PayloadDuration size tv p f mt flag st) as [[d|e] s1],
    (PayloadDuration size tv p f mt flag' st) as [[d'|e'] s2];
    simpl in *; congruence.
Qed.

(** X12.  For an OFDM, ERP-OFDM, HT or VHT mode a plain MPDU without a
    preamble and a last MPDU of an A-MPDU with one are combinations the
    calculator refuses: the call stops with a fatal error, whatever the
    size and the data rate, and the accumulator keeps its contents even
    under [incFlag = 1]. *)
Theorem wrong_combination_is_fatal :
  forall (size : Z) (txVector : WifiTxVector) (preamble : WifiPreamble)
         (frequency : Q) (mpdutype : mpduType) (incFlag : Z) (st : WifiPhy),
    is_symbol_class (GetModulationClass (GetMode txVector)) = true ->
    (mpdutype = NORMAL_MPDU /\ preamble = WIFI_PREAMBLE_NONE)
    \/ (mpdutype = LAST_MPDU_IN_AGGREGATE /\ preamble <> WIFI_PREAMBLE_NONE) ->
    PayloadDuration size txVector preamble frequency mpdutype incFlag st
    = (Err (FatalError "Wrong combination of preamble and packet type"), st).
Proof.
  intros size tv p f mt flag st Hc Hw.
  unfold GetPayloadDuration, OfdmPayloadDuration, OfdmSymbolsDuration,
    OfdmNumSymbols, HtPayloadDuration, HtSymbolsDuration, HtNumSymbols,
    bind, fail.
  destruct (GetModulationClass (GetMode tv)); try discriminate Hc;
    destruct Hw as [[-> ->]|[-> Hp]]; try reflexivity;
    destruct p; try contradiction; reflexivity.
Qed.

End RoleFacts.

(** ** Durations of plain frames *)

Lemma SignalExtension_range txVector frequency mpdutype preamble :
  0 <= SignalExtension txVector frequency mpdutype preamble <= 6000.
Proof.
  unfold SignalExtension.
  destruct (GetModulationClass (GetMode txVector)); try lia;
    try destruct (_ && _); rewrite ?MicroSeconds_small by lia; lia.
Qed.

Lemma SignalExtension_ends txVector frequency preamble :
  preamble <> WIFI_PREAMBLE_NONE ->
  SignalExtension txVector frequency LAST_MPDU_IN_AGGREGATE WIFI_PREAMBLE_NONE
  = SignalExtension txVector frequency NORMAL_MPDU preamble.
Proof.
  intros Hp. unfold SignalExtension, ends_transmission.
  destruct preamble; try contradiction; reflexivity.
Qed.

Lemma Constructor_dmg_modes :
  List.Forall
    (fun mode =>
       (GetModulationClass mode = WIFI_MOD_CLASS_DMG_SC ->
        exists p, DmgScNcbpb mode = Ok p /\ DmgNcbits mode 0 = Ok 0)
       /\ (GetModulationClass mode = WIFI_MOD_CLASS_DMG_OFDM ->
           exists p, DmgOfdmNcbps mode = Ok p /\ DmgNcbits mode 0 = Ok 0))
    Constructor.
Proof.
  repeat (constructor;
          [split; intros Hc; try discriminate Hc;
           eexists; split; vm_compute; reflexivity|]).
  constructor.
Qed.

Lemma DmgSc_empty_payload (OFDMSCMin : Q) (txVector : WifiTxVector) (p : Z) :
  DmgScNcbpb (GetMode txVector) = Ok p ->
  DmgNcbits (GetMode txVector) 0 = Ok 0 ->
  GetTrainngFieldLength txVector = 0 ->
  DmgScPayloadDuration OFDMSCMin 0 txVector = Ok 37.
Proof.
  intros Hp Hc Ht. unfold DmgScPayloadDuration, DmgTrainingFloor.
  rewrite Hp, Ht. change (Num.wrap32 (0 * 8)) with 0. rewrite Hc.
  unfold DmgScNcbpb in Hp.
  repeat match type of Hp with
         | (if ?c then _ else _) = _ => destruct c
         end; try discriminate Hp; injection Hp as <-; reflexivity.
Qed.

Lemma DmgOfdm_empty_payload (OFDMBRPMin : Q) (txVector : WifiTxVector)
    (p : Z) :
  DmgOfdmNcbps (GetMode txVector) = Ok p ->
  DmgNcbits (GetMode txVector) 0 = Ok 0 ->
  GetTrainngFieldLength txVector = 0 ->
  DmgOfdmPayloadDuration OFDMBRPMin 0 txVector = Ok 0.
Proof.
  intros Hp Hc Ht. unfold DmgOfdmPayloadDuration, DmgTrainingFloor.
  rewrite Hp, Ht. change (Num.wrap32 (0 * 8)) with 0. rewrite Hc.
  unfold DmgOfdmNcbps in Hp.
  repeat match type of Hp with
         | (if ?c then _ else _) = _ => destruct c
         end; try discriminate Hp; injection Hp as <-; reflexivity.
Qed.

Section PlainFrames.

Variable GetDataRate : WifiMode -> Z -> bool -> Z -> Z.
Variable OFDMSCMin : Q.
Variable OFDMBRPMin : Q.

Local Abbreviation PayloadDuration :=
  (GetPayloadDuration GetDataRate OFDMSCMin OFDMBRPMin).
Local Abbreviation PlcpDuration :=
  (CalculatePlcpPreambleAndHeaderDuration GetDataRate).
Local Abbreviation TxDuration :=
  (CalculateTxDuration GetDataRate OFDMSCMin OFDMBRPMin).

Lemma PlcpDuration_defined (txVector : WifiTxVector)
    (preamble : WifiPreamble) :
  GetModulationClass (GetMode txVector) <> WIFI_MOD_CLASS_UNKNOWN ->
  exists plcp : Time, PlcpDuration txVector preamble = Ok plcp.
Proof.
  intros Hc.
  unfold CalculatePlcpPreambleAndHeaderDuration, GetPlcpPreambleDuration,
    GetPlcpHeaderDuration.
  destruct (is_preamble_none preamble); [eexists; reflexivity|].
  destruct (GetModulationClass (GetMode txVector)); try contradiction;
    repeat match goal with
           | |- context [if ?c then _ else _] => destruct c
           end;
    try (eexists; reflexivity);
    destruct preamble;
    repeat match goal with
           | |- context [if ?c then _ else _] => destruct c
           end;
    eexists; reflexivity.
Qed.

(** X13.  An A-MPDU of one subframe costs what a plain MPDU costs: on an
    empty accumulator the last MPDU of an A-MPDU gets the payload duration
    of a plain MPDU of the same size, for every OFDM, ERP-OFDM, HT and VHT
    mode. *)
Theorem lone_last_mpdu_costs_a_plain_mpdu :
  forall (size : Z) (txVector : WifiTxVector) (preamble : WifiPreamble)
         (frequency : Q) (incFlag incFlag' : Z),
    is_symbol_class (GetModulationClass (GetMode txVector)) = true ->
    rates_in_range GetDataRate (GetMode txVector) ->
    preamble <> WIFI_PREAMBLE_NONE ->
    0 <= size < 2 ^ 32 ->
    exists d : Time,
      PayloadDuration size txVector WIFI_PREAMBLE_NONE frequency
        LAST_MPDU_IN_AGGREGATE incFlag WifiPhy_init
      = (Ok d, WifiPhy_init)
      /\ PayloadDuration size txVector preamble frequency NORMAL_MPDU incFlag'
           WifiPhy_init
         = (Ok d, WifiPhy_init).
Proof.
  intros size tv p f flag flag' Hc Hr Hp Hs.
  destruct (WholeSymbols_duration GetDataRate tv Hc Hr size Hs) as [HW _].
  eexists. split; [|apply payload_normal; assumption].
  rewrite payload_last by (assumption || (simpl; lra)).
  cbn [m_totalAmpduSize m_totalAmpduNumSymbols WifiPhy_init].
  rewrite Z.add_0_l, NumFacts.wrap32_small by lia.
  set (W := WholeSymbols GetDataRate tv size) in *.
  assert (E : Qle_bool 0 (inject_Z W) = true).
  { apply Qle_bool_iff. now apply (inject_Z_le 0). }
  rewrite E. f_equal.
  - f_equal. rewrite (SignalExtension_ends tv f p Hp). f_equal.
    assert (Eq : ((inject_Z W - 0) * inject_Z (SymbolDuration tv)
                  == inject_Z (W * SymbolDuration tv))%Q)
      by (rewrite inject_Z_mult; ring).
    rewrite Eq. apply Qfloor_Z.
  - unfold commit. destruct (flag =? 1); reflexivity.
Qed.

(** X14.  For a DSSS or HR/DSSS mode the payload takes a whole number of
    microseconds, the payload bits over the 22 MHz data rate rounded up,
    whatever the preamble, the frequency and the role of the frame, and
    the call never touches the accumulator. *)
Theorem dsss_payload_duration :
  forall (size : Z) (txVector : WifiTxVector) (preamble : WifiPreamble)
         (frequency : Q) (mpdutype : mpduType) (incFlag : Z) (st : WifiPhy),
    GetModulationClass (GetMode txVector) = WIFI_MOD_CLASS_DSSS
    \/ GetModulationClass (GetMode txVector) = WIFI_MOD_CLASS_HR_DSSS ->
    rates_in_range GetDataRate (GetMode txVector) ->
    0 <= size < 2 ^ 32 ->
    PayloadDuration size txVector preamble frequency mpdutype incFlag st
    = (Ok (1000 * Qceiling (inject_Z (size * 8000000)
                            / inject_Z (GetDataRate (GetMode txVector) 22
                                          false 1))), st).
Proof.
  intros size tv p f mt flag st Hc Hr Hs.
  assert (E : PayloadDuration size tv p f mt flag st
              = (DsssPayloadDuration GetDataRate size tv, st)).
  { unfold GetPayloadDuration. destruct Hc as [-> | ->]; reflexivity. }
  rewrite E, (DsssPayloadDuration_formula GetDataRate tv Hr size Hs).
  do 3 f_equal. apply Qceiling_comp.
  pose proof (Hr 22 false 1) as Hrate.
  assert (1000 <= inject_Z (GetDataRate (GetMode tv) 22 false 1))%Q
    by (apply (inject_Z_le 1000); lia).
  rewrite inject_Z_mult. change (inject_Z 8000000) with 8000000%Q.
  field. lra.
Qed.

(** X15.  Every registered mode gets a duration for a plain frame: for a
    mode the [Constructor] registers, data rates in range, no training
    field, a preamble and a size up to the bound of its class (from 7 bytes
    on for the DMG control mode), [CalculateTxDuration] returns the PLCP
    overhead plus a payload duration that is not negative, and leaves the
    accumulator alone. *)
Theorem registered_mode_gets_a_duration :
  forall (size : Z) (txVector : WifiTxVector) (preamble : WifiPreamble)
         (frequency : Q) (incFlag : Z) (st : WifiPhy),
    In (GetMode txVector) Constructor ->
    rates_in_range GetDataRate (GetMode txVector) ->
    GetTrainngFieldLength txVector = 0 ->
    preamble <> WIFI_PREAMBLE_NONE ->
    0 <= size <= MaxPayloadSize (GetModulationClass (GetMode txVector)) ->
    (GetModulationClass (GetMode txVector) = WIFI_MOD_CLASS_DMG_CTRL ->
     7 <= size) ->
    exists plcp payload : Time,
      PlcpDuration txVector preamble = Ok plcp
      /\ TxDuration size txVector preamble frequency NORMAL_MPDU incFlag st
         = (Ok (plcp + payload), st)
      /\ 0 <= payload.
Proof.
  intros size tv p f flag st Hin Hr Ht Hp Hs H7.
  destruct (proj1 (List.Forall_forall _ _) Constructor_classes _ Hin)
    as [Hu Hlp].
  destruct (proj1 (List.Forall_forall _ _) Constructor_dmg_modes _ Hin)
    as [Hsc Hofdm].
  destruct (PlcpDuration_defined tv p Hu) as [plcp Hplcp].
  assert (Hpay : exists payload : Time,
             PayloadDuration size tv p f NORMAL_MPDU flag st
             = (Ok payload, st) /\ 0 <= payload).
  { destruct (is_symbol_class (GetModulationClass (GetMode tv))) eqn:Hsym.
    - assert (Hs' : 0 <= size < 2 ^ 32).
      { revert Hs. destruct (GetModulationClass (GetMode tv));
          try discriminate Hsym; simpl; lia. }
      eexists. split; [apply payload_normal; assumption|].
      destruct (WholeSymbols_duration GetDataRate tv Hsym Hr size Hs')
        as [HW _].
      pose proof (SignalExtension_range tv f NORMAL_MPDU p).
      pose proof (SymbolDuration_cases tv). nia.
    - unfold GetPayloadDuration, lift.
      destruct (GetModulationClass (GetMode tv)) eqn:Hc;
        try discriminate Hsym; try contradiction; simpl in Hs.
      + rewrite (DsssPayloadDuration_formula GetDataRate tv Hr) by lia.
        eexists. split; [reflexivity|].
        pose proof (Hr 22 false 1).
        assert (0 <= Qceiling (inject_Z size * 8
                               / (inject_Z (GetDataRate (GetMode tv) 22
                                              false 1) / 1000000))); [|lia].
        apply NumFacts.Qceiling_nonneg. apply Qdiv_nonneg.
        * assert (0 <= inject_Z size)%Q by (apply (inject_Z_le 0); lia). lra.
        * assert (1000 <= inject_Z (GetDataRate (GetMode tv) 22 false 1))%Q
            by (apply (inject_Z_le 1000); lia).
          apply Qlt_shift_div_l; [reflexivity|lra].
      + rewrite (DsssPayloadDuration_formula GetDataRate tv Hr) by lia.
        eexists. split; [reflexivity|].
        pose proof (Hr 22 false 1).
        assert (0 <= Qceiling (inject_Z size * 8
                               / (inject_Z (GetDataRate (GetMode tv) 22
                                              false 1) / 1000000))); [|lia].
        apply NumFacts.Qceiling_nonneg. apply Qdiv_nonneg.
        * assert (0 <= inject_Z size)%Q by (apply (inject_Z_le 0); lia). lra.
        * assert (1000 <= inject_Z (GetDataRate (GetMode tv) 22 false 1))%Q
            by (apply (inject_Z_le 1000); lia).
          apply Qlt_shift_div_l; [reflexivity|lra].
      + specialize (H7 eq_refl).
        rewrite DmgCtrl_without_training by (assumption || lia).
        eexists. split; [reflexivity|].
        apply NumFacts.Qceiling_nonneg. apply Qdiv_nonneg; [|reflexivity].
        apply (inject_Z_le 0).
        pose proof (DmgCtrlCodewords_positive size H7). lia.
      + destruct (Hofdm eq_refl) as (q & Hq & Hn).
        destruct (DmgOfdm_mono OFDMBRPMin tv 0 size 0) as (db & -> & Hdb);
          [lia|lia|now apply (DmgOfdm_empty_payload OFDMBRPMin tv q)|].
        eexists. split; [reflexivity|lia].
      + destruct (Hsc eq_refl) as (q & Hq & Hn).
        destruct (DmgSc_mono OFDMSCMin tv 0 size 37) as (db & -> & Hdb);
          [lia|lia|now apply (DmgSc_empty_payload OFDMSCMin tv q)|].
        eexists. split; [reflexivity|lia]. }
  destruct Hpay as (payload & Hpay & H0).
  exists plcp, payload. split; [exact Hplcp|]. split; [|exact H0].
  unfold CalculateTxDuration, bind, lift. rewrite Hplcp, Hpay. reflexivity.
Qed.

End PlainFrames.

(** ** Binary64: the error of a rounding *)

Module Binary64Facts.

Import Binary64.
Local Open Scope Q_scope.

Lemma pow2_pos (e : Z) : 0 < pow2 e.
Proof. apply Qpower_0_lt. reflexivity. Qed.

Lemma pow2_add (a b : Z) : pow2 (a + b) == pow2 a * pow2 b.
Proof. apply Qpower_plus. discriminate. Qed.

Lemma pow2_Z (e : Z) : (0 <= e)%Z -> pow2 e == inject_Z (2 ^ e).
Proof. intros He. unfold pow2. now rewrite Zpower_Qpower. Qed.

Lemma pow2_le (a b : Z) : (a <= b)%Z -> pow2 a <= pow2 b.
Proof. intros H. apply Qpower_le_compat_l; [exact H|discriminate]. Qed.

Lemma pow2_lt_inv (a b : Z) : pow2 a < pow2 b -> (a < b)%Z.
Proof.
  intros H. destruct (Z_lt_le_dec a b) as [|Hle]; [assumption|].
  apply pow2_le in Hle. lra.
Qed.

(** [ilog2 x] is the binary exponent of [x]. *)
Lemma ilog2_spec (x : Q) :
  0 < x -> pow2 (ilog2 x) <= x /\ x < pow2 (ilog2 x + 1).
Proof.
  intros Hx. destruct x as [n d]. unfold ilog2. cbn [Qnum Qden].
  assert (Hn : (0 < n)%Z) by (unfold Qlt in Hx; simpl in Hx; lia).
  rewrite (Qabs_pos (n # d)) by lra.
  rewrite (Z.abs_eq n) by lia.
  set (ln := Z.log2 n). set (ld := Z.log2 (Z.pos d)).
  destruct (Z.log2_spec n Hn) as [Hn1 Hn2].
  destruct (Z.log2_spec (Z.pos d) eq_refl) as [Hd1 Hd2].
  fold ln in Hn1, Hn2. fold ld in Hd1, Hd2.
  assert (Hln : (0 <= ln)%Z) by apply Z.log2_nonneg.
  assert (Hld : (0 <= ld)%Z) by apply Z.log2_nonneg.
  assert (En : n # d == inject_Z n / inject_Z (Z.pos d)) by apply Qmake_Qdiv.
  assert (Hdpos : 0 < inject_Z (Z.pos d)) by (unfold Qlt; simpl; lia).
  assert (Qn1 : pow2 ln <= inject_Z n)
    by (rewrite pow2_Z by lia; rewrite <- Zle_Qle; exact Hn1).
  assert (Qn2 : inject_Z n < pow2 (ln + 1))
    by (rewrite pow2_Z by lia; rewrite <- Zlt_Qlt; exact Hn2).
  assert (Qd1 : pow2 ld <= inject_Z (Z.pos d))
    by (rewrite pow2_Z by lia; rewrite <- Zle_Qle; exact Hd1).
  assert (Qd2 : inject_Z (Z.pos d) < pow2 (ld + 1))
    by (rewrite pow2_Z by lia; rewrite <- Zlt_Qlt; exact Hd2).
  assert (Up : n # d < pow2 (ln - ld + 1)).
  { rewrite En. apply Qlt_shift_div_r; [exact Hdpos|].
    apply Qlt_le_trans with (pow2 (ln + 1)); [exact Qn2|].
    replace (ln + 1)%Z with ((ln - ld + 1) + ld)%Z by lia.
    rewrite pow2_add. apply Qmult_le_l; [apply pow2_pos|exact Qd1]. }
  assert (Lo : pow2 (ln - ld - 1) <= n # d).
  { rewrite En. apply Qle_shift_div_l; [exact Hdpos|].
    apply Qle_trans with (pow2 ln); [|exact Qn1].
    replace ln with ((ln - ld - 1) + (ld + 1))%Z at 2 by lia.
    rewrite pow2_add. apply Qmult_le_l; [apply pow2_pos|].
    apply Qlt_le_weak. exact Qd2. }
  destruct (Qle_bool (pow2 (ln - ld)) (n # d)) eqn:Ht.
  - apply Qle_bool_iff in Ht. split; assumption.
  - assert (Hlt : n # d < pow2 (ln - ld)).
    { apply Qnot_le_lt. intros H. apply Qle_bool_iff in H. congruence. }
    split; [exact Lo|].
    replace (ln - ld - 1 + 1)%Z with (ln - ld)%Z by lia. exact Hlt.
Qed.

Lemma nearest_even_error (y : Q) :
  y - (1 # 2) <= inject_Z (Num.nearest_even y) <= y + (1 # 2).
Proof.
  unfold Num.nearest_even.
  pose proof (Qfloor_le y) as Hf. pose proof (Qlt_floor y) as Hc.
  rewrite inject_Z_plus in Hc. change (inject_Z 1) with 1 in Hc.
  destruct (Qcompare_spec (y - inject_Z (Qfloor y)) (1 # 2)) as [E|L|G].
  - destruct (Z.even (Qfloor y)); [|rewrite inject_Z_plus;
      change (inject_Z 1) with 1]; lra.
  - lra.
  - rewrite inject_Z_plus. change (inject_Z 1) with 1. lra.
Qed.

(** In the normal range a rounding moves a number by at most the unit
    roundoff, relatively. *)
Lemma round_error (x : Q) :
  pow2 (-1022) <= x ->
  x * (1 - unit_roundoff) <= round x <= x * (1 + unit_roundoff).
Proof.
  intros Hx. pose proof (pow2_pos (-1022)) as Hp.
  assert (Hx0 : 0 < x) by lra.
  unfold round. destruct (Qeq_bool x 0) eqn:E0.
  { apply Qeq_bool_iff in E0. lra. }
  destruct (ilog2_spec x Hx0) as [Hlo Hup].
  set (L := ilog2 x) in *.
  assert (HL : (-1022 <= L)%Z).
  { assert (pow2 (-1022) < pow2 (L + 1)) by lra.
    apply pow2_lt_inv in H. lia. }
  rewrite Z.max_l by lia.
  set (e := (L - 52)%Z).
  pose proof (pow2_pos e) as He.
  pose proof (nearest_even_error (x / pow2 e)) as [H1 H2].
  set (m := inject_Z (Num.nearest_even (x / pow2 e))) in *.
  assert (Ex : x / pow2 e * pow2 e == x) by (field; lra).
  assert (Hu : pow2 e * (1 # 2) <= x * unit_roundoff).
  { assert (Ee : pow2 e == pow2 L * pow2 (-52)).
    { unfold e. replace (L - 52)%Z with (L + -52)%Z by lia. apply pow2_add. }
    rewrite Ee.
    assert (Ec : pow2 (-52) * (1 # 2) == unit_roundoff) by reflexivity.
    assert (Eu : pow2 L * pow2 (-52) * (1 # 2) == pow2 L * unit_roundoff)
      by (rewrite <- Ec; ring).
    rewrite Eu. apply Qmult_le_compat_r; [exact Hlo|discriminate]. }
  assert (M1 : (x / pow2 e - (1 # 2)) * pow2 e <= m * pow2 e)
    by (apply Qmult_le_compat_r; lra).
  assert (M2 : m * pow2 e <= (x / pow2 e + (1 # 2)) * pow2 e)
    by (apply Qmult_le_compat_r; lra).
  assert (E1 : (x / pow2 e - (1 # 2)) * pow2 e == x - pow2 e * (1 # 2))
    by (field; lra).
  assert (E2 : (x / pow2 e + (1 # 2)) * pow2 e == x + pow2 e * (1 # 2))
    by (field; lra).
  rewrite E1 in M1. rewrite E2 in M2.
  split; lra.
Qed.

(** Integers below 2^53 are doubles. *)
Lemma round_int (x : Q) (z : Z) :
  x == inject_Z z -> (0 <= z < 2 ^ 53)%Z -> round x == inject_Z z.
Proof.
  intros E Hz. unfold round. destruct (Qeq_bool x 0) eqn:E0.
  { apply Qeq_bool_iff in E0. rewrite <- E. symmetry. exact E0. }
  assert (Hx : ~ x == 0) by (intros H; apply Qeq_bool_iff in H; congruence).
  assert (Hz0 : 0 <= x) by (rewrite E; change 0 with (inject_Z 0);
                            rewrite <- Zle_Qle; lia).
  assert (Hx0 : 0 < x) by (apply Qle_lteq in Hz0 as [H|H];
                           [exact H|now symmetry in H]).
  destruct (ilog2_spec x Hx0) as [Hlo _].
  set (L := ilog2 x) in *.
  assert (HL : (L < 53)%Z).
  { apply pow2_lt_inv. apply Qle_lt_trans with x; [exact Hlo|].
    rewrite E, pow2_Z by lia. rewrite <- Zlt_Qlt. lia. }
  set (e := Z.max (L - 52) (-1074)).
  assert (He : (e <= 0)%Z) by (unfold e; lia).
  pose proof (pow2_pos e) as Hpe.
  assert (Ee : pow2 e * inject_Z (2 ^ (- e)) == 1).
  { rewrite <- pow2_Z by lia. rewrite <- pow2_add.
    replace (e + - e)%Z with 0%Z by lia. reflexivity. }
  assert (Ey : x / pow2 e == inject_Z (z * 2 ^ (- e))).
  { rewrite inject_Z_mult, E.
    apply Qmult_inj_r with (pow2 e); [lra|].
    transitivity (inject_Z z); [field; lra|].
    rewrite <- Qmult_assoc, (Qmult_comm (inject_Z (2 ^ (- e)))), Ee. ring. }
  rewrite (nearest_even_integer _ _ Ey).
  rewrite inject_Z_mult, <- Qmult_assoc.
  rewrite (Qmult_comm (inject_Z (2 ^ (- e)))), Ee. ring.
Qed.

(** The same for the numbers of this file, none of which is below
    10^-12. *)
Lemma round_rel (x : Q) :
  1 # 1000000000000 <= x ->
  x * (1 - unit_roundoff) <= round x <= x * (1 + unit_roundoff).
Proof.
  intros Hx. apply round_error.
  apply Qle_trans with (1 # 1000000000000); [|exact Hx].
  apply Qle_bool_iff. vm_compute. reflexivity.
Qed.

Lemma div_ok (x y : Q) : 0 < y -> div x y = Ok (round (x / y)).
Proof.
  intros Hy. unfold div. destruct (Qeq_bool y 0) eqn:E; [|reflexivity].
  apply Qeq_bool_iff in E. lra.
Qed.

Lemma of_int_exact (z : Z) :
  (0 <= z < 2 ^ 53)%Z -> of_int z == inject_Z z.
Proof. intros Hz. apply round_int; [reflexivity|exact Hz]. Qed.

(** Sums and products of integers are exact below 2^53. *)
Lemma mul_exact (x y : Q) (a b : Z) :
  x == inject_Z a -> y == inject_Z b -> (0 <= a * b < 2 ^ 53)%Z ->
  mul x y == inject_Z (a * b).
Proof.
  intros Hx Hy H. apply round_int; [|exact H].
  now rewrite Hx, Hy, inject_Z_mult.
Qed.

Lemma add_exact (x y : Q) (a b : Z) :
  x == inject_Z a -> y == inject_Z b -> (0 <= a + b < 2 ^ 53)%Z ->
  add x y == inject_Z (a + b).
Proof.
  intros Hx Hy H. apply round_int; [|exact H].
  now rewrite Hx, Hy, inject_Z_plus.
Qed.

End Binary64Facts.

(** ** The symbol-based classes in binary64 *)

Lemma accumulate64_run size n st :
  Binary64Phy.accumulate 1 size n st
  = (Ok tt, mkWifiPhy (Num.wrap32 (m_totalAmpduSize st + size))
              (Binary64.add (m_totalAmpduNumSymbols st) n)).
Proof. reflexivity. Qed.

(** The duration of [n] symbols: the product is rounded, then
    truncated. *)
Lemma symbols_duration64 (n : Q) (t : Z) :
  3600 <= t <= 16000 ->
  (1 # 1000000000000 <= n)%Q -> (n * inject_Z t <= 39000000000000000)%Q ->
  exists d : Time,
    NanoSecondsD (Binary64.mul n (Binary64.of_int t)) = Ok d
    /\ (n * inject_Z t * (1 - Binary64.unit_roundoff) - 1 <= inject_Z d
        <= n * inject_Z t * (1 + Binary64.unit_roundoff))%Q.
Proof.
  intros Ht Hn1 Hn2.
  assert (Et : (Binary64.of_int t == inject_Z t)%Q)
    by (apply Binary64Facts.of_int_exact; lia).
  assert (H1 : (3600 <= inject_Z t)%Q) by (apply (inject_Z_le 3600); lia).
  assert (H2 : (inject_Z t <= 16000)%Q) by (apply (inject_Z_le _ 16000); lia).
  unfold Binary64.mul. set (y := (n * Binary64.of_int t)%Q).
  assert (Ey : (y == n * inject_Z t)%Q) by (unfold y; now rewrite Et).
  assert (Hy1 : (1 # 1000000000000 <= y)%Q) by (rewrite Ey; nra).
  assert (Hy2 : (y <= 39000000000000000)%Q) by (rewrite Ey; exact Hn2).
  pose proof (Binary64Facts.round_rel y Hy1) as Hp.
  set (p := Binary64.round y) in *.
  unfold Binary64.unit_roundoff in *.
  rewrite NanoSecondsD_small by lra.
  eexists. split; [reflexivity|]. rewrite <- Ey.
  pose proof (Qfloor_le p). pose proof (Qlt_floor p) as Hf.
  rewrite inject_Z_plus in Hf. change (inject_Z 1) with 1%Q in Hf.
  split; lra.
Qed.

(** A whole number of symbols lasts exactly as long. *)
Lemma whole_symbols_duration64 (n : Q) (w t : Z) :
  (n == inject_Z w)%Q -> 3600 <= t <= 16000 -> 0 <= w ->
  w * t < 2 ^ 53 ->
  NanoSecondsD (Binary64.mul n (Binary64.of_int t)) = Ok (w * t).
Proof.
  intros Hn Ht Hw Hwt.
  assert (E : (Binary64.mul n (Binary64.of_int t) == inject_Z (w * t))%Q).
  { apply Binary64Facts.mul_exact;
      [exact Hn|apply Binary64Facts.of_int_exact; lia|nia]. }
  assert (Hb : (inject_Z (w * t) <= 40000000000000000)%Q)
    by (apply (inject_Z_le _ 40000000000000000); lia).
  assert (H0 : (0 <= inject_Z (w * t))%Q) by (apply (inject_Z_le 0); nia).
  rewrite NanoSecondsD_small by (rewrite E; assumption).
  now rewrite (Qfloor_comp _ _ E), Qfloor_Z.
Qed.

Lemma Bits_exact (txVector : WifiTxVector) :
  exists O : Z,
    16 <= O <= 52
    /\ ServiceAndTailBits txVector = inject_Z O
    /\ forall size : Z,
         0 <= size < 2 ^ 32 ->
         (Binary64Phy.Bits txVector size == inject_Z (O + 8 * size))%Q.
Proof.
  assert (H8 : forall size, 0 <= size < 2 ^ 32 ->
            (Binary64.add 16 (Binary64.mul (Binary64.of_int size) 8)
             == inject_Z (16 + size * 8))%Q).
  { intros size Hs. apply Binary64Facts.add_exact; [reflexivity| |lia].
    apply Binary64Facts.mul_exact;
      [apply Binary64Facts.of_int_exact; lia|reflexivity|lia]. }
  assert (Hgen : forall nes : Z, 1 <= nes <= 6 ->
            forall size, 0 <= size < 2 ^ 32 ->
            (Binary64.add
               (Binary64.add 16 (Binary64.mul (Binary64.of_int size) 8))
               (Binary64.mul 6 (inject_Z nes))
             == inject_Z (16 + 6 * nes + 8 * size))%Q).
  { intros nes Hn size Hs.
    replace (16 + 6 * nes + 8 * size) with ((16 + size * 8) + 6 * nes) by lia.
    apply Binary64Facts.add_exact; [now apply H8| |lia].
    apply Binary64Facts.mul_exact; [reflexivity|reflexivity|lia]. }
  unfold Binary64Phy.Bits, ServiceAndTailBits.
  destruct (GetModulationClass (GetMode txVector));
    first
      [ solve [ exists 22; split; [lia|]; split; [reflexivity|];
                intros size Hs;
                replace (22 + 8 * size) with ((16 + size * 8) + 6) by lia;
                apply Binary64Facts.add_exact; [now apply H8|reflexivity|lia] ]
      | destruct (HtNes_cases txVector) as [-> | [-> | [-> | [-> | ->]]]];
        [ exists (16 + 6 * 1) | exists (16 + 6 * 2) | exists (16 + 6 * 3)
        | exists (16 + 6 * 4) | exists (16 + 6 * 6) ];
        (split; [lia|]; split; [reflexivity|];
         intros size Hs; apply Hgen; [lia|exact Hs]) ].
Qed.

Lemma Z_le_of_Q (a b : Z) (e : Q) :
  (inject_Z a <= inject_Z b + e)%Q -> (e < 1)%Q -> a <= b.
Proof.
  intros H He. apply Z.lt_succ_r. unfold Z.succ. rewrite Zlt_Qlt.
  rewrite inject_Z_plus. change (inject_Z 1) with 1%Q. lra.
Qed.

Section Symbols64.

Variable GetDataRate : WifiMode -> Z -> bool -> Z -> Z.
Variable OFDMSCMin : Q.
Variable OFDMBRPMin : Q.
Variable txVector : WifiTxVector.
Hypothesis Hclass :
  GetModulationClass (GetMode txVector) = WIFI_MOD_CLASS_OFDM
  \/ GetModulationClass (GetMode txVector) = WIFI_MOD_CLASS_HT
  \/ GetModulationClass (GetMode txVector) = WIFI_MOD_CLASS_VHT.
Hypothesis Hrates : rates_in_range GetDataRate (GetMode txVector).
Variable frequency : Q.
Variable O : Z.
Hypothesis HO1 : 16 <= O <= 52.
Hypothesis HO :
  forall size : Z,
    0 <= size < 2 ^ 32 ->
    (Binary64Phy.Bits txVector size == inject_Z (O + 8 * size))%Q.

Local Abbreviation T := (inject_Z (SymbolDuration txVector)).
Local Abbreviation K := (inject_Z (StbcFactor txVector)).
Local Abbreviation D := (Binary64Phy.Divisor GetDataRate txVector).
Local Abbreviation Ne := (D / K)%Q.
Local Abbreviation u := Binary64.unit_roundoff.

(** The bits of a symbol, as computed, against the symbol duration. *)
Lemma bits_per_symbol (r t : Z) :
  1000 <= r <= 1000000000000 -> 3600 <= t <= 16000 ->
  let N := Binary64.round
             (Binary64.of_int (Num.wrap64 (r * t)) / 1000000000) in
  (inject_Z t * (999999999 # 1000000000000000) <= N
   <= inject_Z t * (1000000001 # 1000000))%Q.
Proof.
  intros Hr Ht N. subst N.
  rewrite NumFacts.wrap64_small by nia.
  assert (H1 : (1000 * inject_Z t <= inject_Z (r * t))%Q).
  { change 1000%Q with (inject_Z 1000). rewrite <- inject_Z_mult.
    apply inject_Z_le; nia. }
  assert (H2 : (inject_Z (r * t) <= 1000000000000 * inject_Z t)%Q).
  { change 1000000000000%Q with (inject_Z 1000000000000).
    rewrite <- inject_Z_mult. apply inject_Z_le; nia. }
  assert (H3 : (3600 <= inject_Z t)%Q) by (apply (inject_Z_le 3600); lia).
  set (P := inject_Z (r * t)) in *. set (Tq := inject_Z t) in *.
  unfold Binary64.of_int. fold P.
  assert (Hx1 : (P * (1 - u) <= Binary64.round P <= P * (1 + u))%Q).
  { apply Binary64Facts.round_rel. lra. }
  set (x1 := Binary64.round P) in *.
  assert (Ed : (x1 / 1000000000 == x1 * (1 # 1000000000))%Q) by field.
  set (y1 := (x1 / 1000000000)%Q) in *.
  assert (Hx2 : (y1 * (1 - u) <= Binary64.round y1 <= y1 * (1 + u))%Q).
  { apply Binary64Facts.round_rel. unfold Binary64.unit_roundoff in *. lra. }
  set (x2 := Binary64.round y1) in *.
  clearbody x2 y1 x1 P Tq.
  unfold Binary64.unit_roundoff in *. split; lra.
Qed.

Lemma Divisor_bounds :
  (0 < D)%Q /\ (T <= 1000001 * Ne)%Q /\ (Ne <= 1001 * T)%Q.
Proof.
  pose proof (SymbolDuration_cases txVector) as HT.
  unfold Binary64Phy.Divisor, StbcFactor, SymbolDuration in *.
  unfold Binary64Phy.OfdmNumDataBitsPerSymbol,
    Binary64Phy.HtNumDataBitsPerSymbol, HtStbc.
  assert (H3 : (3600 <= T <= 16000)%Q).
  { unfold SymbolDuration.
    split; [apply (inject_Z_le 3600)|apply (inject_Z_le _ 16000)]; lia. }
  unfold SymbolDuration in H3.
  destruct Hclass as [E|[E|E]]; rewrite E in *;
    match goal with
    | |- context [GetDataRate ?m ?w ?g ?n * ?t] =>
        pose proof (bits_per_symbol (GetDataRate m w g n) t (Hrates w g n))
          as HN
    end;
    specialize (HN ltac:(lia)); cbv zeta in HN;
    set (N := Binary64.round _) in *.
  - (* OFDM: the divisor is N_DBPS *)
    change (inject_Z 1) with 1%Q.
    assert (EN : (N / 1 == N)%Q) by (field).
    rewrite EN. lra.
  - (* HT: the divisor is m_Stbc * N_DBPS, rounded *)
    unfold Binary64.mul. destruct (IsStbc txVector);
      match goal with
      | |- context [Binary64.round (?k * N)] =>
          pose proof (Binary64Facts.round_rel (k * N) ltac:(lra)) as HD;
          set (D' := Binary64.round (k * N)) in *
      end;
      [assert (EN : (D' / inject_Z 2 == D' * (1 # 2))%Q) by (field)
      |assert (EN : (D' / inject_Z 1 == D')%Q) by (field)];
      rewrite EN; unfold Binary64.unit_roundoff in *; lra.
  - (* VHT: as HT *)
    unfold Binary64.mul. destruct (IsStbc txVector);
      match goal with
      | |- context [Binary64.round (?k * N)] =>
          pose proof (Binary64Facts.round_rel (k * N) ltac:(lra)) as HD;
          set (D' := Binary64.round (k * N)) in *
      end;
      [assert (EN : (D' / inject_Z 2 == D' * (1 # 2))%Q) by (field)
      |assert (EN : (D' / inject_Z 1 == D')%Q) by (field)];
      rewrite EN; unfold Binary64.unit_roundoff in *; lra.
Qed.

Lemma T_range64 : (3600 <= T <= 16000)%Q.
Proof.
  pose proof (SymbolDuration_cases txVector).
  split; [apply (inject_Z_le 3600) | apply (inject_Z_le _ 16000)]; lia.
Qed.

Lemma Ne_pos : (0 < Ne)%Q.
Proof.
  destruct Divisor_bounds as (_ & H & _). pose proof T_range64. lra.
Qed.

(** A quotient of the source: [b] bits over the bits of a symbol. *)
Lemma symbols_bounds (num : Q) (b : Z) :
  (num == K * inject_Z b)%Q -> 1 <= b ->
  exists n : Q,
    Binary64.div num D = Ok n
    /\ (inject_Z b / Ne * (1 - u) <= n <= inject_Z b / Ne * (1 + u))%Q
    /\ (1 # 100000000 <= inject_Z b / Ne)%Q.
Proof.
  intros Hnum Hb. destruct Divisor_bounds as (HD & H1 & H2).
  pose proof T_range64 as HT. pose proof Ne_pos as HNe.
  assert (HK : (0 < K)%Q).
  { pose proof (StbcFactor_cases txVector).
    apply (inject_Z_lt 0). lia. }
  rewrite Binary64Facts.div_ok by exact HD. eexists. split; [reflexivity|].
  assert (E : (num / D == inject_Z b / Ne)%Q) by (rewrite Hnum; field; lra).
  assert (Hq : (1 # 100000000 <= inject_Z b / Ne)%Q).
  { apply Qle_shift_div_l; [exact HNe|].
    assert (1 <= inject_Z b)%Q by (apply (inject_Z_le 1); lia). lra. }
  split; [|exact Hq].
  rewrite <- E in *. apply Binary64Facts.round_rel. lra.
Qed.

Lemma K_exact :
  (HtStbc txVector == inject_Z (if IsStbc txVector then 2 else 1))%Q.
Proof. unfold HtStbc. destruct (IsStbc txVector); reflexivity. Qed.

Local Abbreviation FrameBits := (Binary64Phy.FrameBits O).

Lemma duration_of_bits (x : Q) (b : Z) :
  0 <= b -> (x <= inject_Z b / Ne)%Q ->
  (x * T <= 1000001 * inject_Z b)%Q.
Proof.
  intros Hb Hx. destruct Divisor_bounds as (HD & H1 & H2).
  pose proof T_range64 as HT. pose proof Ne_pos as HNe.
  assert (H0 : (0 <= inject_Z b)%Q) by (apply (inject_Z_le 0); lia).
  set (N' := Ne) in *. clearbody N'.
  apply Qle_trans with (inject_Z b / N' * T)%Q.
  - apply Qmult_le_compat_r; [exact Hx|lra].
  - assert (E : (1000001 * inject_Z b
                 == inject_Z b / N' * (1000001 * N'))%Q) by (field; lra).
    rewrite E. pose proof (Qdiv_nonneg _ _ H0 HNe).
    apply Qmult_le_compat_nonneg; split; lra.
Qed.

Lemma payload_frame64 (preamble : WifiPreamble) (size : Z) (st : WifiPhy) :
  0 <= size < 2 ^ 32 -> 1 <= FrameBits preamble size ->
  exists (n : Q) (d : Time),
    Binary64Phy.GetPayloadDuration GetDataRate OFDMSCMin OFDMBRPMin size
      txVector preamble frequency MPDU_IN_AGGREGATE 1 st
    = (Ok d, mkWifiPhy (Num.wrap32 (m_totalAmpduSize st + size))
               (Binary64.add (m_totalAmpduNumSymbols st) n))
    /\ (inject_Z (FrameBits preamble size) / Ne * (1 - u) <= n
        <= inject_Z (FrameBits preamble size) / Ne * (1 + u))%Q
    /\ (1 # 100000000 <= inject_Z (FrameBits preamble size) / Ne)%Q
    /\ (n * T * (1 - u) - 1 <= inject_Z d <= n * T * (1 + u))%Q.
Proof.
  intros Hs Hb.
  pose proof (SymbolDuration_cases txVector) as HT.
  pose proof (StbcFactor_cases txVector) as HK.
  pose proof K_exact as EK.
  assert (Hnum : exists num : Q,
            (num == K * inject_Z (FrameBits preamble size))%Q
            /\ forall n d,
                 Binary64.div num D = Ok n ->
                 NanoSecondsD
                   (Binary64.mul n
                      (Binary64.of_int (SymbolDuration txVector))) = Ok d ->
                 Binary64Phy.GetPayloadDuration GetDataRate OFDMSCMin
                   OFDMBRPMin size txVector preamble frequency
                   MPDU_IN_AGGREGATE 1 st
                 = (Ok d, mkWifiPhy (Num.wrap32 (m_totalAmpduSize st + size))
                            (Binary64.add (m_totalAmpduNumSymbols st) n))).
  { pose proof (HO size Hs) as EB.
    set (StbcFactor' := if IsStbc txVector then 2 else 1) in *.
    assert (HK' : 1 <= StbcFactor' <= 2)
      by (subst StbcFactor'; destruct (IsStbc txVector); lia).
    unfold Binary64Phy.GetPayloadDuration, Binary64Phy.Divisor,
      Binary64Phy.Bits, StbcFactor, SymbolDuration, Binary64Phy.FrameBits in *.
    fold StbcFactor'.
    unfold Binary64Phy.OfdmPayloadDuration, Binary64Phy.HtPayloadDuration,
      Binary64Phy.OfdmSymbolsDuration, Binary64Phy.HtSymbolsDuration,
      Binary64Phy.OfdmNumSymbols, Binary64Phy.HtNumSymbols.
    destruct Hclass as [E|[E|E]]; rewrite E in *;
      destruct (is_preamble_none preamble) eqn:Ep;
      eexists; (split;
        [|intros n d Hn Hd;
          cbn [is_mpdu_in_aggregate andb negb ends_transmission
               is_normal_mpdu is_last_mpdu_in_aggregate orb];
          rewrite ?Bool.andb_false_r;
          unfold bind, lift; rewrite Hn; rewrite accumulate64_run;
          unfold ret; rewrite Hd; reflexivity]).
    - rewrite <- inject_Z_mult.
      replace (1 * (8 * size)) with (size * 8) by lia.
      apply Binary64Facts.mul_exact;
        [apply Binary64Facts.of_int_exact; lia|reflexivity|lia].
    - rewrite EB. change (inject_Z 1) with 1%Q. ring.
    - rewrite <- inject_Z_mult.
      replace (StbcFactor' * (8 * size)) with (StbcFactor' * size * 8)
        by lia.
      apply Binary64Facts.mul_exact; [|reflexivity|subst StbcFactor'; lia].
      apply Binary64Facts.mul_exact;
        [exact EK|apply Binary64Facts.of_int_exact; lia
        |subst StbcFactor'; lia].
    - rewrite <- inject_Z_mult.
      apply Binary64Facts.mul_exact; [exact EK|exact EB|subst StbcFactor'; lia].
    - rewrite <- inject_Z_mult.
      replace (StbcFactor' * (8 * size)) with (StbcFactor' * size * 8)
        by lia.
      apply Binary64Facts.mul_exact; [|reflexivity|subst StbcFactor'; lia].
      apply Binary64Facts.mul_exact;
        [exact EK|apply Binary64Facts.of_int_exact; lia
        |subst StbcFactor'; lia].
    - rewrite <- inject_Z_mult.
      apply Binary64Facts.mul_exact;
        [exact EK|exact EB|subst StbcFactor'; lia]. }
  destruct Hnum as (num & Enum & Hrun).
  destruct (symbols_bounds num _ Enum Hb) as (n & Hn & Hnb & Hq).
  assert (Hb0 : 0 <= FrameBits preamble size) by lia.
  assert (Hbmax : FrameBits preamble size <= 34359738412)
    by (unfold Binary64Phy.FrameBits;
        destruct (is_preamble_none preamble); lia).
  pose proof (duration_of_bits
                (inject_Z (FrameBits preamble size) / Ne)%Q _ Hb0
                ltac:(apply Qle_refl)) as HqT.
  assert (HbQ : (inject_Z (FrameBits preamble size) <= 34359738412)%Q)
    by (apply (inject_Z_le _ 34359738412); exact Hbmax).
  pose proof T_range64 as HTq.
  set (q := (inject_Z (FrameBits preamble size) / Ne)%Q) in *.
  assert (HnT : (n * T <= q * T * (1 + u))%Q).
  { assert (E : (q * T * (1 + u) == q * (1 + u) * T)%Q) by ring.
    rewrite E. apply Qmult_le_compat_r; lra. }
  destruct (symbols_duration64 n (SymbolDuration txVector))
    as (d & Hd & Hdb).
  { lia. }
  { unfold Binary64.unit_roundoff in *. lra. }
  { unfold Binary64.unit_roundoff in *. lra. }
  exists n, d. split; [now apply Hrun|]. repeat split; tauto || lra.
Qed.

Local Abbreviation W := (Binary64Phy.WholeSymbols GetDataRate txVector).

Lemma WholeSymbols64_bounds (size : Z) :
  0 <= size < 2 ^ 32 ->
  0 <= W size
  /\ (inject_Z (O + 8 * size) / Ne * (1 - u) <= inject_Z (W size)
      <= inject_Z (O + 8 * size) / Ne * (1 + u) + K)%Q.
Proof.
  intros Hs. destruct Divisor_bounds as (HD & H1 & H2).
  pose proof T_range64 as HT. pose proof Ne_pos as HNe.
  pose proof (StbcFactor_cases txVector) as HK.
  pose proof (HO size Hs) as EB.
  unfold Binary64Phy.WholeSymbols.
  set (b := inject_Z (O + 8 * size)) in *.
  assert (Hb : (16 <= b)%Q) by (apply (inject_Z_le 16); lia).
  set (x := (Binary64Phy.Bits txVector size / D)%Q).
  assert (Ex : (x * K == b / Ne)%Q).
  { unfold x. rewrite EB. field. split; [|lra].
    destruct HK as [-> | ->]; discriminate. }
  assert (Hq : (1 # 10000000 <= b / Ne)%Q).
  { apply Qle_shift_div_l; [exact HNe|]. lra. }
  set (q := (b / Ne)%Q) in *.
  assert (Hx : (1 # 1000000000000 <= x)%Q)
    by (destruct HK as [EK | EK]; rewrite EK in Ex;
        [change (inject_Z 1) with 1%Q in Ex
        |change (inject_Z 2) with 2%Q in Ex]; lra).
  pose proof (Binary64Facts.round_rel x Hx) as Hy.
  set (y := Binary64.round x) in *.
  pose proof (Qle_ceiling y) as Hc1. pose proof (Qceiling_lt_succ y) as Hc2.
  assert (Hc0 : 0 <= Qceiling y).
  { apply NumFacts.Qceiling_nonneg. unfold Binary64.unit_roundoff in *. lra. }
  split; [lia|]. rewrite inject_Z_mult.
  set (c := inject_Z (Qceiling y)) in *.
  unfold Binary64.unit_roundoff in *.
  destruct HK as [EK | EK]; rewrite EK in *;
    [change (inject_Z 1) with 1%Q in *|change (inject_Z 2) with 2%Q in *];
    split; lra.
Qed.

Lemma payload_normal64 (preamble : WifiPreamble) (size incFlag : Z)
    (st : WifiPhy) :
  preamble <> WIFI_PREAMBLE_NONE -> 0 <= size < 2 ^ 32 ->
  W size * SymbolDuration txVector < 2 ^ 53 ->
  Binary64Phy.GetPayloadDuration GetDataRate OFDMSCMin OFDMBRPMin size
    txVector preamble frequency NORMAL_MPDU incFlag st
  = (Ok (W size * SymbolDuration txVector
         + SignalExtension txVector frequency NORMAL_MPDU preamble), st).
Proof.
  intros Hp Hs HWT. destruct Divisor_bounds as (HD & _).
  pose proof (SymbolDuration_cases txVector) as HT.
  pose proof (StbcFactor_cases txVector) as HK.
  pose proof K_exact as EK.
  destruct (WholeSymbols64_bounds size Hs) as (HW0 & _).
  assert (HW : 0 <= W size < 2 ^ 53) by nia.
  pose proof (whole_symbols_duration64 (Binary64.of_int (W size)) (W size)
                (SymbolDuration txVector) (Binary64Facts.of_int_exact _ HW)
                ltac:(lia) HW0 HWT) as Hd.
  assert (Ep : is_preamble_none preamble = false)
    by (destruct preamble; try reflexivity; contradiction).
  unfold Binary64Phy.WholeSymbols in *.
  unfold Binary64Phy.GetPayloadDuration, Binary64Phy.Divisor,
    Binary64Phy.Bits, StbcFactor, SymbolDuration, SignalExtension in *.
  unfold Binary64Phy.OfdmPayloadDuration, Binary64Phy.HtPayloadDuration,
    Binary64Phy.OfdmSymbolsDuration, Binary64Phy.HtSymbolsDuration,
    Binary64Phy.OfdmNumSymbols, Binary64Phy.HtNumSymbols.
  destruct Hclass as [E|[E|E]]; rewrite E in *; unfold ends_transmission;
    rewrite Ep;
    cbn [is_mpdu_in_aggregate is_last_mpdu_in_aggregate is_normal_mpdu
         andb negb orb];
    unfold bind, lift; rewrite Binary64Facts.div_ok by exact HD.
  - unfold Num.ceil. set (c := Qceiling _) in *. clearbody c.
    rewrite (NumFacts.lrint_inject c) by lia.
    rewrite Z.mul_1_l in Hd. unfold ret. rewrite Hd.
    now rewrite Z.mul_1_l, Z.add_0_r.
  - unfold Num.ceil. set (c := Qceiling _) in *. clearbody c.
    set (k := if IsStbc txVector then 2 else 1) in *.
    rewrite (lrint_integer _ (k * c)); [|apply Binary64Facts.mul_exact|lia];
      [|exact EK|reflexivity|lia].
    unfold ret. rewrite Hd.
    destruct (in_2_4GHz_band frequency); cbn [andb];
      [reflexivity|now rewrite Z.add_0_r].
  - unfold Num.ceil. set (c := Qceiling _) in *. clearbody c.
    set (k := if IsStbc txVector then 2 else 1) in *.
    rewrite (lrint_integer _ (k * c)); [|apply Binary64Facts.mul_exact|lia];
      [|exact EK|reflexivity|lia].
    unfold ret. rewrite Hd. now rewrite Z.add_0_r.
Qed.

Lemma payload_last64 (size : Z) (st : WifiPhy) :
  0 <= m_totalAmpduSize st -> 0 <= size ->
  m_totalAmpduSize st + size < 2 ^ 32 ->
  W (m_totalAmpduSize st + size) * SymbolDuration txVector < 2 ^ 53 ->
  (0 <= m_totalAmpduNumSymbols st)%Q ->
  (m_totalAmpduNumSymbols st + (1 # 100000000000)
   <= inject_Z (W (m_totalAmpduSize st + size)))%Q ->
  exists (r : Q) (d : Time),
    Binary64Phy.GetPayloadDuration GetDataRate OFDMSCMin OFDMBRPMin size
      txVector WIFI_PREAMBLE_NONE frequency LAST_MPDU_IN_AGGREGATE 1 st
    = (Ok (d + SignalExtension txVector frequency LAST_MPDU_IN_AGGREGATE
                 WIFI_PREAMBLE_NONE), WifiPhy_init)
    /\ ((inject_Z (W (m_totalAmpduSize st + size))
         - m_totalAmpduNumSymbols st) * (1 - u) <= r
        <= (inject_Z (W (m_totalAmpduSize st + size))
            - m_totalAmpduNumSymbols st) * (1 + u))%Q
    /\ (r * T * (1 - u) - 1 <= inject_Z d <= r * T * (1 + u))%Q.
Proof.
  intros Hz Hs Hsum HWT Ha0 Ha. destruct Divisor_bounds as (HD & _).
  pose proof (SymbolDuration_cases txVector) as HT.
  pose proof (StbcFactor_cases txVector) as HK.
  pose proof K_exact as EK.
  set (S := m_totalAmpduSize st + size) in *.
  assert (HS : 0 <= S < 2 ^ 32) by lia.
  destruct (WholeSymbols64_bounds S HS) as (HW0 & _).
  assert (HW : 0 <= W S < 2 ^ 53) by nia.
  pose proof (Binary64Facts.of_int_exact _ HW) as EW.
  set (acc := m_totalAmpduNumSymbols st) in *.
  set (w := Binary64.of_int (W S)) in *.
  assert (Hle : Qle_bool acc w = true)
    by (apply Qle_bool_iff; rewrite EW; lra).
  assert (Hx : (1 # 100000000000 <= w - acc)%Q) by (rewrite EW; lra).
  pose proof (Binary64Facts.round_rel (w - acc) ltac:(lra)) as Hr.
  fold (Binary64.sub w acc) in Hr. set (r := Binary64.sub w acc) in *.
  assert (HWTq : (inject_Z (W S) * T < 9007199254740992)%Q).
  { rewrite <- inject_Z_mult. now apply (inject_Z_lt _ (2 ^ 53)). }
  pose proof T_range64 as HTq.
  assert (HrT : (r * T <= inject_Z (W S) * T * (1 + u))%Q).
  { assert (E : (inject_Z (W S) * T * (1 + u)
                 == inject_Z (W S) * (1 + u) * T)%Q) by ring.
    rewrite E. apply Qmult_le_compat_r; [|lra].
    rewrite EW in Hr. unfold Binary64.unit_roundoff in *. lra. }
  destruct (symbols_duration64 r (SymbolDuration txVector))
    as (d & Hd & Hdb).
  { lia. }
  { unfold Binary64.unit_roundoff in *. lra. }
  { unfold Binary64.unit_roundoff in *. lra. }
  exists r, d. split; [|split; [rewrite <- EW; exact Hr|exact Hdb]].
  clear Hr HrT Hdb Hx EW. subst r w acc.
  unfold Binary64Phy.WholeSymbols in *.
  unfold Binary64Phy.GetPayloadDuration, Binary64Phy.Divisor,
    Binary64Phy.Bits, StbcFactor, SymbolDuration, SignalExtension in *.
  unfold Binary64Phy.OfdmPayloadDuration, Binary64Phy.HtPayloadDuration,
    Binary64Phy.OfdmSymbolsDuration, Binary64Phy.HtSymbolsDuration,
    Binary64Phy.OfdmNumSymbols, Binary64Phy.HtNumSymbols.
  destruct Hclass as [E|[E|E]]; rewrite E in *; unfold ends_transmission;
    cbn [is_mpdu_in_aggregate is_last_mpdu_in_aggregate is_normal_mpdu
         is_preamble_none andb negb orb];
    unfold bind, lift, get; fold S; rewrite (NumFacts.wrap32_small S) by lia;
    rewrite Binary64Facts.div_ok by exact HD; unfold Num.ceil.
  - set (c := Qceiling _) in *.
    rewrite (NumFacts.lrint_inject c) by lia.
    rewrite Z.mul_1_l in Hle, Hd. rewrite Hle.
    rewrite reset_run. unfold ret, commit. cbn [Z.eqb Pos.eqb].
    rewrite Hd. now rewrite Z.add_0_r.
  - set (c := Qceiling _) in *.
    set (k := if IsStbc txVector then 2 else 1) in *.
    rewrite (lrint_integer _ (k * c)); [|apply Binary64Facts.mul_exact|lia];
      [|exact EK|reflexivity|lia].
    rewrite Hle. rewrite reset_run. unfold ret, commit. cbn [Z.eqb Pos.eqb].
    rewrite Hd. destruct (in_2_4GHz_band frequency); cbn [andb];
      [reflexivity|now rewrite Z.add_0_r].
  - set (c := Qceiling _) in *.
    set (k := if IsStbc txVector then 2 else 1) in *.
    rewrite (lrint_integer _ (k * c)); [|apply Binary64Facts.mul_exact|lia];
      [|exact EK|reflexivity|lia].
    rewrite Hle. rewrite reset_run. unfold ret, commit. cbn [Z.eqb Pos.eqb].
    rewrite Hd. now rewrite Z.add_0_r.
Qed.

Local Abbreviation sym := (Binary64Phy.Symbols GetDataRate txVector).

Lemma sym_add (a b : Z) : (sym (a + b) == sym a + sym b)%Q.
Proof.
  pose proof Ne_pos. unfold Binary64Phy.Symbols, Binary64Phy.BitsPerSymbol.
  rewrite inject_Z_plus. set (N' := Ne) in *. clearbody N'. field. lra.
Qed.

Lemma sym_nonneg (b : Z) : 0 <= b -> (0 <= sym b)%Q.
Proof.
  intros Hb. apply Qdiv_nonneg; [apply (inject_Z_le 0); exact Hb|].
  exact Ne_pos.
Qed.

Lemma sym_mono (a b : Z) : a <= b -> (sym a <= sym b)%Q.
Proof.
  intros H. apply Qdiv_le_compat; [now apply inject_Z_le|exact Ne_pos].
Qed.

Lemma sym_T (b : Z) : 0 <= b -> (sym b * T <= 1000001 * inject_Z b)%Q.
Proof. intros Hb. apply duration_of_bits; [exact Hb|apply Qle_refl]. Qed.

Lemma sym_8 : (1 # 2002000 <= sym 8)%Q.
Proof.
  destruct Divisor_bounds as (HD & H1 & H2). pose proof T_range64.
  apply Qle_shift_div_l; [exact Ne_pos|]. change (inject_Z 8) with 8%Q.
  unfold Binary64Phy.BitsPerSymbol. lra.
Qed.

(** One more frame of the A-MPDU: what the accumulator and the returned
    duration are, against the exact symbols [sym]. *)
Lemma frame_step (Qm : Q) (preamble : WifiPreamble) (size : Z) (st : WifiPhy)
    (Bc : Z) (a : Q) :
  0 <= size < 2 ^ 32 -> 1 <= FrameBits preamble size -> 0 <= Bc ->
  (0 <= m_totalAmpduNumSymbols st)%Q -> (0 <= a)%Q ->
  (sym Bc - a <= m_totalAmpduNumSymbols st <= sym Bc + a)%Q ->
  (sym (Bc + FrameBits preamble size) + a + 3 * (u * Qm) <= Qm)%Q ->
  exists (d : Time) (acc' : Q),
    Binary64Phy.GetPayloadDuration GetDataRate OFDMSCMin OFDMBRPMin size
      txVector preamble frequency MPDU_IN_AGGREGATE 1 st
    = (Ok d, mkWifiPhy (Num.wrap32 (m_totalAmpduSize st + size)) acc')
    /\ (0 <= acc')%Q
    /\ (sym (Bc + FrameBits preamble size) - (a + 3 * (u * Qm)) <= acc'
        <= sym (Bc + FrameBits preamble size) + (a + 3 * (u * Qm)))%Q
    /\ (sym (FrameBits preamble size) * T - (3 * (u * Qm) * T + 1)
        <= inject_Z d
        <= sym (FrameBits preamble size) * T + 3 * (u * Qm) * T)%Q.
Proof.
  intros Hs Hb HBc Hacc0 Ha0 Hacc Hroom.
  destruct (payload_frame64 preamble size st Hs Hb)
    as (n & d & Hrun & Hn & Hq & Hd).
  change (inject_Z (FrameBits preamble size) / Ne)%Q
    with (sym (FrameBits preamble size)) in *.
  set (b := FrameBits preamble size) in *.
  pose proof (sym_add Bc b) as Eadd.
  pose proof (sym_nonneg Bc HBc) as HB0.
  set (q := sym b) in *. set (S0 := sym Bc) in *. set (S1 := sym (Bc + b)) in *.
  set (acc := m_totalAmpduNumSymbols st) in *.
  exists d, (Binary64.add acc n). split; [exact Hrun|].
  unfold Binary64.add.
  assert (Hx : (1 # 1000000000000 <= acc + n)%Q)
    by (unfold Binary64.unit_roundoff in *; lra).
  pose proof (Binary64Facts.round_rel _ Hx) as Hr.
  set (acc' := Binary64.round (acc + n)) in *.
  clearbody acc' q S0 S1 acc b.
  pose proof (SymbolDuration_cases txVector) as HT.
  unfold Binary64.unit_roundoff in *.
  split; [lra|]. split; [split; lra|].
  destruct HT as [ET|[ET|[ET|ET]]]; rewrite ET in *;
    [change (inject_Z 3600) with 3600%Q in *
    |change (inject_Z 4000) with 4000%Q in *
    |change (inject_Z 8000) with 8000%Q in *
    |change (inject_Z 16000) with 16000%Q in *]; split; lra.
Qed.

Local Abbreviation MiddleFrames :=
  (Binary64Phy.MiddleFrames GetDataRate OFDMSCMin OFDMBRPMin txVector
     frequency).

Lemma sum_sizes_nonneg (sizes : list Z) :
  Forall (fun s => 1 <= s) sizes -> 0 <= sum_sizes sizes.
Proof. induction 1; simpl; lia. Qed.

Lemma MiddleFrames64_run (Qm : Q) (sizes : list Z) :
  Forall (fun s => 1 <= s) sizes -> (0 <= Qm)%Q ->
  forall (st : WifiPhy) (Bc : Z) (a : Q),
    0 <= m_totalAmpduSize st ->
    m_totalAmpduSize st + sum_sizes sizes < 2 ^ 32 -> 0 <= Bc ->
    (0 <= m_totalAmpduNumSymbols st)%Q -> (0 <= a)%Q ->
    (sym Bc - a <= m_totalAmpduNumSymbols st <= sym Bc + a)%Q ->
    (sym (Bc + 8 * sum_sizes sizes) + a
     + 3 * inject_Z (Z.of_nat (length sizes)) * (u * Qm) <= Qm)%Q ->
    exists (ds : Time) (acc' : Q),
      MiddleFrames sizes st
      = (Ok ds, mkWifiPhy (m_totalAmpduSize st + sum_sizes sizes) acc')
      /\ (0 <= acc')%Q
      /\ (sym (Bc + 8 * sum_sizes sizes)
          - (a + 3 * inject_Z (Z.of_nat (length sizes)) * (u * Qm)) <= acc'
          <= sym (Bc + 8 * sum_sizes sizes)
             + (a + 3 * inject_Z (Z.of_nat (length sizes)) * (u * Qm)))%Q
      /\ (sym (8 * sum_sizes sizes) * T
          - inject_Z (Z.of_nat (length sizes)) * (3 * (u * Qm) * T + 1)
          <= inject_Z ds
          <= sym (8 * sum_sizes sizes) * T
             + inject_Z (Z.of_nat (length sizes)) * (3 * (u * Qm) * T))%Q.
Proof.
  intros Hall HQm. induction Hall as [|s rest Hs Hrest IH];
    intros st Bc a Hz Hsum HBc Hacc0 Ha0 Hacc Hroom.
  - exists 0, (m_totalAmpduNumSymbols st). cbn [sum_sizes foldr length] in *.
    change (inject_Z (Z.of_nat 0)) with 0%Q in *.
    rewrite Z.mul_0_r, Z.add_0_r in *. destruct st as [z acc].
    cbn [m_totalAmpduSize m_totalAmpduNumSymbols] in *.
    rewrite Z.add_0_r.
    split; [reflexivity|]. split; [exact Hacc0|].
    assert (E0 : (sym 0 == 0)%Q)
      by (unfold Binary64Phy.Symbols, Qdiv; change (inject_Z 0) with 0%Q; ring).
    rewrite E0. change (inject_Z 0) with 0%Q. split; split; lra.
  - pose proof (sum_sizes_nonneg rest Hrest) as Hr0.
    change (sum_sizes (s :: rest)) with (s + sum_sizes rest) in *.
    change (length (s :: rest)) with (Datatypes.S (length rest)) in *.
    rewrite Nat2Z.inj_succ in *. unfold Z.succ in *.
    rewrite inject_Z_plus in *. change (inject_Z 1) with 1%Q in *.
    set (L := inject_Z (Z.of_nat (length rest))) in *.
    assert (HL : (0 <= L)%Q) by (apply (inject_Z_le 0); lia).
    set (R := sum_sizes rest) in *.
    assert (Hu : (0 <= u * Qm)%Q)
      by (apply Qmult_le_0_compat; [discriminate|exact HQm]).
    assert (HLu : (0 <= L * (u * Qm))%Q)
      by (apply Qmult_le_0_compat; assumption).
    pose proof (sym_mono (Bc + 8 * s) (Bc + 8 * (s + R)) ltac:(lia)) as Hm.
    destruct (frame_step Qm WIFI_PREAMBLE_NONE s st Bc a)
      as (d & acc1 & Hrun1 & Hacc1 & Hb1 & Hd1);
      try assumption; try (cbn; lia).
    { change (FrameBits WIFI_PREAMBLE_NONE s) with (8 * s). lra. }
    change (FrameBits WIFI_PREAMBLE_NONE s) with (8 * s) in *.
    rewrite NumFacts.wrap32_small in Hrun1 by lia.
    destruct (IH (mkWifiPhy (m_totalAmpduSize st + s) acc1) (Bc + 8 * s)
                (a + 3 * (u * Qm))%Q)
      as (ds & acc2 & Hrun2 & Hacc2 & Hb2 & Hd2);
      cbn [m_totalAmpduSize m_totalAmpduNumSymbols]; try assumption;
      try lia; try lra.
    { replace (Bc + 8 * s + 8 * R) with (Bc + 8 * (s + R)) by lia. lra. }
    cbn [m_totalAmpduSize m_totalAmpduNumSymbols] in *.
    replace (Bc + 8 * s + 8 * R) with (Bc + 8 * (s + R)) in * by lia.
    exists (d + ds), acc2. split.
    { cbn [Binary64Phy.MiddleFrames]. unfold bind at 1. rewrite Hrun1.
      unfold bind at 1. fold MiddleFrames. rewrite Hrun2.
      unfold ret. now rewrite Z.add_assoc. }
    split; [exact Hacc2|]. split; [split; lra|].
    rewrite inject_Z_plus.
    assert (E8 : (sym (8 * (s + R)) == sym (8 * s) + sym (8 * R))%Q)
      by (rewrite <- sym_add;
          now replace (8 * (s + R)) with (8 * s + 8 * R) by lia).
    rewrite E8. split; lra.
Qed.

Lemma sum_sizes_length (sizes : list Z) :
  Forall (fun s => 1 <= s) sizes -> Z.of_nat (length sizes) <= sum_sizes sizes.
Proof.
  induction 1 as [|s rest Hs Hrest IH]; [reflexivity|].
  change (sum_sizes (s :: rest)) with (s + sum_sizes rest).
  change (length (s :: rest)) with (Datatypes.S (length rest)). lia.
Qed.

Lemma sym_scale (m b : Z) : (sym (m * b) == inject_Z m * sym b)%Q.
Proof.
  pose proof Ne_pos. unfold Binary64Phy.Symbols, Binary64Phy.BitsPerSymbol.
  rewrite inject_Z_mult. set (N' := Ne) in *. clearbody N'. field. lra.
Qed.

Local Abbreviation SendAmpdu :=
  (Binary64Phy.SendAmpdu GetDataRate OFDMSCMin OFDMBRPMin txVector frequency).

Lemma SendAmpdu64_run (preamble : WifiPreamble) (first : Z) (middle : list Z)
    (last incFlag : Z) :
  preamble <> WIFI_PREAMBLE_NONE ->
  0 <= first -> Forall (fun s => 1 <= s) middle -> 1 <= last ->
  (Z.of_nat (length middle) + 2) * (first + sum_sizes middle + last)
  <= 2 ^ 27 ->
  exists total normal : Time,
    SendAmpdu preamble first middle last WifiPhy_init
    = (Ok total, WifiPhy_init)
    /\ Binary64Phy.GetPayloadDuration GetDataRate OFDMSCMin OFDMBRPMin
         (first + sum_sizes middle + last) txVector preamble frequency
         NORMAL_MPDU incFlag WifiPhy_init
       = (Ok normal, WifiPhy_init)
    /\ total <= normal <= total + (Z.of_nat (length middle) + 2).
Proof.
  intros Hp Hf Hm Hl Hk.
  pose proof (sum_sizes_length middle Hm) as Hlen.
  set (l := Z.of_nat (length middle)) in *.
  set (R := sum_sizes middle) in *.
  set (S := first + R + last) in *.
  assert (Hl0 : 0 <= l) by (unfold l; lia).
  assert (HkS : l + 1 <= S) by (unfold S; lia).
  assert (Hlmax : l + 2 <= 11585) by nia.
  assert (HS : 0 <= S < 2 ^ 32) by nia.
  set (Btot := O + 8 * S).
  set (Qm := (sym Btot + 4)%Q).
  pose proof (sym_nonneg Btot ltac:(unfold Btot; lia)) as HsB.
  assert (HQm : (0 <= Qm)%Q) by (unfold Qm; lra).
  pose proof T_range64 as HT.
  pose proof (sym_T Btot ltac:(unfold Btot; lia)) as HBT.
  (* the error budget *)
  set (L := inject_Z l) in *.
  assert (HL : (0 <= L <= 11583)%Q).
  { split; [apply (inject_Z_le 0)|apply (inject_Z_le _ 11583)]; lia. }
  assert (HF1 : ((6 * L + 9) * ((u * Qm) * T) <= 73 # 100)%Q).
  { assert (E : ((6 * L + 9) * ((u * Qm) * T)
                 == u * ((6 * L + 9) * (sym Btot * T + 4 * T)))%Q)
      by (unfold Qm; ring).
    rewrite E.
    assert (H1 : ((6 * L + 9) * (sym Btot * T + 4 * T)
                  <= (6 * L + 9) * (1000001 * inject_Z Btot + 64000))%Q).
    { apply Qmult_le_l; lra. }
    assert (H2 : ((6 * L + 9) * (1000001 * inject_Z Btot + 64000)
                  <= 6500000000000000)%Q).
    { assert (E2 : ((6 * L + 9) * (1000001 * inject_Z Btot + 64000)
                    == inject_Z ((6 * l + 9) * (1000001 * Btot + 64000)))%Q).
      { unfold L. rewrite !inject_Z_mult, !inject_Z_plus, !inject_Z_mult.
        reflexivity. }
      rewrite E2. apply (inject_Z_le _ 6500000000000000).
      unfold Btot. nia. }
    unfold Binary64.unit_roundoff. lra. }
  set (h := (u * Qm)%Q) in *.
  assert (Hh : (0 <= h)%Q)
    by (apply Qmult_le_0_compat; [discriminate|exact HQm]).
  assert (HLh : (0 <= L * h)%Q) by (apply Qmult_le_0_compat; lra).
  assert (HG1 : ((6 * L + 9) * h <= 1 # 1000)%Q).
  { assert (H1 : ((6 * L + 9) * h * 3600 <= (6 * L + 9) * h * T)%Q).
    { assert (0 <= (6 * L + 9) * h)%Q
        by (apply Qmult_le_0_compat; lra).
      apply Qmult_le_compat_nonneg; split; lra. }
    assert (E : ((6 * L + 9) * (h * T) == (6 * L + 9) * h * T)%Q) by ring.
    rewrite E in HF1. lra. }
  assert (HG2 : ((3 * L + 4) * h
                 <= (1 # 16777216) * sym 8 + (1 # 10000000000))%Q).
  { assert (E : ((3 * L + 4) * h
                 == u * ((3 * L + 4) * sym Btot) + 4 * u * (3 * L + 4))%Q)
      by (unfold h, Qm; ring).
    rewrite E.
    assert (E2 : ((3 * L + 4) * sym Btot == sym ((3 * l + 4) * Btot))%Q).
    { rewrite sym_scale. unfold L.
      now rewrite inject_Z_plus, inject_Z_mult. }
    rewrite E2.
    pose proof (sym_mono ((3 * l + 4) * Btot) (536870912 * 8)
                  ltac:(unfold Btot; nia)) as H3.
    rewrite (sym_scale 536870912 8) in H3.
    change (inject_Z 536870912) with 536870912%Q in H3.
    unfold Binary64.unit_roundoff. lra. }
  pose proof sym_8 as H8.
  (* the first frame *)
  assert (Ep : is_preamble_none preamble = false)
    by (destruct preamble; try reflexivity; contradiction).
  assert (Eb1 : FrameBits preamble first = O + 8 * first)
    by (unfold Binary64Phy.FrameBits; now rewrite Ep).
  assert (E0 : (sym 0 == 0)%Q)
    by (unfold Binary64Phy.Symbols, Qdiv; change (inject_Z 0) with 0%Q; ring).
  destruct (frame_step Qm preamble first WifiPhy_init 0 0)
    as (d1 & acc1 & Hrun1 & Hacc1 & Hb1 & Hd1);
    cbn [m_totalAmpduSize m_totalAmpduNumSymbols WifiPhy_init];
    rewrite ?Eb1; try lia; try lra.
  { pose proof (sym_mono (0 + (O + 8 * first)) Btot
                  ltac:(unfold Btot, S; lia)).
    fold h. unfold Qm. lra. }
  rewrite Eb1 in *. cbn [m_totalAmpduSize WifiPhy_init] in Hrun1.
  rewrite NumFacts.wrap32_small in Hrun1 by lia.
  rewrite Z.add_0_l in *. fold h in Hb1, Hd1.
  (* the frames that follow *)
  set (b1 := O + 8 * first) in *.
  pose proof (sym_mono (b1 + 8 * R) Btot ltac:(unfold b1, Btot, S; lia))
    as Hmono.
  destruct (MiddleFrames64_run Qm middle Hm HQm (mkWifiPhy first acc1) b1
              (0 + 3 * h)%Q)
    as (ds & acc2 & Hrun2 & Hacc2 & Hb2 & Hd2);
    cbn [m_totalAmpduSize m_totalAmpduNumSymbols]; fold R; fold l; fold L;
    fold h; try lia; try lra.
  { unfold Qm. lra. }
  cbn [m_totalAmpduSize m_totalAmpduNumSymbols] in *.
  fold R l L h in Hrun2, Hb2, Hd2.
  (* the whole symbols of the A-MPDU *)
  destruct (WholeSymbols64_bounds S HS) as (HW0 & HW1 & HW2).
  fold Btot in HW1, HW2.
  change (inject_Z Btot / Ne)%Q with (sym Btot) in HW1, HW2.
  set (w := W S) in *.
  assert (HK : (K <= 2)%Q).
  { pose proof (StbcFactor_cases txVector). apply (inject_Z_le _ 2). lia. }
  assert (HwQm : (inject_Z w <= Qm)%Q)
    by (unfold h, Qm in *; unfold Binary64.unit_roundoff in *; lra).
  assert (HwT : w * SymbolDuration txVector < 2 ^ 53).
  { rewrite Zlt_Qlt, inject_Z_mult.
    assert (H1 : (inject_Z w * T <= Qm * T)%Q)
      by (apply Qmult_le_compat_r; lra).
    assert (H2 : (inject_Z Btot <= 536871000)%Q)
      by (apply (inject_Z_le _ 536871000); unfold Btot; lia).
    apply Qle_lt_trans with (Qm * T)%Q; [exact H1|].
    assert (E : (Qm * T == sym Btot * T + 4 * T)%Q) by (unfold Qm; ring).
    rewrite E.
    apply Qle_lt_trans with 600000000000000%Q; [lra|reflexivity]. }
  (* the last frame *)
  assert (E8 : (sym Btot == sym (b1 + 8 * R) + sym (8 * last))%Q).
  { rewrite <- sym_add. unfold Btot, b1, S.
    now replace (O + 8 * (first + R + last))
      with (O + 8 * first + 8 * R + 8 * last) by lia. }
  pose proof (sym_mono 8 (8 * last) ltac:(lia)) as Hlast.
  destruct (payload_last64 last (mkWifiPhy (first + R) acc2))
    as (r & dk & Hrun3 & Hr & Hdk);
    cbn [m_totalAmpduSize m_totalAmpduNumSymbols];
    replace (first + R + last) with S by reflexivity; fold w;
    try lia; try assumption.
  { unfold h in *. unfold Binary64.unit_roundoff in *. lra. }
  cbn [m_totalAmpduSize m_totalAmpduNumSymbols] in *.
  replace (first + R + last) with S in * by reflexivity. fold w in Hr.
  (* the plain frame *)
  pose proof (payload_normal64 preamble S incFlag WifiPhy_init Hp HS HwT)
    as Hrun4.
  fold w in Hrun4.
  rewrite <- (SignalExtension_ends txVector frequency preamble Hp) in Hrun4.
  set (ext := SignalExtension txVector frequency LAST_MPDU_IN_AGGREGATE
                WIFI_PREAMBLE_NONE) in *.
  exists (d1 + ds + (dk + ext)), (w * SymbolDuration txVector + ext).
  split.
  { unfold Binary64Phy.SendAmpdu, Binary64Phy.FirstAndMiddleFrames.
    unfold bind at 1. unfold bind at 1. rewrite Hrun1.
    unfold bind at 1. rewrite Hrun2. unfold ret at 1.
    unfold bind at 1. rewrite Hrun3. reflexivity. }
  split; [exact Hrun4|].
  pose proof (sym_add b1 (8 * R)) as E9.
  assert (HTz : (inject_Z (w * SymbolDuration txVector) == inject_Z w * T)%Q)
    by (rewrite inject_Z_mult; reflexivity).
  set (x1 := inject_Z d1) in *. set (x2 := inject_Z ds) in *.
  set (x3 := inject_Z dk) in *. set (wq := inject_Z w) in *.
  set (s1 := sym b1) in *. set (s2 := sym (8 * R)) in *.
  set (s3 := sym (8 * last)) in *. set (s12 := sym (b1 + 8 * R)) in *.
  set (sB := sym Btot) in *.
  assert (Hq : (x1 + x2 + x3 <= wq * T + (73 # 100)
                /\ wq * T <= x1 + x2 + x3 + (L + 2) + (73 # 100))%Q).
  { assert (Ehd : (h == u * Qm)%Q) by reflexivity.
    clearbody x1 x2 x3 wq s1 s2 s3 s12 sB h L.
    pose proof (SymbolDuration_cases txVector) as HTc.
    unfold Binary64.unit_roundoff in *.
    destruct HTc as [ET|[ET|[ET|ET]]]; rewrite ET in *;
      [change (inject_Z 3600) with 3600%Q in *
      |change (inject_Z 4000) with 4000%Q in *
      |change (inject_Z 8000) with 8000%Q in *
      |change (inject_Z 16000) with 16000%Q in *]; split; lra. }
  destruct Hq as [Hq1 Hq2].
  assert (H1 : d1 + ds + dk <= w * SymbolDuration txVector).
  { apply (Z_le_of_Q _ _ (73 # 100)); [|reflexivity].
    rewrite HTz, !inject_Z_plus. exact Hq1. }
  assert (H2 : w * SymbolDuration txVector <= d1 + ds + dk + (l + 2)).
  { apply (Z_le_of_Q _ _ (73 # 100)); [|reflexivity].
    rewrite HTz, !inject_Z_plus. exact Hq2. }
  lia.
Qed.

(** A plain frame: whole symbols, within the rounding of one division of
    the symbols its bits fill. *)
Lemma plain_frame64 (preamble : WifiPreamble) (size incFlag : Z)
    (st : WifiPhy) :
  preamble <> WIFI_PREAMBLE_NONE -> 0 <= size < 2 ^ 30 ->
  Binary64Phy.GetPayloadDuration GetDataRate OFDMSCMin OFDMBRPMin size
    txVector preamble frequency NORMAL_MPDU incFlag st
  = (Ok (W size * SymbolDuration txVector
         + SignalExtension txVector frequency NORMAL_MPDU preamble), st)
  /\ (sym (O + 8 * size) * (1 - u) <= inject_Z (W size)
      <= sym (O + 8 * size) * (1 + u) + K)%Q.
Proof.
  intros Hp Hs. assert (Hs' : 0 <= size < 2 ^ 32) by lia.
  destruct (WholeSymbols64_bounds size Hs') as (HW0 & HW1 & HW2).
  change (inject_Z (O + 8 * size) / Ne)%Q with (sym (O + 8 * size)) in *.
  split; [|split; assumption].
  apply payload_normal64; [exact Hp|exact Hs'|].
  pose proof (sym_T (O + 8 * size) ltac:(lia)) as HBT.
  pose proof T_range64 as HT.
  assert (HK : (K <= 2)%Q).
  { pose proof (StbcFactor_cases txVector). apply (inject_Z_le _ 2). lia. }
  assert (Hb : (inject_Z (O + 8 * size) <= 8589934636)%Q)
    by (apply (inject_Z_le _ 8589934636); lia).
  pose proof (sym_nonneg (O + 8 * size) ltac:(lia)) as Hs0.
  rewrite Zlt_Qlt, inject_Z_mult.
  set (q := sym (O + 8 * size)) in *. set (w := inject_Z (W size)) in *.
  assert (H1 : (w * T <= (q * (1 + u) + 2) * T)%Q)
    by (apply Qmult_le_compat_r; lra).
  assert (E : ((q * (1 + u) + 2) * T == q * T * (1 + u) + 2 * T)%Q) by ring.
  rewrite E in H1.
  apply Qle_lt_trans with 9000000000000000%Q; [|reflexivity].
  unfold Binary64.unit_roundoff in *. lra.
Qed.

End Symbols64.

(** ** An A-MPDU against the plain MPDU of the same bytes *)

(** C3 (amended).  For a legacy OFDM, HT or VHT mode with data rates in
    range, take an A-MPDU of k frames, every frame after the first of at
    least one byte, whose frame sizes add up to S bytes with k * S at most
    2^27, sent as First, Middle..., Last with [incFlag = 1] from the zero
    accumulator.  Computed in binary64, every call returns a duration and
    the last one leaves the accumulator at zero; the durations add up to
    at most the duration of one plain MPDU of S bytes and fall short of it
    by at most k nanoseconds: every frame is converted to whole
    nanoseconds on its own, and the roundings of the doubles add less
    than a nanosecond to that. *)
Theorem aggregate_duration_close_to_plain_mpdu :
  forall (GetDataRate : WifiMode -> Z -> bool -> Z -> Z)
         (OFDMSCMin OFDMBRPMin : Q) (txVector : WifiTxVector) (frequency : Q)
         (preamble : WifiPreamble) (first : Z) (middle : list Z) (last : Z)
         (incFlag : Z),
    GetModulationClass (GetMode txVector) = WIFI_MOD_CLASS_OFDM
    \/ GetModulationClass (GetMode txVector) = WIFI_MOD_CLASS_HT
    \/ GetModulationClass (GetMode txVector) = WIFI_MOD_CLASS_VHT ->
    rates_in_range GetDataRate (GetMode txVector) ->
    preamble <> WIFI_PREAMBLE_NONE ->
    0 <= first -> Forall (fun s => 1 <= s) middle -> 1 <= last ->
    (2 + Z.of_nat (List.length middle)) * (first + sum_sizes middle + last)
    <= 2 ^ 27 ->
    exists (total normal : Time),
      Binary64Phy.SendAmpdu GetDataRate OFDMSCMin OFDMBRPMin txVector
        frequency preamble first middle last WifiPhy_init
      = (Ok total, WifiPhy_init)
      /\ Binary64Phy.GetPayloadDuration GetDataRate OFDMSCMin OFDMBRPMin
           (first + sum_sizes middle + last) txVector preamble frequency
           NORMAL_MPDU incFlag WifiPhy_init = (Ok normal, WifiPhy_init)
      /\ total <= normal
      /\ normal - total <= 2 + Z.of_nat (List.length middle).
Proof.
  intros GetDataRate OFDMSCMin OFDMBRPMin txVector frequency preamble first
    middle last incFlag Hc Hrates Hp Hf Hall Hl Hk.
  destruct (Bits_exact txVector) as (O & HO1 & _ & HO).
  destruct (SendAmpdu64_run GetDataRate OFDMSCMin OFDMBRPMin txVector Hc
              Hrates frequency O HO1 HO preamble first middle last incFlag
              Hp Hf Hall Hl)
    as (total & normal & Hrun & Hnormal & Hle); [lia|].
  exists total, normal. repeat split; try assumption; lia.
Qed.

Lemma SampleDataRate_in_range_ht :
  rates_in_range SampleDataRate (GetMode SampleHtTxVector).
Proof. intros w g n. vm_compute. split; discriminate. Qed.

Lemma aggregate_duration_close_to_plain_mpdu_witness :
  exists (total normal : Time),
    Binary64Phy.SendAmpdu SampleDataRate 0 0 SampleHtTxVector 5180
      WIFI_PREAMBLE_HT_MF 1500 [1500; 1500] 700 WifiPhy_init
    = (Ok total, WifiPhy_init)
    /\ Binary64Phy.GetPayloadDuration SampleDataRate 0 0
         (1500 + sum_sizes [1500; 1500] + 700) SampleHtTxVector
         WIFI_PREAMBLE_HT_MF 5180 NORMAL_MPDU 0 WifiPhy_init
       = (Ok normal, WifiPhy_init)
    /\ total <= normal
    /\ normal - total <= 2 + Z.of_nat (List.length [1500; 1500]).
Proof.
  apply (aggregate_duration_close_to_plain_mpdu SampleDataRate 0 0
           SampleHtTxVector 5180 WIFI_PREAMBLE_HT_MF 1500 [1500; 1500] 700 0).
  - right. left. reflexivity.
  - exact SampleDataRate_in_range_ht.
  - discriminate.
  - lia.
  - repeat constructor; lia.
  - lia.
  - vm_compute. discriminate.
Defined.

(** C3, as stated, fails for a long A-MPDU: 4502 frames of nine bytes at
    6.5 Mbit/s (HT MCS 0, 26 bits to the symbol of 4000 ns) take
    49867845 ns frame by frame, every frame but the first and the last
    11076 ns where its 72 bits fill 11076.92 ns, against 49872000 ns for
    one MPDU of 40518 bytes: 4155 ns apart, more than a symbol. *)
Lemma aggregation_conservation_fails_for_many_frames :
  ~ aggregation_conservation_as_stated.
Proof.
  intros H.
  destruct (H SampleDataRate 0%Q 0%Q SampleHtTxVector 5180%Q
              WIFI_PREAMBLE_HT_MF 9 (replicate (Z.to_nat 4500) 9) 9)
    as (total & normal & st & st' & Hrun & Hnormal & Habs).
  { right. left. reflexivity. }
  { exact SampleDataRate_in_range_ht. }
  { discriminate. }
  { lia. }
  { apply Forall_replicate. lia. }
  { lia. }
  { vm_compute. reflexivity. }
  assert (Esum : sum_sizes (replicate (Z.to_nat 4500) 9) = 40500)
    by (vm_compute; reflexivity).
  rewrite Esum in Hnormal.
  assert (E1 : Binary64Phy.SendAmpdu SampleDataRate 0 0 SampleHtTxVector 5180
                 WIFI_PREAMBLE_HT_MF 9 (replicate (Z.to_nat 4500) 9) 9
                 WifiPhy_init = (Ok 49867845, WifiPhy_init))
    by (vm_compute; reflexivity).
  assert (E2 : Binary64Phy.GetPayloadDuration SampleDataRate 0 0
                 (9 + 40500 + 9) SampleHtTxVector WIFI_PREAMBLE_HT_MF 5180
                 NORMAL_MPDU 0 WifiPhy_init = (Ok 49872000, WifiPhy_init))
    by (vm_compute; reflexivity).
  rewrite E1 in Hrun. rewrite E2 in Hnormal.
  injection Hrun as <- _. injection Hnormal as <- _.
  change (SymbolDuration SampleHtTxVector) with 4000 in Habs. lia.
Qed.

(** C4.  The check of the last frame, [m_totalAmpduNumSymbols <=
    numSymbols], fails on an A-MPDU of 14, 3, 3 and 0 bytes at 6.5 Mbit/s
    (HT MCS 0, 26 bits to the symbol): the three quotients 134 / 26,
    24 / 26 and 24 / 26 add up, rounded one by one, to 7 + 2^-50, more
    than the 7 symbols of the 182 bits of the aggregate.  The call stops
    at the assertion and leaves 20 bytes and those symbols in the
    accumulator. *)
Theorem accumulated_symbols_exceed_aggregate :
  Binary64Phy.SendAmpdu SampleDataRate 0 0 SampleHtTxVector 5180
    WIFI_PREAMBLE_HT_MF 14 [3; 3] 0 WifiPhy_init
  = (Err AssertionFailed,
     mkWifiPhy 20 (7881299347898369 # 1125899906842624))
  /\ Binary64Phy.WholeSymbols SampleDataRate SampleHtTxVector 20 = 7
  /\ (7 < 7881299347898369 # 1125899906842624)%Q.
Proof. split; [|split]; vm_compute; reflexivity. Qed.

(** ** The bits of a DMG frame *)

Lemma Qceiling_ratio (a b : Z) (x : Q) :
  0 < b -> (x == inject_Z a / inject_Z b)%Q ->
  a <= Qceiling x * b < a + b.
Proof.
  intros Hb Hx.
  assert (Hbq : (0 < inject_Z b)%Q) by (now apply (inject_Z_lt 0)).
  assert (Ha : (inject_Z a == x * inject_Z b)%Q).
  { rewrite Hx. field. lra. }
  pose proof (Qle_ceiling x) as H1. pose proof (Qceiling_lt_succ x) as H2.
  set (c := Qceiling x) in *.
  assert (L : (inject_Z a <= inject_Z (c * b))%Q).
  { rewrite inject_Z_mult, Ha. apply Qmult_le_compat_r; [exact H1|lra]. }
  assert (U : (inject_Z (c * b) < inject_Z (a + b))%Q).
  { rewrite inject_Z_mult, inject_Z_plus, Ha.
    assert (E : (x * inject_Z b + inject_Z b == (x + 1) * inject_Z b)%Q)
      by ring.
    rewrite E. apply Qmult_lt_compat_r; [exact Hbq|exact H2]. }
  rewrite <- Zle_Qle in L. rewrite <- Zlt_Qlt in U. lia.
Qed.

Lemma uint32_ceil_ratio (a b : Z) (x : Q) :
  0 <= a -> 0 < b -> a + b <= 2 ^ 32 * b ->
  (x == inject_Z a / inject_Z b)%Q ->
  Num.to_uint32 (Num.ceil x) = Ok (Qceiling x)
  /\ a <= Qceiling x * b < a + b /\ 0 <= Qceiling x < 2 ^ 32.
Proof.
  intros Ha Hb Hab Hx. pose proof (Qceiling_ratio a b x Hb Hx) as Hc.
  assert (0 <= Qceiling x < 2 ^ 32) by nia.
  split; [|split; assumption].
  unfold Num.ceil. now apply NumFacts.to_uint32_inject.
Qed.

(** The packing of [size] bytes into coded bits, codewords and blocks (or
    OFDM symbols) of [p] coded bits. *)
Lemma dmg_packing (mode : WifiMode) (size p : Z) :
  DmgNcbits mode 0 = Ok 0 ->
  0 <= size <= 100000000 -> 336 <= p <= 3584 ->
  exists Ncbits Ncw Nblks : Z,
    DmgNcbits mode (Num.wrap32 (size * 8)) = Ok Ncbits
    /\ Num.to_uint32 (Num.ceil (inject_Z Ncbits / 672)) = Ok Ncw
    /\ Num.to_uint32 (Num.ceil (inject_Z Ncw * 672 / inject_Z p)) = Ok Nblks
    /\ size * 8 <= Ncbits <= size * 32
    /\ Ncbits <= Ncw * 672 < Ncbits + 672
    /\ Ncw * 672 <= Nblks * p < Ncw * 672 + p
    /\ 0 <= Ncw /\ 0 <= Nblks.
Proof.
  intros Hrate Hs Hp. rewrite NumFacts.wrap32_small by lia.
  assert (Hc : exists Ncbits : Z,
             DmgNcbits mode (size * 8) = Ok Ncbits
             /\ size * 8 <= Ncbits <= size * 32).
  { revert Hrate. unfold DmgNcbits.
    destruct (GetCodeRate mode); try discriminate; intros _.
    - destruct (uint32_ceil_ratio (size * 8 * 4) 3
                  (inject_Z (size * 8) * 4 / 3)) as (E & Hb & _);
        [lia|lia|lia|rewrite !inject_Z_mult; reflexivity|].
      rewrite E. eexists. split; [reflexivity|lia].
    - rewrite NumFacts.wrap32_small by lia. eexists. split; [reflexivity|lia].
    - rewrite NumFacts.wrap32_small by lia. eexists. split; [reflexivity|lia].
    - destruct (uint32_ceil_ratio (size * 8 * 16) 13
                  (inject_Z (size * 8) * 16 / 13)) as (E & Hb & _);
        [lia|lia|lia|rewrite !inject_Z_mult; reflexivity|].
      rewrite E. eexists. split; [reflexivity|lia].
    - destruct (uint32_ceil_ratio (size * 8 * 8) 5
                  (inject_Z (size * 8) * 8 / 5)) as (E & Hb & _);
        [lia|lia|lia|rewrite !inject_Z_mult; reflexivity|].
      rewrite E. eexists. split; [reflexivity|lia]. }
  destruct Hc as (c & Ec & Hc).
  destruct (uint32_ceil_ratio c 672 (inject_Z c / 672)) as (Ew & Hw & Hw');
    [lia|lia|lia|reflexivity|].
  destruct (uint32_ceil_ratio (Qceiling (inject_Z c / 672) * 672) p
              (inject_Z (Qceiling (inject_Z c / 672)) * 672 / inject_Z p))
    as (Eb & Hb & Hb'); [lia|lia|lia| |].
  { rewrite inject_Z_mult. reflexivity. }
  exists c, (Qceiling (inject_Z c / 672)),
    (Qceiling (inject_Z (Qceiling (inject_Z c / 672)) * 672 / inject_Z p)).
  repeat split; try assumption; try lia.
Qed.

Lemma Constructor_code_rates :
  List.Forall
    (fun mode =>
       GetModulationClass mode = WIFI_MOD_CLASS_DMG_SC
       \/ GetModulationClass mode = WIFI_MOD_CLASS_DMG_OFDM ->
       DmgNcbits mode 0 = Ok 0
       /\ (GetModulationClass mode = WIFI_MOD_CLASS_DMG_SC ->
           exists p, DmgScNcbpb mode = Ok p)
       /\ (GetModulationClass mode = WIFI_MOD_CLASS_DMG_OFDM ->
           exists p, DmgOfdmNcbps mode = Ok p))
    Constructor.
Proof.
  repeat (constructor;
          [intros [Hc|Hc]; try discriminate Hc;
           (split; [vm_compute; reflexivity|]);
           split; intros Hc'; try discriminate Hc';
           eexists; vm_compute; reflexivity|]).
  constructor.
Qed.

(** X16.  [CaluclateTransmittedBits] counts bits for the DMG
    single-carrier and OFDM modes only (every other class, the DMG control
    mode too, is a fatal error), and although it returns a [uint64_t] the
    count it returns is always below 2^32. *)
Theorem transmitted_bits_fit_32_bits :
  forall (size : Z) (txvector : WifiTxVector) (bits : Z),
    CaluclateTransmittedBits size txvector = Ok bits ->
    (GetModulationClass (GetMode txvector) = WIFI_MOD_CLASS_DMG_SC
     \/ GetModulationClass (GetMode txvector) = WIFI_MOD_CLASS_DMG_OFDM)
    /\ 0 <= bits < 2 ^ 32.
Proof.
  intros size tv bits. unfold CaluclateTransmittedBits.
  destruct (GetModulationClass (GetMode tv)); try discriminate;
    repeat match goal with
           | |- context [rbind ?r _] => destruct r; simpl rbind;
                                         try discriminate
           end;
    intros [= <-]; (split; [auto|apply NumFacts.wrap32_range]).
Qed.

(** X17.  The bits on the air cover the payload: for a registered DMG
    single-carrier or OFDM mode and a payload of up to 100000000 bytes,
    [CaluclateTransmittedBits] returns a count that is at least the bits of
    the payload plus the 4416 (single carrier) or 4000 (OFDM) bits of
    preamble, header and first guard interval. *)
Theorem transmitted_bits_cover_the_payload :
  forall (size : Z) (txvector : WifiTxVector),
    In (GetMode txvector) Constructor ->
    GetModulationClass (GetMode txvector) = WIFI_MOD_CLASS_DMG_SC
    \/ GetModulationClass (GetMode txvector) = WIFI_MOD_CLASS_DMG_OFDM ->
    0 <= size <= 100000000 ->
    exists bits : Z,
      CaluclateTransmittedBits size txvector = Ok bits
      /\ match GetModulationClass (GetMode txvector) with
         | WIFI_MOD_CLASS_DMG_SC => 4416
         | _ => 4000
         end + 8 * size <= bits.
Proof.
  intros size tv Hin Hc Hs.
  destruct (proj1 (List.Forall_forall _ _) Constructor_code_rates _ Hin Hc)
    as (Hrate & Hsc & Hofdm).
  unfold CaluclateTransmittedBits.
  destruct Hc as [Hc|Hc]; rewrite Hc.
  - destruct (Hsc Hc) as [p Hp]. rewrite Hp. simpl rbind.
    pose proof (DmgScNcbpb_range _ _ Hp) as Hpr.
    destruct (dmg_packing (GetMode tv) size p Hrate Hs)
      as (c & w & b & Ec & Ew & Eb & H1 & H2 & H3 & H4 & H5); [lia|].
    rewrite Ec. simpl rbind. rewrite Ew. simpl rbind. rewrite Eb.
    simpl rbind. eexists. split; [reflexivity|].
    rewrite NumFacts.wrap32_small by nia. nia.
  - destruct (Hofdm Hc) as [p Hp]. rewrite Hp. simpl rbind.
    pose proof (DmgOfdmNcbps_range _ _ Hp) as Hpr.
    destruct (dmg_packing (GetMode tv) size p Hrate Hs)
      as (c & w & b & Ec & Ew & Eb & H1 & H2 & H3 & H4 & H5); [lia|].
    rewrite Ec. simpl rbind. rewrite Ew. simpl rbind. rewrite Eb.
    simpl rbind. eexists. split; [reflexivity|].
    rewrite NumFacts.wrap32_small by nia. nia.
Qed.

Lemma dmg_packing_mono (mode : WifiMode) (a b p : Z) :
  DmgNcbits mode 0 = Ok 0 ->
  0 <= a <= b -> b <= 100000000 -> 336 <= p <= 3584 ->
  exists Na Nb : Z,
    (let? Ncbits := DmgNcbits mode (Num.wrap32 (a * 8)) in
     let? Ncw := Num.to_uint32 (Num.ceil (inject_Z Ncbits / 672)) in
     Num.to_uint32 (Num.ceil (inject_Z Ncw * 672 / inject_Z p))) = Ok Na
    /\ (let? Ncbits := DmgNcbits mode (Num.wrap32 (b * 8)) in
        let? Ncw := Num.to_uint32 (Num.ceil (inject_Z Ncbits / 672)) in
        Num.to_uint32 (Num.ceil (inject_Z Ncw * 672 / inject_Z p))) = Ok Nb
    /\ 0 <= Na <= Nb /\ a * 8 <= Na * p /\ Nb * p < 3200000672 + p.
Proof.
  intros Hrate Hab Hb Hp.
  destruct (dmg_packing mode a p Hrate) as
    (ca & wa & na & Eca & Ewa & Ena & A1 & A2 & A3 & A4 & A5); [lia|lia|].
  destruct (dmg_packing mode b p Hrate) as
    (cb & wb & nb & Ecb & Ewb & Enb & B1 & B2 & B3 & B4 & B5); [lia|lia|].
  rewrite Eca, Ecb. simpl rbind. rewrite Ewa, Ewb. simpl rbind.
  exists na, nb. split; [exact Ena|]. split; [exact Enb|].
  rewrite NumFacts.wrap32_small in Eca, Ecb by lia.
  destruct (DmgNcbits_mono mode (a * 8) (b * 8) ca) as (cb' & Ecb' & Hc & _);
    [lia|lia|exact Eca|].
  assert (cb' = cb) by congruence. subst cb'.
  destruct (codewords_step ca cb wa) as (wb' & Ewb' & Hw & _);
    [lia|lia|exact Ewa|].
  assert (wb' = wb) by congruence. subst wb'.
  destruct (blocks_step p 336 12782642 wa wb na) as (nb' & Enb' & Hn & _);
    [lia|lia|lia|lia|lia|nia|exact Ena|].
  assert (nb' = nb) by congruence. subst nb'.
  repeat split; try lia; nia.
Qed.

(** X18.  More payload never means fewer bits on the air: for a registered
    DMG single-carrier or OFDM mode and sizes a <= b of up to 100000000
    bytes, [CaluclateTransmittedBits] returns a count for both and the
    count for [b] is at least the count for [a]. *)
Theorem transmitted_bits_monotone :
  forall (a b : Z) (txvector : WifiTxVector),
    In (GetMode txvector) Constructor ->
    GetModulationClass (GetMode txvector) = WIFI_MOD_CLASS_DMG_SC
    \/ GetModulationClass (GetMode txvector) = WIFI_MOD_CLASS_DMG_OFDM ->
    0 <= a <= b -> b <= 100000000 ->
    exists bitsa bitsb : Z,
      CaluclateTransmittedBits a txvector = Ok bitsa
      /\ CaluclateTransmittedBits b txvector = Ok bitsb
      /\ bitsa <= bitsb.
Proof.
  intros a b tv Hin Hc Hab Hb.
  destruct (proj1 (List.Forall_forall _ _) Constructor_code_rates _ Hin Hc)
    as (Hrate & Hsc & Hofdm).
  unfold CaluclateTransmittedBits.
  destruct Hc as [Hc|Hc]; rewrite Hc.
  - destruct (Hsc Hc) as [p Hp]. rewrite Hp. simpl rbind.
    pose proof (DmgScNcbpb_range _ _ Hp) as Hpr.
    destruct (dmg_packing_mono (GetMode tv) a b p Hrate Hab Hb)
      as (na & nb & Ea & Eb & H1 & H2 & H3); [lia|].
    destruct (DmgNcbits _ (Num.wrap32 (a * 8))) as [ca|]; [|discriminate Ea].
    destruct (DmgNcbits _ (Num.wrap32 (b * 8))) as [cb|]; [|discriminate Eb].
    simpl rbind in *.
    destruct (Num.to_uint32 (Num.ceil (inject_Z ca / 672))) as [wa|];
      [|discriminate Ea].
    destruct (Num.to_uint32 (Num.ceil (inject_Z cb / 672))) as [wb|];
      [|discriminate Eb].
    simpl rbind in *. rewrite Ea, Eb. simpl rbind.
    do 2 eexists. split; [reflexivity|]. split; [reflexivity|].
    rewrite !NumFacts.wrap32_small by nia. nia.
  - destruct (Hofdm Hc) as [p Hp]. rewrite Hp. simpl rbind.
    pose proof (DmgOfdmNcbps_range _ _ Hp) as Hpr.
    destruct (dmg_packing_mono (GetMode tv) a b p Hrate Hab Hb)
      as (na & nb & Ea & Eb & H1 & H2 & H3); [lia|].
    destruct (DmgNcbits _ (Num.wrap32 (a * 8))) as [ca|]; [|discriminate Ea].
    destruct (DmgNcbits _ (Num.wrap32 (b * 8))) as [cb|]; [|discriminate Eb].
    simpl rbind in *.
    destruct (Num.to_uint32 (Num.ceil (inject_Z ca / 672))) as [wa|];
      [|discriminate Ea].
    destruct (Num.to_uint32 (Num.ceil (inject_Z cb / 672))) as [wb|];
      [|discriminate Eb].
    simpl rbind in *. rewrite Ea, Eb. simpl rbind.
    do 2 eexists. split; [reflexivity|]. split; [reflexivity|].
    rewrite !NumFacts.wrap32_small by nia. nia.
Qed.

(** X19.  The bit count and the payload duration of a single-carrier frame
    agree on the number of symbol blocks: for a registered DMG
    single-carrier mode without training field and a payload of up to
    100000000 bytes there is one number of blocks [Nblks] such that
    [CaluclateTransmittedBits] returns 4416 + Nblks * (Ncbpb + 64) bits and
    [GetPayloadDuration] returns the time of 512 * Nblks + 64 chips at
    1.76 GHz, rounded up to a nanosecond. *)
Theorem single_carrier_bits_and_duration_agree :
  forall (GetDataRate : WifiMode -> Z -> bool -> Z -> Z)
         (OFDMSCMin OFDMBRPMin : Q) (size : Z) (txVector : WifiTxVector)
         (preamble : WifiPreamble) (frequency : Q) (mpdutype : mpduType)
         (incFlag : Z) (st : WifiPhy),
    In (GetMode txVector) Constructor ->
    GetModulationClass (GetMode txVector) = WIFI_MOD_CLASS_DMG_SC ->
    GetTrainngFieldLength txVector = 0 ->
    0 <= size <= 100000000 ->
    exists Ncbpb Nblks : Z,
      DmgScNcbpb (GetMode txVector) = Ok Ncbpb
      /\ 0 <= Nblks
      /\ CaluclateTransmittedBits size txVector
         = Ok (4416 + Nblks * (Ncbpb + 64))
      /\ GetPayloadDuration GetDataRate OFDMSCMin OFDMBRPMin size txVector
           preamble frequency mpdutype incFlag st
         = (Ok (Qceiling ((inject_Z Nblks * 512 + 64) / (176 # 100))), st).
Proof.
  intros GetDataRate OFDMSCMin OFDMBRPMin size tv pr f mt flag st Hin Hc Ht
    Hs.
  destruct (proj1 (List.Forall_forall _ _) Constructor_code_rates _ Hin
              (or_introl Hc)) as (Hrate & Hsc & _).
  destruct (Hsc Hc) as [p Hp].
  pose proof (DmgScNcbpb_range _ _ Hp) as Hpr.
  destruct (dmg_packing (GetMode tv) size p Hrate Hs)
    as (c & w & b & Ec & Ew & Eb & H1 & H2 & H3 & H4 & H5); [lia|].
  assert (Hb : 0 <= b <= 7142866) by nia.
  exists p, b. split; [exact Hp|]. split; [lia|].
  unfold GetPayloadDuration, CaluclateTransmittedBits, DmgScPayloadDuration,
    DmgTrainingFloor, lift.
  rewrite Hc, Hp, Ht. simpl rbind. rewrite Ec. simpl rbind.
  rewrite Ew. simpl rbind. rewrite Eb. simpl rbind.
  split.
  - rewrite NumFacts.wrap32_small by nia. f_equal. ring.
  - assert (0 <= inject_Z b)%Q by (apply (inject_Z_le 0); lia).
    assert (inject_Z b <= 7142866)%Q
      by (apply (inject_Z_le _ 7142866); lia).
    destruct (lrint_ceil ((inject_Z b * 512 + 64) / (176 # 100)) 4294967295)
      as [El Hl].
    + apply Qdiv_nonneg; [lra|reflexivity].
    + apply Qle_shift_div_r; [reflexivity|].
      change (inject_Z 4294967295) with 4294967295%Q. lra.
    + lia.
    + rewrite El. simpl rbind. rewrite NumFacts.wrap32_small by lia.
      cbn [negb Z.eqb]. unfold NanoSeconds.
      rewrite int64_of_uint64_small by lia. reflexivity.
Qed.

(** ** More on the element container *)

Section ContainerOperations.

Variable ids : ElementIds.

Lemma CreateForId_unregistered id p h :
  registered ids id = false -> CreateForId ids id p h = (p, h).
Proof.
  unfold registered, CreateForId. intros H.
  repeat (apply orb_false_elim in H as [H ?]).
  repeat match goal with
         | E : (?x =? ?y) = false |- _ => rewrite E; clear E
         end.
  reflexivity.
Qed.

Lemma DeserializeLoop_nil fuel h m_map p :
  DeserializeLoop ids fuel h m_map p [] = Ok (h, m_map).
Proof. destruct fuel; reflexivity. Qed.

Lemma Serialize_size (e : WifiInformationElement) :
  GetInformationFieldSize e
  = Z.of_nat (List.length (SerializeInformationField e)) ->
  Z.of_nat (List.length (Serialize ids e)) = GetSerializedSize e.
Proof.
  intros H. unfold Serialize, GetSerializedSize, WriteU8.
  rewrite !length_app. simpl. lia.
Qed.

Lemma SerializedSizeFrom_length h (es : list (Z * Ptr)) :
  (forall id p, (id, p) ∈ es ->
     exists e, deref h p = Ok e /\ ElementId ids e = id
               /\ well_formed_element ids e) ->
  forall size : Z,
    0 <= size < 2 ^ 32 ->
    exists bytes : list Z,
      SerializeFrom ids h es = Ok bytes
      /\ SerializedSizeFrom h size es
         = Ok (Num.wrap32 (size + Z.of_nat (List.length bytes)))
      /\ (List.length bytes <= 257 * List.length es)%nat.
Proof.
  induction es as [|[k p] es IH]; intros H size Hsize.
  - exists []. simpl. rewrite Z.add_0_r, NumFacts.wrap32_small by lia.
    split; [reflexivity|]. split; [reflexivity|lia].
  - destruct (H k p) as (e & He & Hk & Hwf); [left|].
    destruct Hwf as (_ & _ & Hfield & Hlt).
    destruct (IH (fun id' p' Hin => H id' p' (list_elem_of_further _ _ _ Hin))
                (Num.wrap32 (size + GetSerializedSize e)))
      as (bytes & Hser & Hsz & Hlen).
    { apply NumFacts.wrap32_range. }
    exists (Serialize ids e ++ bytes). simpl. rewrite He. simpl.
    rewrite Hser, Hsz. simpl. split; [reflexivity|].
    pose proof (Serialize_size e Hfield) as Hs.
    split.
    + f_equal. unfold Num.wrap32. rewrite Zplus_mod_idemp_l.
      f_equal. rewrite length_app. unfold GetSerializedSize. lia.
    + rewrite ?length_app. simpl. lia.
Qed.

Lemma well_formed_size h (m_map : gmap Z Ptr) :
  well_formed ids h m_map -> (size m_map <= 256)%nat.
Proof.
  intros Hwf.
  assert (Hsub : dom m_map ⊆ (list_to_set (seqZ 0 256) : gset Z)).
  { intros id Hid. apply elem_of_dom in Hid as [p Hp].
    destruct (Hwf id p Hp) as (e & _ & Hk & (Hr & _)).
    apply elem_of_list_to_set, elem_of_seqZ. lia. }
  apply subseteq_size in Hsub. rewrite size_dom in Hsub.
  rewrite size_list_to_set in Hsub by apply NoDup_seqZ.
  rewrite length_seqZ in Hsub. exact Hsub.
Qed.

(** X20.  Adding an element files it under its own id and touches no other
    entry, and a lookup of that id then returns the element added without
    changing the container. *)
Theorem added_element_is_found :
  forall (h : Heap) (element : Ptr) (e : WifiInformationElement)
         (m_map : gmap Z Ptr),
    deref h element = Ok e ->
    exists m_map' : gmap Z Ptr,
      AddWifiInformationElement ids h element m_map = Ok m_map'
      /\ GetInformationElement (ElementId ids e) m_map' = (element, m_map')
      /\ forall id : Z, id <> ElementId ids e -> m_map' !! id = m_map !! id.
Proof.
  intros h p e m He. unfold AddWifiInformationElement, GetInformationElement.
  rewrite He. simpl. eexists. split; [reflexivity|].
  rewrite lookup_insert_eq. split; [reflexivity|].
  intros id Hne. now apply lookup_insert_ne.
Qed.

(** X21.  The container keeps one element per id and forgets the order of
    insertion: two elements with different ids can be added in either
    order with the same result, and of two elements with the same id the
    one added last is the one that stays. *)
Theorem container_keeps_last_element_per_id :
  forall (h : Heap) (p1 p2 : Ptr) (e1 e2 : WifiInformationElement)
         (m_map : gmap Z Ptr),
    deref h p1 = Ok e1 -> deref h p2 = Ok e2 ->
    (ElementId ids e1 <> ElementId ids e2 ->
     (let? m := AddWifiInformationElement ids h p1 m_map in
      AddWifiInformationElement ids h p2 m)
     = (let? m := AddWifiInformationElement ids h p2 m_map in
        AddWifiInformationElement ids h p1 m))
    /\ (ElementId ids e1 = ElementId ids e2 ->
        (let? m := AddWifiInformationElement ids h p1 m_map in
         AddWifiInformationElement ids h p2 m)
        = AddWifiInformationElement ids h p2 m_map).
Proof.
  intros h p1 p2 e1 e2 m H1 H2. unfold AddWifiInformationElement.
  rewrite H1, H2. simpl. rewrite ?H1, ?H2. simpl. split; intros Hid.
  - f_equal. apply insert_insert_ne. congruence.
  - f_equal. rewrite Hid. apply insert_insert_eq.
Qed.

(** X22.  For a container of well-formed elements the size
    [GetInformationElementsSerializedSize] announces is the number of
    bytes [SerializeInformationElements] writes. *)
Theorem serialized_size_is_number_of_bytes :
  forall (h : Heap) (m_map : gmap Z Ptr),
    well_formed ids h m_map ->
    exists bytes : list Z,
      SerializeInformationElements ids h m_map = Ok bytes
      /\ GetInformationElementsSerializedSize h m_map
         = Ok (Z.of_nat (List.length bytes)).
Proof.
  intros h m Hwf.
  destruct (SerializedSizeFrom_length h (in_order m)) with (size := 0)
    as (bytes & Hser & Hsz & Hlen).
  { intros id p Hin. apply Hwf. now apply elem_of_in_order. }
  { lia. }
  exists bytes. split; [exact Hser|].
  unfold GetInformationElementsSerializedSize. rewrite Hsz.
  assert (Hn : (List.length (in_order m) <= 256)%nat).
  { unfold in_order. rewrite merge_sort_Permutation, length_map_to_list.
    eapply well_formed_size; eassumption. }
  rewrite Z.add_0_l, NumFacts.wrap32_small by lia. reflexivity.
Qed.

(** X23.  A buffer whose first record has an id the switch has no case for
    cannot be parsed: no element is created, the local [element] is still
    the null pointer, and the call of [DeserializeElementBody] goes through
    it. *)
Theorem unknown_first_id_is_a_null_dereference :
  forall (h : Heap) (m_map : gmap Z Ptr) (id length : Z) (rest : list Z),
    registered ids id = false ->
    DeserializeInformationElements ids h m_map (id :: length :: rest)
    = Err NullDereference.
Proof.
  intros h m id len rest Hid.
  unfold DeserializeInformationElements. simpl.
  rewrite CreateForId_unregistered by assumption. reflexivity.
Qed.

(** X24.  A record with an id the switch has no case for, when it follows
    a record the switch knows, is parsed into the element of that
    preceding record: both ids then map to one and the same object, which
    keeps the class of the first record and holds the body of the
    second. *)
Theorem unknown_id_reuses_previous_element :
  forall (h : Heap) (m_map : gmap Z Ptr) (e : WifiInformationElement)
         (id : Z) (body : list Z),
    well_formed_element ids e ->
    registered ids id = false ->
    exists (h' : Heap) (m_map' : gmap Z Ptr) (e' : WifiInformationElement),
      DeserializeInformationElements ids h m_map
        (Serialize ids e ++ id :: Z.of_nat (List.length body) :: body)
      = Ok (h', m_map')
      /\ m_map' !! ElementId ids e = Some (Some (List.length h))
      /\ m_map' !! id = Some (Some (List.length h))
      /\ deref h' (Some (List.length h)) = Ok e'
      /\ ElementId ids e' = ElementId ids e
      /\ SerializeInformationField e' = body.
Proof.
  intros h m e id body Hwf Hid.
  assert (Hne : id <> ElementId ids e).
  { destruct Hwf as (_ & Hreg & _). congruence. }
  pose proof (Serialize_length ids e) as Hlen.
  destruct (List.length (Serialize ids e)) as [|n] eqn:En; [lia|].
  destruct (DeserializeLoop_record ids
              (n + List.length (id :: Z.of_nat (List.length body) :: body))
              h m None e (id :: Z.of_nat (List.length body) :: body) Hwf)
    as (e1 & Hstep & He1).
  assert (Hid1 : ElementId ids e1 = ElementId ids e)
    by (unfold entry_of in He1; congruence).
  exists (<[List.length h := mkElement (ie_class e1)
                               (Z.of_nat (List.length body)) body]>
            (h ++ [e1])),
    (<[id := Some (List.length h)]>
       (<[ElementId ids e := Some (List.length h)]> m)),
    (mkElement (ie_class e1) (Z.of_nat (List.length body)) body).
  split.
  { unfold DeserializeInformationElements.
    rewrite length_app, En. cbn [Nat.add]. rewrite Hstep.
    cbn [List.length]. rewrite Nat.add_succ_r.
    cbn [DeserializeLoop DeserializeElementID rbind].
    rewrite CreateForId_unregistered by assumption.
    unfold DeserializeElementBody, deref.
    rewrite list_lookup_middle by reflexivity. cbn [rbind].
    rewrite Z.ltb_irrefl, Nat2Z.id, take_ge, drop_ge by lia.
    apply DeserializeLoop_nil. }
  split; [rewrite lookup_insert_ne by assumption; apply lookup_insert_eq|].
  split; [apply lookup_insert_eq|].
  split; [|split; [exact Hid1|reflexivity]].
  unfold deref. rewrite <- (Nat.add_0_r (List.length h)) at 2.
  rewrite insert_app_r. simpl. rewrite list_lookup_middle by reflexivity.
  reflexivity.
Qed.

End ContainerOperations.

Section ContainerMerge.

Variable ids : ElementIds.

Lemma foldl_insert_other {A V : Type} (k : A -> Z) (v : A -> V)
    (es : list A) (id : Z) :
  Forall (fun e => k e <> id) es ->
  forall m0 : gmap Z V,
    foldl (fun acc e => <[k e := v e]> acc) m0 es !! id = m0 !! id.
Proof.
  induction 1 as [|e es He Hes IH]; intros m0; [reflexivity|].
  simpl. rewrite IH. now apply lookup_insert_ne.
Qed.

Lemma foldl_insert_last {A V : Type} (k : A -> Z) (v : A -> V)
    (es1 es2 : list A) (e : A) (m0 : gmap Z V) :
  Forall (fun e' => k e' <> k e) es2 ->
  foldl (fun acc e => <[k e := v e]> acc) m0 (es1 ++ e :: es2) !! k e
  = Some (v e).
Proof.
  intros H. rewrite foldl_app. simpl.
  rewrite foldl_insert_other by assumption. apply lookup_insert_eq.
Qed.

(** X25.  Parsing a buffer of well-formed records merges it into the
    container: an entry whose id no record has keeps its element, and
    under the id of a record sits the body of the last record with that
    id, whether the id was in the container before or occurs in the
    buffer more than once. *)
Theorem deserialize_merges_records :
  forall (es : list WifiInformationElement) (h : Heap) (m_map : gmap Z Ptr),
    Forall (well_formed_element ids) es ->
    in_heap h m_map ->
    exists (h' : Heap) (m_map' : gmap Z Ptr),
      DeserializeInformationElements ids h m_map (records ids es)
      = Ok (h', m_map')
      /\ (forall id : Z,
             Forall (fun e => ElementId ids e <> id) es ->
             pairs_of ids h' m_map' !! id = pairs_of ids h m_map !! id)
      /\ (forall (es1 es2 : list WifiInformationElement)
                 (e : WifiInformationElement),
             es = es1 ++ e :: es2 ->
             Forall (fun e' => ElementId ids e' <> ElementId ids e) es2 ->
             pairs_of ids h' m_map' !! ElementId ids e
             = Some (Some (ElementId ids e, SerializeInformationField e))).
Proof.
  intros es h m Hwf Hh.
  destruct (DeserializeLoop_records ids es Hwf
              (List.length (records ids es)) h m None Hh (le_n _))
    as (h' & m' & Hrun & Hpairs).
  exists h', m'. split; [exact Hrun|]. rewrite Hpairs. split.
  - intros id Hid.
    apply (foldl_insert_other (fun e => (entry_of ids e).1)
             (fun e => (entry_of ids e).2)). exact Hid.
  - intros es1 es2 e -> Hlast.
    apply (foldl_insert_last (fun e => (entry_of ids e).1)
             (fun e => (entry_of ids e).2)). exact Hlast.
Qed.

End ContainerMerge.

Section CanonicalBuffers.

Variable ids : ElementIds.

Lemma by_id_total : Total by_id.
Proof. intros a b. unfold by_id. lia. Qed.

Lemma by_id_transitive : Transitive by_id.
Proof. intros a b c. unfold by_id. lia. Qed.

Lemma key_le_transitive {V : Type} : Transitive (@key_le V).
Proof. intros a b c. unfold key_le. lia. Qed.

Lemma wire_of_alloc h m_map id e :
  in_heap h m_map ->
  wire_of ids (h ++ [e]) (<[id := Some (List.length h)]> m_map)
  = <[id := Some (ElementId ids e, GetInformationFieldSize e,
                  SerializeInformationField e)]> (wire_of ids h m_map).
Proof.
  intros H. unfold wire_of. rewrite fmap_insert. f_equal.
  - unfold deref. rewrite list_lookup_middle by reflexivity. reflexivity.
  - apply map_fmap_ext. intros k [l|] Hk; [|reflexivity].
    unfold deref. rewrite lookup_app_l by (eapply H; eassumption).
    reflexivity.
Qed.

Lemma DeserializeLoop_record_wire fuel h m_map p e rest :
  well_formed_element ids e ->
  exists e',
    DeserializeLoop ids (S fuel) h m_map p (Serialize ids e ++ rest)
    = DeserializeLoop ids fuel (h ++ [e'])
        (<[ElementId ids e := Some (List.length h)]> m_map)
        (Some (List.length h)) rest
    /\ wire_entry_of ids e' = wire_entry_of ids e.
Proof.
  intros (Hid & Hreg & Hsize & Hlt).
  destruct (CreateForId_registered ids _ p h Hreg) as (c & Hc & Hidc).
  exists (mkElement c (GetInformationFieldSize e)
            (SerializeInformationField e)).
  split; [|unfold wire_entry_of; rewrite Hidc; reflexivity].
  unfold Serialize, WriteU8. simpl.
  rewrite (Z.mod_small (ElementId ids e)) by lia.
  rewrite (Z.mod_small (GetInformationFieldSize e)) by lia.
  rewrite Hc. unfold Create, DeserializeElementBody, deref.
  rewrite list_lookup_middle by reflexivity. simpl.
  rewrite length_app.
  destruct (Z.ltb_spec (Z.of_nat (List.length (SerializeInformationField e)
                                  + List.length rest))
              (GetInformationFieldSize e)) as [Hl|_]; [lia|].
  simpl. rewrite Hsize, Nat2Z.id, take_app_length, drop_app_length.
  rewrite <- (Nat.add_0_r (List.length h)) at 1.
  rewrite insert_app_r. reflexivity.
Qed.

Lemma DeserializeLoop_records_wire es :
  Forall (well_formed_element ids) es ->
  forall fuel h m_map p,
    in_heap h m_map ->
    (List.length (records ids es) <= fuel)%nat ->
    exists h' m_map',
      DeserializeLoop ids fuel h m_map p (records ids es) = Ok (h', m_map')
      /\ wire_of ids h' m_map'
         = foldl (fun acc e => <[(wire_entry_of ids e).1
                                 := (wire_entry_of ids e).2]> acc)
             (wire_of ids h m_map) es.
Proof.
  induction 1 as [|e es He Hes IH]; intros fuel h m_map p Hh Hfuel.
  - exists h, m_map. split; [destruct fuel; reflexivity|reflexivity].
  - change (records ids (e :: es)) with (Serialize ids e ++ records ids es)
      in *.
    rewrite length_app in Hfuel.
    pose proof (Serialize_length ids e) as Hlen.
    destruct fuel as [|fuel]; [lia|].
    destruct (DeserializeLoop_record_wire fuel h m_map p e (records ids es) He)
      as (e' & -> & He').
    destruct (IH fuel (h ++ [e'])
                (<[ElementId ids e := Some (List.length h)]> m_map)
                (Some (List.length h))) as (h' & m' & Hrun & Hwire).
    + now apply in_heap_alloc.
    + lia.
    + exists h', m'. split; [exact Hrun|]. rewrite Hwire.
      rewrite wire_of_alloc by assumption.
      change (foldl ?f ?a (e :: es)) with (foldl f (f a e) es).
      cbv beta. rewrite <- He'. unfold wire_entry_of. simpl.
      assert (Hk : ElementId ids e' = ElementId ids e)
        by (unfold wire_entry_of in He'; congruence).
      rewrite Hk. reflexivity.
Qed.

Lemma SerializeFrom_wire h (L : list (Z * Ptr)) :
  forall es : list WifiInformationElement,
    prod_map id (fun p => match deref h p with
                          | Ok e => Some (ElementId ids e,
                                          GetInformationFieldSize e,
                                          SerializeInformationField e)
                          | Err _ => None
                          end) <$> L
    = wire_entry_of ids <$> es ->
    SerializeFrom ids h L = Ok (records ids es).
Proof.
  induction L as [|[k p] L IH]; intros [|e es] H; try discriminate H.
  - reflexivity.
  - rewrite !fmap_cons in H. injection H as Hk Hp Hrest.
    cbn [SerializeFrom snd]. destruct (deref h p) as [e'|]; [|discriminate Hp].
    injection Hp as Hid Hsz Hbody.
    assert (E : Serialize ids e' = Serialize ids e)
      by (unfold Serialize; rewrite Hid, Hsz, Hbody; reflexivity).
    cbn [rbind]. rewrite (IH es Hrest). cbn [rbind]. rewrite E. reflexivity.
Qed.

(** X26.  Parsing and writing back is the identity on canonical buffers: a
    buffer of well-formed records in strictly ascending order of id,
    parsed into an empty container, is written back byte for byte by
    [SerializeInformationElements]. *)
Theorem deserialize_serialize_roundtrip :
  forall (es : list WifiInformationElement) (h : Heap),
    Forall (well_formed_element ids) es ->
    StronglySorted (fun a b => ElementId ids a < ElementId ids b) es ->
    exists (h' : Heap) (m_map' : gmap Z Ptr),
      DeserializeInformationElements ids h ∅ (records ids es)
      = Ok (h', m_map')
      /\ SerializeInformationElements ids h' m_map' = Ok (records ids es).
Proof.
  intros es h Hwf Hsorted.
  destruct (DeserializeLoop_records_wire es Hwf
              (List.length (records ids es)) h ∅ None)
    as (h' & m' & Hrun & Hwire).
  { intros id l Hl. rewrite lookup_empty in Hl. discriminate. }
  { reflexivity. }
  exists h', m'. split; [exact Hrun|].
  unfold SerializeInformationElements. apply SerializeFrom_wire.
  set (g := fun p => match deref h' p with
                     | Ok e => Some (ElementId ids e,
                                     GetInformationFieldSize e,
                                     SerializeInformationField e)
                     | Err _ => None
                     end).
  set (T := wire_entry_of ids <$> es).
  assert (HT : StronglySorted (fun a b : Z * option (Z * Z * list Z) =>
                                 a.1 < b.1) T).
  { unfold T. eapply StronglySorted_fmap; [|exact Hsorted].
    intros x y Hxy. exact Hxy. }
  assert (Hnd : NoDup (T.*1)).
  { clear -HT. induction HT as [|x l Hl IH Hx]; [constructor|].
    rewrite fmap_cons. constructor; [|exact IH].
    intros Hin. apply list_elem_of_fmap in Hin as (y & Hy & Hyl).
    rewrite Forall_forall in Hx. specialize (Hx y Hyl). lia. }
  assert (Hw : wire_of ids h' m' = list_to_map (rev T)).
  { rewrite Hwire. unfold wire_of at 1. rewrite fmap_empty.
    rewrite <- (foldl_fmap (fun acc kv => <[kv.1 := kv.2]> acc) ∅ es
                  (wire_entry_of ids)).
    apply foldl_insert_list_to_map. }
  assert (Hperm : prod_map id g <$> in_order m' ≡ₚ T).
  { unfold in_order. rewrite merge_sort_Permutation.
    rewrite <- map_to_list_fmap.
    change (g <$> m') with (wire_of ids h' m'). rewrite Hw.
    rewrite map_to_list_to_map.
    - symmetry. apply Permutation_rev.
    - change ((rev T).*1) with (List.map fst (rev T)).
      rewrite List.map_rev. apply NoDup_ListNoDup, List.NoDup_rev.
      apply NoDup_ListNoDup. exact Hnd. }
  apply (StronglySorted_unique_strong key_le).
  - intros x1 x2 H1 H2 H12 H21. rewrite Hperm in H1.
    destruct x1 as [k1 v1], x2 as [k2 v2]. unfold key_le in *. simpl in *.
    assert (k1 = k2) by lia. subst k2. f_equal.
    pose proof (elem_of_list_to_map_1 (M := gmap Z) T k1 v1 Hnd H1) as E1.
    pose proof (elem_of_list_to_map_1 (M := gmap Z) T k1 v2 Hnd H2) as E2.
    congruence.
  - apply (@Sorted_StronglySorted _ key_le key_le_transitive).
    eapply Sorted_fmap;
      [|apply (@Sorted_merge_sort _ by_id _ by_id_total)].
    intros [a b] [c d] Hab. exact Hab.
  - unfold T. eapply StronglySorted_fmap; [|exact Hsorted].
    intros x y Hxy. unfold key_le. simpl in *. lia.
  - exact Hperm.
Qed.

End CanonicalBuffers.

(** ** Closed forms of the payload duration *)

Section ClosedForms.

Variable GetDataRate : WifiMode -> Z -> bool -> Z -> Z.
Variable OFDMSCMin : Q.
Variable OFDMBRPMin : Q.

Local Abbreviation PayloadDuration :=
  (GetPayloadDuration GetDataRate OFDMSCMin OFDMBRPMin).

(** X27.  For the DMG control mode without training field and a payload of
    7 to 8388603 bytes, the split of the bits over the codewords cancels
    out of the result: the payload takes the time of 32 chips at 1.76 GHz
    for each of the bits after the first 6 bytes and for 168 parity bits
    per codeword, rounded up to a nanosecond, whatever the preamble, the
    frequency and the role. *)
Theorem control_phy_payload_duration :
  forall (size : Z) (txVector : WifiTxVector) (preamble : WifiPreamble)
         (frequency : Q) (mpdutype : mpduType) (incFlag : Z) (st : WifiPhy),
    GetModulationClass (GetMode txVector) = WIFI_MOD_CLASS_DMG_CTRL ->
    GetTrainngFieldLength txVector = 0 ->
    7 <= size <= 8388603 ->
    PayloadDuration size txVector preamble frequency mpdutype incFlag st
    = (Ok (Qceiling (inject_Z (32 * (168 * DmgCtrlCodewords size
                                     + (size - 6) * 8))
                     / (176 # 100))), st).
Proof.
  intros size tv p f mt flag st Hc Ht Hs.
  unfold GetPayloadDuration, lift. rewrite Hc.
  rewrite DmgCtrl_without_training by assumption. reflexivity.
Qed.

(** X28.  A plain MPDU of an OFDM, HT or VHT mode of less than 2^30
    bytes, computed in binary64, lasts a whole number n of symbols, plus
    the signal extension where there is one.  The n symbols carry the
    service bits, the payload and the tail bits: against the symbols
    these bits fill, at the bits per symbol the code divides by, n is at
    least that number less one part in 2^53, the rounding of the
    quotient, and at most that number and one part in 2^53 more plus one
    symbol (two with STBC). *)
Theorem plain_mpdu_takes_whole_symbols :
  forall (size : Z) (txVector : WifiTxVector) (preamble : WifiPreamble)
         (frequency : Q) (incFlag : Z) (st : WifiPhy),
    GetModulationClass (GetMode txVector) = WIFI_MOD_CLASS_OFDM
    \/ GetModulationClass (GetMode txVector) = WIFI_MOD_CLASS_HT
    \/ GetModulationClass (GetMode txVector) = WIFI_MOD_CLASS_VHT ->
    rates_in_range GetDataRate (GetMode txVector) ->
    preamble <> WIFI_PREAMBLE_NONE ->
    0 <= size < 2 ^ 30 ->
    exists n : Z,
      Binary64Phy.GetPayloadDuration GetDataRate OFDMSCMin OFDMBRPMin size
        txVector preamble frequency NORMAL_MPDU incFlag st
      = (Ok (n * SymbolDuration txVector
             + SignalExtension txVector frequency NORMAL_MPDU preamble), st)
      /\ ((ServiceAndTailBits txVector + inject_Z size * 8)
          / Binary64Phy.BitsPerSymbol GetDataRate txVector
          * (1 - Binary64.unit_roundoff) <= inject_Z n)%Q
      /\ (inject_Z n
          <= (ServiceAndTailBits txVector + inject_Z size * 8)
             / Binary64Phy.BitsPerSymbol GetDataRate txVector
             * (1 + Binary64.unit_roundoff)
             + inject_Z (StbcFactor txVector))%Q.
Proof.
  intros size tv p f flag st Hc Hr Hp Hs.
  destruct (Bits_exact tv) as (O & HO1 & EO & HO).
  destruct (plain_frame64 GetDataRate OFDMSCMin OFDMBRPMin tv Hc Hr f O HO1
              HO p size flag st Hp Hs) as (Hrun & H1 & H2).
  exists (Binary64Phy.WholeSymbols GetDataRate tv size).
  split; [exact Hrun|].
  assert (E : (ServiceAndTailBits tv + inject_Z size * 8
               == inject_Z (O + 8 * size))%Q).
  { rewrite EO, inject_Z_plus, inject_Z_mult.
    change (inject_Z 8) with 8%Q. ring. }
  unfold Binary64Phy.Symbols in H1, H2. rewrite E. split; assumption.
Qed.

End ClosedForms.

(** ** Edges of the DMG payload *)

Lemma DmgTrainingFloor_floor (txVector : WifiTxVector) (floor : Q)
    (tData r : Z) :
  GetTrainngFieldLength txVector <> 0 ->
  (0 <= floor)%Q -> 0 <= tData < 2 ^ 32 ->
  DmgTrainingFloor txVector floor tData = Ok r ->
  Qfloor floor <= r /\ 0 <= r < 2 ^ 32.
Proof.
  intros Ht H0 Hd. unfold DmgTrainingFloor.
  destruct (Z.eqb_spec (GetTrainngFieldLength txVector) 0); [contradiction|].
  cbn [negb].
  destruct (Qle_bool floor (inject_Z tData)) eqn:E; cbn [negb].
  - intros [= <-]. split; [|exact Hd].
    apply Qle_bool_iff in E. rewrite <- (Qfloor_Z tData).
    now apply Qfloor_resp_le.
  - intros Hr. apply NumFacts.to_uint32_inv in Hr as [-> Hr].
    rewrite NumFacts.trunc_nonneg in * by assumption. lia.
Qed.

Section DmgEdges.

Variable GetDataRate : WifiMode -> Z -> bool -> Z -> Z.
Variable OFDMSCMin : Q.
Variable OFDMBRPMin : Q.

Local Abbreviation PayloadDuration :=
  (GetPayloadDuration GetDataRate OFDMSCMin OFDMBRPMin).

(** X29.  In the DMG control branch the divisor of the bits of a
    codeword, [Ncw - 1], is zero exactly for the payloads of at most 6
    bytes: up to 8388603 bytes the conversion in [Ncw] is defined and
    [Ncw] is at least 1, it is 1 for 0 to 6 bytes and more from 7 bytes
    on. *)
Theorem control_phy_divisor_is_zero_for_short_payloads :
  forall size : Z,
    0 <= size <= 8388603 ->
    exists Ncw : Z,
      DmgCtrlNcw size = Ok Ncw
      /\ 1 <= Ncw
      /\ (Num.wrap32 (Ncw - 1) = 0 <-> size <= 6).
Proof.
  intros size Hs. pose proof (DmgCtrlCodewords_range size Hs) as Hc.
  exists (1 + DmgCtrlCodewords size).
  split; [now apply DmgCtrlNcw_formula|]. split; [lia|].
  replace (1 + DmgCtrlCodewords size - 1) with (DmgCtrlCodewords size) by lia.
  rewrite NumFacts.wrap32_small by lia.
  split.
  - intros H0. destruct (Z_le_gt_dec size 6) as [|Hgt]; [assumption|].
    pose proof (DmgCtrlCodewords_positive size ltac:(lia)). lia.
  - intros Hle.
    assert (size = 0 \/ size = 1 \/ size = 2 \/ size = 3 \/ size = 4
            \/ size = 5 \/ size = 6) as Hcase by lia.
    repeat (destruct Hcase as [-> | Hcase]; [reflexivity|]). subst.
    reflexivity.
Qed.

(** X30.  With a training field appended, the data part of a DMG
    single-carrier or OFDM frame is never shorter than the floor of its
    PHY: whenever [GetPayloadDuration] returns a duration, it is at least
    [OFDMSCMin] (single carrier) or [OFDMBRPMin] (OFDM) in whole
    nanoseconds, and the accumulator is as before. *)
Theorem training_field_floor :
  forall (size : Z) (txVector : WifiTxVector) (preamble : WifiPreamble)
         (frequency : Q) (mpdutype : mpduType) (incFlag : Z)
         (st st' : WifiPhy) (d : Time),
    GetModulationClass (GetMode txVector) = WIFI_MOD_CLASS_DMG_SC
    \/ GetModulationClass (GetMode txVector) = WIFI_MOD_CLASS_DMG_OFDM ->
    GetTrainngFieldLength txVector <> 0 ->
    (0 <= OFDMSCMin)%Q -> (0 <= OFDMBRPMin)%Q ->
    PayloadDuration size txVector preamble frequency mpdutype incFlag st
    = (Ok d, st') ->
    st' = st
    /\ Qfloor match GetModulationClass (GetMode txVector) with
              | WIFI_MOD_CLASS_DMG_SC => OFDMSCMin
              | _ => OFDMBRPMin
              end <= d.
Proof.
  intros size tv p f mt flag st st' d Hc Ht Hsc Hofdm.
  unfold GetPayloadDuration, lift.
  destruct Hc as [Hc|Hc]; rewrite Hc; intros [= H <-]; (split; [reflexivity|]);
    revert H.
  - unfold DmgScPayloadDuration.
    repeat match goal with
           | |- context [rbind ?r _] =>
               destruct r eqn:?; cbn [rbind]; try discriminate
           end.
    intros [= <-].
    match goal with
    | E : DmgTrainingFloor _ _ _ = Ok _ |- _ =>
        apply DmgTrainingFloor_floor in E as [E1 E2];
        [|assumption|assumption|apply NumFacts.wrap32_range]
    end.
    unfold NanoSeconds. rewrite int64_of_uint64_small by lia. exact E1.
  - unfold DmgOfdmPayloadDuration.
    repeat match goal with
           | |- context [rbind ?r _] =>
               destruct r eqn:?; cbn [rbind]; try discriminate
           end.
    intros [= <-].
    match goal with
    | E : DmgTrainingFloor _ _ _ = Ok _ |- _ =>
        apply DmgTrainingFloor_floor in E as [E1 E2];
        [|assumption|assumption|apply NumFacts.wrap32_range]
    end.
    unfold NanoSeconds. rewrite int64_of_uint64_small by lia. exact E1.
Qed.

End DmgEdges.

(** ** The theorems above on the sample inputs *)

Lemma SampleDataRate_in_range_dsss :
  rates_in_range SampleDataRate (GetMode SampleDsssTxVector).
Proof. intros w g n. vm_compute. split; discriminate. Qed.

Lemma SampleOfdmMode_registered : In (GetMode SampleOfdmTxVector) Constructor.
Proof. unfold Constructor. repeat (first [left; reflexivity | right]). Qed.

Lemma SampleDmgScMode_registered :
  In (GetMode SampleDmgScTxVector) Constructor.
Proof. unfold Constructor. repeat (first [left; reflexivity | right]). Qed.

Lemma SampleElements_well_formed :
  Forall (well_formed_element SampleElementIds) SampleElements.
Proof. repeat constructor; vm_compute; congruence. Qed.

Lemma plcp_header_mode_idempotent_witness :
  GetPlcpHeaderMode GetOfdmRate6Mbps WIFI_PREAMBLE_HT_MF SampleHtTxVector
  = Ok GetOfdmRate6Mbps.
Proof.
  apply (plcp_header_mode_idempotent GetHtMcs0 WIFI_PREAMBLE_HT_MF
           SampleHtTxVector GetOfdmRate6Mbps).
  reflexivity.
Defined.

Lemma registered_mode_has_mandatory_header_mode_witness :
  exists headerMode : WifiMode,
    GetPlcpHeaderMode (GetMode SampleDmgScTxVector) WIFI_PREAMBLE_LONG
      SampleDmgScTxVector = Ok headerMode
    /\ IsMandatory headerMode = true
    /\ In headerMode Constructor.
Proof.
  apply (registered_mode_has_mandatory_header_mode
           (GetMode SampleDmgScTxVector) WIFI_PREAMBLE_LONG
           SampleDmgScTxVector).
  exact SampleDmgScMode_registered.
Defined.

Lemma registered_modes_equal_by_name_witness :
  GetMode SampleOfdmTxVector = GetOfdmRate6Mbps.
Proof.
  apply (registered_modes_equal_by_name (GetMode SampleOfdmTxVector)
           GetOfdmRate6Mbps).
  - exact SampleOfdmMode_registered.
  - exact SampleOfdmMode_registered.
  - reflexivity.
Defined.

Lemma greenfield_saves_8_microseconds_witness :
  exists mixed : Time,
    CalculatePlcpPreambleAndHeaderDuration SampleDataRate SampleHtTxVector
      WIFI_PREAMBLE_HT_MF = Ok mixed
    /\ CalculatePlcpPreambleAndHeaderDuration SampleDataRate SampleHtTxVector
         WIFI_PREAMBLE_HT_GF = Ok (mixed - 8000).
Proof.
  apply (greenfield_saves_8_microseconds SampleDataRate SampleHtTxVector).
  - reflexivity.
  - simpl. lia.
  - simpl. lia.
Defined.

Lemma plcp_overhead_bounded_witness :
  exists plcp : Time,
    CalculatePlcpPreambleAndHeaderDuration SampleDataRate SampleVhtTxVector
      WIFI_PREAMBLE_VHT = Ok plcp
    /\ 0 <= plcp <= 252000.
Proof.
  apply (plcp_overhead_bounded SampleDataRate SampleVhtTxVector
           WIFI_PREAMBLE_VHT).
  - discriminate.
  - simpl. lia.
  - simpl. lia.
Defined.

Lemma low_power_sc_frames_have_no_payload_time_witness :
  CalculateTxDuration SampleDataRate 0 0 100000 SampleLpScTxVector
    WIFI_PREAMBLE_LONG 60480 NORMAL_MPDU 0 WifiPhy_init
  = (Ok 2473, WifiPhy_init)
  /\ GetPlcpHeaderMode (GetMode SampleLpScTxVector) WIFI_PREAMBLE_LONG
       SampleLpScTxVector
     = Err (FatalError "unsupported modulation class").
Proof.
  apply (low_power_sc_frames_have_no_payload_time SampleDataRate 0 0 100000
           SampleLpScTxVector WIFI_PREAMBLE_LONG 60480 NORMAL_MPDU 0
           WifiPhy_init).
  - reflexivity.
  - left. reflexivity.
Defined.

Lemma wrong_combination_is_fatal_witness :
  GetPayloadDuration SampleDataRate 0 0 1000 SampleOfdmTxVector
    WIFI_PREAMBLE_NONE 5180 NORMAL_MPDU 1 (mkWifiPhy 1500 (3 # 2))
  = (Err (FatalError "Wrong combination of preamble and packet type"),
     mkWifiPhy 1500 (3 # 2)).
Proof.
  apply (wrong_combination_is_fatal SampleDataRate 0 0 1000 SampleOfdmTxVector
           WIFI_PREAMBLE_NONE 5180 NORMAL_MPDU 1 (mkWifiPhy 1500 (3 # 2))).
  - reflexivity.
  - left. split; reflexivity.
Defined.

Lemma lone_last_mpdu_costs_a_plain_mpdu_witness :
  exists d : Time,
    GetPayloadDuration SampleDataRate 0 0 1000 SampleOfdmTxVector
      WIFI_PREAMBLE_NONE 5180 LAST_MPDU_IN_AGGREGATE 1 WifiPhy_init
    = (Ok d, WifiPhy_init)
    /\ GetPayloadDuration SampleDataRate 0 0 1000 SampleOfdmTxVector
         WIFI_PREAMBLE_LONG 5180 NORMAL_MPDU 0 WifiPhy_init
       = (Ok d, WifiPhy_init).
Proof.
  apply (lone_last_mpdu_costs_a_plain_mpdu SampleDataRate 0 0 1000
           SampleOfdmTxVector WIFI_PREAMBLE_LONG 5180 1 0).
  - reflexivity.
  - exact SampleDataRate_in_range_ofdm.
  - discriminate.
  - lia.
Defined.

Lemma dsss_payload_duration_witness :
  GetPayloadDuration SampleDataRate 0 0 1000 SampleDsssTxVector
    WIFI_PREAMBLE_SHORT 2437 NORMAL_MPDU 0 WifiPhy_init
  = (Ok (1000 * Qceiling (inject_Z (1000 * 8000000)
                          / inject_Z (SampleDataRate
                                        (GetMode SampleDsssTxVector) 22 false
                                        1))), WifiPhy_init).
Proof.
  apply (dsss_payload_duration SampleDataRate 0 0 1000 SampleDsssTxVector
           WIFI_PREAMBLE_SHORT 2437 NORMAL_MPDU 0 WifiPhy_init).
  - left. reflexivity.
  - exact SampleDataRate_in_range_dsss.
  - lia.
Defined.

Lemma registered_mode_gets_a_duration_witness :
  exists plcp payload : Time,
    CalculatePlcpPreambleAndHeaderDuration SampleDataRate SampleOfdmTxVector
      WIFI_PREAMBLE_LONG = Ok plcp
    /\ CalculateTxDuration SampleDataRate 0 0 1000 SampleOfdmTxVector
         WIFI_PREAMBLE_LONG 5180 NORMAL_MPDU 0 WifiPhy_init
       = (Ok (plcp + payload), WifiPhy_init)
    /\ 0 <= payload.
Proof.
  apply (registered_mode_gets_a_duration SampleDataRate 0 0 1000
           SampleOfdmTxVector WIFI_PREAMBLE_LONG 5180 0 WifiPhy_init).
  - exact SampleOfdmMode_registered.
  - exact SampleDataRate_in_range_ofdm.
  - reflexivity.
  - discriminate.
  - simpl. lia.
  - discriminate.
Defined.

Lemma transmitted_bits_fit_32_bits_witness :
  (GetModulationClass (GetMode SampleDmgScTxVector) = WIFI_MOD_CLASS_DMG_SC
   \/ GetModulationClass (GetMode SampleDmgScTxVector)
      = WIFI_MOD_CLASS_DMG_OFDM)
  /\ 0 <= 41280 < 2 ^ 32.
Proof.
  apply (transmitted_bits_fit_32_bits 1000 SampleDmgScTxVector 41280).
  vm_compute. reflexivity.
Defined.

Lemma transmitted_bits_cover_the_payload_witness :
  exists bits : Z,
    CaluclateTransmittedBits 1000 SampleDmgScTxVector = Ok bits
    /\ 4416 + 8 * 1000 <= bits.
Proof.
  apply (transmitted_bits_cover_the_payload 1000 SampleDmgScTxVector).
  - exact SampleDmgScMode_registered.
  - left. reflexivity.
  - lia.
Defined.

Lemma transmitted_bits_monotone_witness :
  exists bitsa bitsb : Z,
    CaluclateTransmittedBits 100 SampleDmgScTxVector = Ok bitsa
    /\ CaluclateTransmittedBits 1000 SampleDmgScTxVector = Ok bitsb
    /\ bitsa <= bitsb.
Proof.
  apply (transmitted_bits_monotone 100 1000 SampleDmgScTxVector).
  - exact SampleDmgScMode_registered.
  - left. reflexivity.
  - lia.
  - lia.
Defined.

Lemma single_carrier_bits_and_duration_agree_witness :
  exists Ncbpb Nblks : Z,
    DmgScNcbpb (GetMode SampleDmgScTxVector) = Ok Ncbpb
    /\ 0 <= Nblks
    /\ CaluclateTransmittedBits 1000 SampleDmgScTxVector
       = Ok (4416 + Nblks * (Ncbpb + 64))
    /\ GetPayloadDuration SampleDataRate 0 0 1000 SampleDmgScTxVector
         WIFI_PREAMBLE_LONG 60480 NORMAL_MPDU 0 WifiPhy_init
       = (Ok (Qceiling ((inject_Z Nblks * 512 + 64) / (176 # 100))),
          WifiPhy_init).
Proof.
  apply (single_carrier_bits_and_duration_agree SampleDataRate 0 0 1000
           SampleDmgScTxVector WIFI_PREAMBLE_LONG 60480 NORMAL_MPDU 0
           WifiPhy_init).
  - exact SampleDmgScMode_registered.
  - reflexivity.
  - reflexivity.
  - lia.
Defined.

Lemma control_phy_payload_duration_witness :
  GetPayloadDuration SampleDataRate 0 0 100 SampleDmgCtrlTxVector
    WIFI_PREAMBLE_LONG 60480 NORMAL_MPDU 0 WifiPhy_init
  = (Ok (Qceiling (inject_Z (32 * (168 * DmgCtrlCodewords 100
                                   + (100 - 6) * 8))
                   / (176 # 100))), WifiPhy_init).
Proof.
  apply (control_phy_payload_duration SampleDataRate 0 0 100
           SampleDmgCtrlTxVector WIFI_PREAMBLE_LONG 60480 NORMAL_MPDU 0
           WifiPhy_init).
  - reflexivity.
  - reflexivity.
  - lia.
Defined.

Lemma control_phy_divisor_is_zero_for_short_payloads_witness :
  exists Ncw : Z,
    DmgCtrlNcw 7 = Ok Ncw /\ 1 <= Ncw /\ (Num.wrap32 (Ncw - 1) = 0 <-> 7 <= 6).
Proof.
  apply (control_phy_divisor_is_zero_for_short_payloads 7). lia.
Defined.

Lemma training_field_floor_witness :
  WifiPhy_init = WifiPhy_init
  /\ Qfloor match GetModulationClass (GetMode SampleDmgScTrainingTxVector)
            with
            | WIFI_MOD_CLASS_DMG_SC => 1000%Q
            | _ => 2000%Q
            end <= 1000.
Proof.
  apply (training_field_floor SampleDataRate 1000 2000 10
           SampleDmgScTrainingTxVector WIFI_PREAMBLE_LONG 60480 NORMAL_MPDU 0
           WifiPhy_init WifiPhy_init 1000).
  - left. reflexivity.
  - discriminate.
  - discriminate.
  - discriminate.
  - vm_compute. reflexivity.
Defined.

Lemma plain_mpdu_takes_whole_symbols_witness :
  exists n : Z,
    Binary64Phy.GetPayloadDuration SampleDataRate 0 0 1000 SampleOfdmTxVector
      WIFI_PREAMBLE_LONG 5180 NORMAL_MPDU 0 WifiPhy_init
    = (Ok (n * SymbolDuration SampleOfdmTxVector
           + SignalExtension SampleOfdmTxVector 5180 NORMAL_MPDU
               WIFI_PREAMBLE_LONG), WifiPhy_init)
    /\ ((ServiceAndTailBits SampleOfdmTxVector + inject_Z 1000 * 8)
        / Binary64Phy.BitsPerSymbol SampleDataRate SampleOfdmTxVector
        * (1 - Binary64.unit_roundoff) <= inject_Z n)%Q
    /\ (inject_Z n
        <= (ServiceAndTailBits SampleOfdmTxVector + inject_Z 1000 * 8)
           / Binary64Phy.BitsPerSymbol SampleDataRate SampleOfdmTxVector
           * (1 + Binary64.unit_roundoff)
           + inject_Z (StbcFactor SampleOfdmTxVector))%Q.
Proof.
  apply (plain_mpdu_takes_whole_symbols SampleDataRate 0 0 1000
           SampleOfdmTxVector WIFI_PREAMBLE_LONG 5180 0 WifiPhy_init).
  - left. reflexivity.
  - exact SampleDataRate_in_range_ofdm.
  - discriminate.
  - lia.
Defined.

Lemma added_element_is_found_witness :
  exists m_map' : gmap Z Ptr,
    AddWifiInformationElement SampleElementIds SampleHeap (Some 0%nat) ∅
    = Ok m_map'
    /\ GetInformationElement
         (ElementId SampleElementIds (mkElement HtCapabilities 3 [17; 18; 19]))
         m_map' = (Some 0%nat, m_map')
    /\ forall id : Z,
         id <> ElementId SampleElementIds
                 (mkElement HtCapabilities 3 [17; 18; 19]) ->
         m_map' !! id = (∅ : gmap Z Ptr) !! id.
Proof.
  apply (added_element_is_found SampleElementIds SampleHeap (Some 0%nat)
           (mkElement HtCapabilities 3 [17; 18; 19]) ∅).
  reflexivity.
Defined.

Lemma container_keeps_last_element_per_id_witness :
  (ElementId SampleElementIds (mkElement HtCapabilities 3 [17; 18; 19])
   <> ElementId SampleElementIds (mkElement SupportedRates 2 [130; 132]) ->
   (let? m := AddWifiInformationElement SampleElementIds SampleHeap
                (Some 0%nat) ∅ in
    AddWifiInformationElement SampleElementIds SampleHeap (Some 1%nat) m)
   = (let? m := AddWifiInformationElement SampleElementIds SampleHeap
                  (Some 1%nat) ∅ in
      AddWifiInformationElement SampleElementIds SampleHeap (Some 0%nat) m))
  /\ (ElementId SampleElementIds (mkElement HtCapabilities 3 [17; 18; 19])
      = ElementId SampleElementIds (mkElement SupportedRates 2 [130; 132]) ->
      (let? m := AddWifiInformationElement SampleElementIds SampleHeap
                   (Some 0%nat) ∅ in
       AddWifiInformationElement SampleElementIds SampleHeap (Some 1%nat) m)
      = AddWifiInformationElement SampleElementIds SampleHeap (Some 1%nat) ∅).
Proof.
  apply (container_keeps_last_element_per_id SampleElementIds SampleHeap
           (Some 0%nat) (Some 1%nat)
           (mkElement HtCapabilities 3 [17; 18; 19])
           (mkElement SupportedRates 2 [130; 132]) ∅).
  - reflexivity.
  - reflexivity.
Defined.

Lemma serialized_size_is_number_of_bytes_witness :
  exists bytes : list Z,
    SerializeInformationElements SampleElementIds SampleHeap SampleContainer
    = Ok bytes
    /\ GetInformationElementsSerializedSize SampleHeap SampleContainer
       = Ok (Z.of_nat (List.length bytes)).
Proof.
  apply (serialized_size_is_number_of_bytes SampleElementIds SampleHeap
           SampleContainer).
  exact SampleContainer_well_formed.
Defined.

Lemma unknown_first_id_is_a_null_dereference_witness :
  DeserializeInformationElements SampleElementIds [] ∅ [7; 1; 255]
  = Err NullDereference.
Proof.
  apply (unknown_first_id_is_a_null_dereference SampleElementIds [] ∅ 7 1
           [255]).
  reflexivity.
Defined.

Lemma unknown_id_reuses_previous_element_witness :
  exists (h' : Heap) (m_map' : gmap Z Ptr) (e' : WifiInformationElement),
    DeserializeInformationElements SampleElementIds [] ∅
      (Serialize SampleElementIds (mkElement SupportedRates 2 [130; 132])
       ++ 7 :: Z.of_nat (List.length [255]) :: [255])
    = Ok (h', m_map')
    /\ m_map' !! ElementId SampleElementIds
                   (mkElement SupportedRates 2 [130; 132])
       = Some (Some (List.length ([] : Heap)))
    /\ m_map' !! 7 = Some (Some (List.length ([] : Heap)))
    /\ deref h' (Some (List.length ([] : Heap))) = Ok e'
    /\ ElementId SampleElementIds e'
       = ElementId SampleElementIds (mkElement SupportedRates 2 [130; 132])
    /\ SerializeInformationField e' = [255].
Proof.
  apply (unknown_id_reuses_previous_element SampleElementIds [] ∅
           (mkElement SupportedRates 2 [130; 132]) 7 [255]).
  - repeat split; vm_compute; congruence.
  - reflexivity.
Defined.

Lemma deserialize_merges_records_witness :
  exists (h' : Heap) (m_map' : gmap Z Ptr),
    DeserializeInformationElements SampleElementIds [] ∅
      (records SampleElementIds SampleElements)
    = Ok (h', m_map')
    /\ (forall id : Z,
           Forall (fun e => ElementId SampleElementIds e <> id)
             SampleElements ->
           pairs_of SampleElementIds h' m_map' !! id
           = pairs_of SampleElementIds [] ∅ !! id)
    /\ (forall (es1 es2 : list WifiInformationElement)
               (e : WifiInformationElement),
           SampleElements = es1 ++ e :: es2 ->
           Forall (fun e' => ElementId SampleElementIds e'
                             <> ElementId SampleElementIds e) es2 ->
           pairs_of SampleElementIds h' m_map'
             !! ElementId SampleElementIds e
           = Some (Some (ElementId SampleElementIds e,
                         SerializeInformationField e))).
Proof.
  apply (deserialize_merges_records SampleElementIds SampleElements [] ∅).
  - exact SampleElements_well_formed.
  - intros id l Hl. rewrite lookup_empty in Hl. discriminate Hl.
Defined.

Lemma deserialize_serialize_roundtrip_witness :
  exists (h' : Heap) (m_map' : gmap Z Ptr),
    DeserializeInformationElements SampleElementIds [] ∅
      (records SampleElementIds SampleElements)
    = Ok (h', m_map')
    /\ SerializeInformationElements SampleElementIds h' m_map'
       = Ok (records SampleElementIds SampleElements).
Proof.
  apply (deserialize_serialize_roundtrip SampleElementIds SampleElements []).
  - exact SampleElements_well_formed.
  - repeat constructor.
Defined.
